(** * Waternity orchestrator: event verification and session reduction

    A shallow embedding of the TypeScript sources

    - [src/lib/hcs/messageFormats.ts]: the message records, and module
      [Formats] over the untyped values of modules [JS] and [JSON];
    - [src/lib/hcs/verificationPipeline.ts]: module [Pipeline], with the
      exports of the module it imports [ed25519] from in module [Noble];
    - [src/lib/orchestrator/mirrorNodeClient.ts]: module [MirrorNode];
    - [src/lib/orchestrator/sessionManager.ts]: module [Manager];

    followed by the properties proved about them.

    Conventions.  A JavaScript [number] is an IEEE 754 binary64 value and is
    kept as a primitive [float]; the comparisons and products of the source
    are the primitive ones, so rounding and NaN behave as in the engine.
    [Date.now()] returns an integral number of milliseconds: the session
    manager, which only subtracts and compares clock readings, keeps them in
    [Z], and every operation takes the reading [now] as an argument.
    Sequence numbers of the consensus topic are integers and are kept in [Z];
    where the source adds to one, the sum is rounded to binary64 as the
    engine rounds it ([Number.add]).  Counters that only step by one from
    zero (the retry count) are kept in [Z].
    A [Map] whose iteration order is observable (the session registry) is an
    insertion-ordered association list; the other maps are [gmap]s.
    Listener callbacks run inside [try]/[catch] and only observe; they are
    left out. *)

From Stdlib Require Import Floats ZArith Bool.
From stdpp Require Import gmap strings list pretty.

Local Open Scope Z_scope.

#[local] Set Warnings "-register-all,-inexact-float".

Abbreviation number := float (only parsing).

(** ** Insertion-ordered [Map<string, V>] *)

Module JSMap.
Section Ordered.
Context {V : Type}.

Fixpoint get (k : string) (m : list (string * V)) : option V :=
  match m with
  | [] => None
  | (k', v) :: m' => if String.eqb k k' then Some v else get k m'
  end.

(** [Map.prototype.set]: an existing key keeps its place, a new key goes
    last. *)
Fixpoint set (k : string) (v : V) (m : list (string * V)) : list (string * V) :=
  match m with
  | [] => [(k, v)]
  | (k', v') :: m' =>
      if String.eqb k k' then (k', v) :: m' else (k', v') :: set k v m'
  end.

Fixpoint delete (k : string) (m : list (string * V)) : list (string * V) :=
  match m with
  | [] => []
  | (k', v') :: m' =>
      if String.eqb k k' then m' else (k', v') :: delete k m'
  end.

Definition keys (m : list (string * V)) : list string := map fst m.
Definition values (m : list (string * V)) : list V := map snd m.

(** [Array.from(m.values()).filter(f).length]. *)
Definition count (f : V -> bool) (m : list (string * V)) : nat :=
  length (List.filter f (values m)).

End Ordered.
End JSMap.

(** ** Outcome of a call that may [throw] *)

Inductive result (A : Type) : Type :=
| Returned (a : A)
| Thrown (message : string).
Arguments Returned {A} a.
Arguments Thrown {A} message.

(** ** messageFormats.ts: the two wire events *)

Module ValveStatus.
Inductive t := OPEN | CLOSED.
Definition eqb (a b : t) : bool :=
  match a, b with OPEN, OPEN | CLOSED, CLOSED => true | _, _ => false end.
End ValveStatus.

Module DeviceState.
Inductive t := ONLINE | OFFLINE | MAINTENANCE | ERROR.
Definition eqb (a b : t) : bool :=
  match a, b with
  | ONLINE, ONLINE | OFFLINE, OFFLINE
  | MAINTENANCE, MAINTENANCE | ERROR, ERROR => true
  | _, _ => false
  end.
End DeviceState.

Module Level.
Inductive t := OK | WARNING | ERROR.
End Level.

Module Diagnostics.
Record t := mk {
  pumpStatus : Level.t;
  sensorStatus : Level.t;
  networkStatus : Level.t;
  memoryUsage : number;
  uptime : number
}.
End Diagnostics.

Module WaterFlowMessage.
Record t := mk {
  timestamp : number;
  deviceId : string;
  wellId : string;
  signature : string;
  sessionId : string;
  userId : string;
  pulseCount : number;
  flowRate : number;
  totalVolume : number;
  valveStatus : ValveStatus.t;
  pressure : number;
  temperature : number
}.
End WaterFlowMessage.

Module DeviceStatusMessage.
Record t := mk {
  timestamp : number;
  deviceId : string;
  wellId : string;
  signature : string;
  status : DeviceState.t;
  batteryLevel : number;
  signalStrength : number;
  lastMaintenance : number;
  errorCode : option string;
  diagnostics : Diagnostics.t
}.
End DeviceStatusMessage.

(** [HCSMessage = WaterFlowMessage | DeviceStatusMessage]; the constructor is
    the [messageType] tag. *)
Inductive HCSMessage :=
| WATER_FLOW (m : WaterFlowMessage.t)
| DEVICE_STATUS (m : DeviceStatusMessage.t).

Module HCS.
Definition timestamp (m : HCSMessage) : number :=
  match m with
  | WATER_FLOW f => WaterFlowMessage.timestamp f
  | DEVICE_STATUS s => DeviceStatusMessage.timestamp s
  end.
Definition deviceId (m : HCSMessage) : string :=
  match m with
  | WATER_FLOW f => WaterFlowMessage.deviceId f
  | DEVICE_STATUS s => DeviceStatusMessage.deviceId s
  end.
Definition wellId (m : HCSMessage) : string :=
  match m with
  | WATER_FLOW f => WaterFlowMessage.wellId f
  | DEVICE_STATUS s => DeviceStatusMessage.wellId s
  end.
End HCS.

(** ** mirrorNodeClient.ts: what the ingestion client hands to subscribers *)

Module ProcessedMessage.
(** [message] is the parsed payload; [None] stands for a payload that carries
    neither [messageType] (the [{}] of a parse failure, or foreign JSON). *)
Record t := mk {
  sequenceNumber : Z;
  timestamp : string;
  consensusTimestamp : string;
  message : option HCSMessage;
  isValid : bool;
  validationErrors : option (list string);
  payerAccountId : string
}.
End ProcessedMessage.

(** ** sessionManager.ts: data *)

Module WaterFlowEvent.
Record t := mk {
  timestamp : number;
  consensusTimestamp : string;
  sequenceNumber : Z;
  pulseCount : number;
  flowRate : number;
  totalVolume : number;
  valveStatus : ValveStatus.t;
  pressure : number;
  temperature : number;
  isValid : bool
}.
End WaterFlowEvent.

Module Status.
Inductive t := active | completed | cancelled | error.
Definition eqb (a b : t) : bool :=
  match a, b with
  | active, active | completed, completed
  | cancelled, cancelled | error, error => true
  | _, _ => false
  end.
End Status.

Module WaterSession.
Record t := mk {
  sessionId : string;
  userId : string;
  deviceId : string;
  wellId : string;
  startTime : Z;
  endTime : option Z;
  maxVolume : number;
  pricePerLiter : number;
  totalVolume : number;
  totalCost : number;
  status : Status.t;
  lastActivity : Z;
  flowEvents : list WaterFlowEvent.t;
  paymentTxHash : option string;
  revenueSplitTxHash : option string;
  errorMessage : option string
}.

(** Field assignments [session.f = v]. *)
Definition set_endTime (v : option Z) (s : t) : t :=
  mk (sessionId s) (userId s) (deviceId s) (wellId s) (startTime s) v
     (maxVolume s) (pricePerLiter s) (totalVolume s) (totalCost s) (status s)
     (lastActivity s) (flowEvents s) (paymentTxHash s) (revenueSplitTxHash s)
     (errorMessage s).
Definition set_totalVolume (v : number) (s : t) : t :=
  mk (sessionId s) (userId s) (deviceId s) (wellId s) (startTime s) (endTime s)
     (maxVolume s) (pricePerLiter s) v (totalCost s) (status s)
     (lastActivity s) (flowEvents s) (paymentTxHash s) (revenueSplitTxHash s)
     (errorMessage s).
Definition set_totalCost (v : number) (s : t) : t :=
  mk (sessionId s) (userId s) (deviceId s) (wellId s) (startTime s) (endTime s)
     (maxVolume s) (pricePerLiter s) (totalVolume s) v (status s)
     (lastActivity s) (flowEvents s) (paymentTxHash s) (revenueSplitTxHash s)
     (errorMessage s).
Definition set_status (v : Status.t) (s : t) : t :=
  mk (sessionId s) (userId s) (deviceId s) (wellId s) (startTime s) (endTime s)
     (maxVolume s) (pricePerLiter s) (totalVolume s) (totalCost s) v
     (lastActivity s) (flowEvents s) (paymentTxHash s) (revenueSplitTxHash s)
     (errorMessage s).
Definition set_lastActivity (v : Z) (s : t) : t :=
  mk (sessionId s) (userId s) (deviceId s) (wellId s) (startTime s) (endTime s)
     (maxVolume s) (pricePerLiter s) (totalVolume s) (totalCost s) (status s)
     v (flowEvents s) (paymentTxHash s) (revenueSplitTxHash s)
     (errorMessage s).
Definition set_flowEvents (v : list WaterFlowEvent.t) (s : t) : t :=
  mk (sessionId s) (userId s) (deviceId s) (wellId s) (startTime s) (endTime s)
     (maxVolume s) (pricePerLiter s) (totalVolume s) (totalCost s) (status s)
     (lastActivity s) v (paymentTxHash s) (revenueSplitTxHash s)
     (errorMessage s).
Definition set_errorMessage (v : option string) (s : t) : t :=
  mk (sessionId s) (userId s) (deviceId s) (wellId s) (startTime s) (endTime s)
     (maxVolume s) (pricePerLiter s) (totalVolume s) (totalCost s) (status s)
     (lastActivity s) (flowEvents s) (paymentTxHash s) (revenueSplitTxHash s)
     v.
End WaterSession.

Module DeviceStatus.
Record t := mk {
  deviceId : string;
  wellId : string;
  lastSeen : number;
  status : DeviceState.t;
  batteryLevel : number;
  signalStrength : number;
  lastMaintenance : number;
  errorCode : option string;
  diagnostics : option Diagnostics.t
}.
End DeviceStatus.

Module SessionData.
(** The argument object of [createSession]. *)
Record t := mk {
  sessionId : string;
  userId : string;
  deviceId : string;
  wellId : string;
  maxVolume : number;
  pricePerLiter : number
}.
End SessionData.

Module SessionManagerConfig.
Record t := mk {
  sessionTimeout : Z;
  maxSessionDuration : Z;
  volumeTolerancePercent : number;
  cleanupInterval : Z
}.
End SessionManagerConfig.

Module Statistics.
Record t := mk {
  totalSessions : nat;
  activeSessions : nat;
  completedSessions : nat;
  cancelledSessions : nat;
  errorSessions : nat;
  totalVolume : number;
  totalRevenue : number;
  onlineDevices : nat;
  totalDevices : nat
}.
End Statistics.

(** ** sessionManager.ts: the [SessionManager] class *)

Module Manager.

(** The private fields; [activeSessions] holds every session that has not yet
    been evicted, whatever its status. *)
Record t := mk {
  config : SessionManagerConfig.t;
  activeSessions : list (string * WaterSession.t);
  deviceStatuses : gmap string DeviceStatus.t
}.

Definition new (cfg : SessionManagerConfig.t) : t := mk cfg [] ∅.

Definition with_sessions (reg : list (string * WaterSession.t)) (m : t) : t :=
  mk (config m) reg (deviceStatuses m).

(** A write through the reference that [activeSessions.get(id)] returned. *)
Definition store (id : string) (s : WaterSession.t) (m : t) : t :=
  with_sessions (JSMap.set id s (activeSessions m)) m.

Definition getSession (sessionId : string) (m : t) : option WaterSession.t :=
  JSMap.get sessionId (activeSessions m).

Definition isActiveOn (deviceId : string) (s : WaterSession.t) : bool :=
  String.eqb (WaterSession.deviceId s) deviceId
  && Status.eqb (WaterSession.status s) Status.active.

Definition getActiveSessionForDevice (deviceId : string) (m : t)
  : option WaterSession.t :=
  List.find (isActiveOn deviceId) (JSMap.values (activeSessions m)).

(** How many registered sessions are active on a device. *)
Definition activeOn (deviceId : string) (m : t) : nat :=
  JSMap.count (isActiveOn deviceId) (activeSessions m).

Definition getDeviceStatus (deviceId : string) (m : t) : option DeviceStatus.t :=
  deviceStatuses m !! deviceId.

Definition isOnline (d : option DeviceStatus.t) : bool :=
  match d with
  | Some ds => DeviceState.eqb (DeviceStatus.status ds) DeviceState.ONLINE
  | None => false
  end.

(** The manager is returned beside the outcome, so that what a [throw]
    leaves behind can be stated. *)
Definition createSession (sessionData : SessionData.t) (now : Z) (m : t)
  : t * result WaterSession.t :=
  let deviceId := SessionData.deviceId sessionData in
  if negb (isOnline (getDeviceStatus deviceId m)) then
    (m, Thrown ("Device " +:+ deviceId +:+ " is not online"))
  else
    match getActiveSessionForDevice deviceId m with
    | Some existingSession =>
        (m, Thrown ("Device " +:+ deviceId +:+ " already has an active session: "
                    +:+ WaterSession.sessionId existingSession))
    | None =>
        let session :=
          WaterSession.mk
            (SessionData.sessionId sessionData) (SessionData.userId sessionData)
            deviceId (SessionData.wellId sessionData)
            now None
            (SessionData.maxVolume sessionData)
            (SessionData.pricePerLiter sessionData)
            0%float 0%float Status.active now [] None None None in
        (store (WaterSession.sessionId session) session m, Returned session)
    end.

(** [reason] only reaches the console. *)
Definition completeSession (sessionId : string) (reason : option string)
  (now : Z) (m : t) : t * bool :=
  match getSession sessionId m with
  | None => (m, false)
  | Some session =>
      if negb (Status.eqb (WaterSession.status session) Status.active) then
        (m, false)
      else
        let session :=
          WaterSession.set_endTime (Some now)
            (WaterSession.set_status Status.completed session) in
        (store sessionId session m, true)
  end.

Definition cancelSession (sessionId : string) (reason : option string)
  (now : Z) (m : t) : t * bool :=
  match getSession sessionId m with
  | None => (m, false)
  | Some session =>
      if negb (Status.eqb (WaterSession.status session) Status.active) then
        (m, false)
      else
        let session :=
          WaterSession.set_errorMessage reason
            (WaterSession.set_endTime (Some now)
               (WaterSession.set_status Status.cancelled session)) in
        (store sessionId session m, true)
  end.

Definition errorSession (sessionId : string) (errorMessage : string)
  (now : Z) (m : t) : t * bool :=
  match getSession sessionId m with
  | None => (m, false)
  | Some session =>
      let session :=
        WaterSession.set_errorMessage (Some errorMessage)
          (WaterSession.set_endTime (Some now)
             (WaterSession.set_status Status.error session)) in
      (store sessionId session m, true)
  end.

Definition flowEventOf (pm : ProcessedMessage.t) (flowMessage : WaterFlowMessage.t)
  : WaterFlowEvent.t :=
  WaterFlowEvent.mk
    (WaterFlowMessage.timestamp flowMessage)
    (ProcessedMessage.consensusTimestamp pm)
    (ProcessedMessage.sequenceNumber pm)
    (WaterFlowMessage.pulseCount flowMessage)
    (WaterFlowMessage.flowRate flowMessage)
    (WaterFlowMessage.totalVolume flowMessage)
    (WaterFlowMessage.valveStatus flowMessage)
    (WaterFlowMessage.pressure flowMessage)
    (WaterFlowMessage.temperature flowMessage)
    true.

(** The four assignments under "Add to session". *)
Definition addFlow (flowEvent : WaterFlowEvent.t) (volume : number) (now : Z)
  (session : WaterSession.t) : WaterSession.t :=
  let s1 := WaterSession.set_flowEvents
              (WaterSession.flowEvents session ++ [flowEvent]) session in
  let s2 := WaterSession.set_totalVolume volume s1 in
  let s3 := WaterSession.set_totalCost
              (WaterSession.totalVolume s2 * WaterSession.pricePerLiter s2)%float s2 in
  WaterSession.set_lastActivity now s3.

Definition processWaterFlowMessage (pm : ProcessedMessage.t)
  (flowMessage : WaterFlowMessage.t) (now : Z) (m : t) : t :=
  match getSession (WaterFlowMessage.sessionId flowMessage) m with
  | None => m
  | Some session =>
      if negb (String.eqb (WaterSession.deviceId session)
                          (WaterFlowMessage.deviceId flowMessage))
         || negb (String.eqb (WaterSession.userId session)
                             (WaterFlowMessage.userId flowMessage))
      then m
      else
        let session :=
          addFlow (flowEventOf pm flowMessage)
                  (WaterFlowMessage.totalVolume flowMessage) now session in
        let m := store (WaterFlowMessage.sessionId flowMessage) session m in
        if ValveStatus.eqb (WaterFlowMessage.valveStatus flowMessage)
                           ValveStatus.CLOSED
           || (WaterSession.maxVolume session <=? WaterSession.totalVolume session)%float
        then fst (completeSession (WaterSession.sessionId session)
                    (Some "Volume limit reached or valve closed") now m)
        else m
  end.

Definition processDeviceStatusMessage (pm : ProcessedMessage.t)
  (statusMessage : DeviceStatusMessage.t) (now : Z) (m : t) : t :=
  let deviceStatus :=
    DeviceStatus.mk
      (DeviceStatusMessage.deviceId statusMessage)
      (DeviceStatusMessage.wellId statusMessage)
      (DeviceStatusMessage.timestamp statusMessage)
      (DeviceStatusMessage.status statusMessage)
      (DeviceStatusMessage.batteryLevel statusMessage)
      (DeviceStatusMessage.signalStrength statusMessage)
      (DeviceStatusMessage.lastMaintenance statusMessage)
      (DeviceStatusMessage.errorCode statusMessage)
      (Some (DeviceStatusMessage.diagnostics statusMessage)) in
  let m :=
    mk (config m) (activeSessions m)
       (<[DeviceStatusMessage.deviceId statusMessage := deviceStatus]>
          (deviceStatuses m)) in
  if DeviceState.eqb (DeviceStatusMessage.status statusMessage)
                     DeviceState.OFFLINE
  then
    match getActiveSessionForDevice
            (DeviceStatusMessage.deviceId statusMessage) m with
    | Some activeSession =>
        fst (cancelSession (WaterSession.sessionId activeSession)
               (Some "Device went offline") now m)
    | None => m
    end
  else m.

Definition processMessage (pm : ProcessedMessage.t) (now : Z) (m : t) : t :=
  if negb (ProcessedMessage.isValid pm) then m
  else
    match ProcessedMessage.message pm with
    | Some (WATER_FLOW flowMessage) =>
        processWaterFlowMessage pm flowMessage now m
    | Some (DEVICE_STATUS statusMessage) =>
        processDeviceStatusMessage pm statusMessage now m
    | None => m
    end.

(** [session.endTime] used as a condition: [undefined] and [0] are falsy. *)
Definition truthy (endTime : option Z) : bool :=
  match endTime with
  | Some e => negb (e =? 0)
  | None => false
  end.

Definition retention : Z := 24 * 60 * 60 * 1000.

(** One turn of the [for ... of this.activeSessions.entries()] loop.  The
    loop variable [session] is the object stored under [sessionId], so what
    [cancelSession]/[completeSession] wrote is what the second test reads. *)
Definition sweepEntry (now : Z) (acc : t * list string) (sessionId : string)
  : t * list string :=
  let '(m, sessionsToRemove) := acc in
  match getSession sessionId m with
  | None => acc
  | Some session =>
      let m :=
        if Status.eqb (WaterSession.status session) Status.active then
          let timeSinceLastActivity := now - WaterSession.lastActivity session in
          let sessionDuration := now - WaterSession.startTime session in
          if SessionManagerConfig.sessionTimeout (config m) <? timeSinceLastActivity
          then fst (cancelSession sessionId
                      (Some "Session timeout due to inactivity") now m)
          else if SessionManagerConfig.maxSessionDuration (config m) <? sessionDuration
          then fst (completeSession sessionId
                      (Some "Maximum session duration reached") now m)
          else m
        else m in
      match getSession sessionId m with
      | None => (m, sessionsToRemove)
      | Some session =>
          if negb (Status.eqb (WaterSession.status session) Status.active)
             && truthy (WaterSession.endTime session)
          then
            let timeSinceEnd := now - default 0 (WaterSession.endTime session) in
            if retention <? timeSinceEnd
            then (m, sessionsToRemove ++ [sessionId])
            else (m, sessionsToRemove)
          else (m, sessionsToRemove)
      end
  end.

Definition cleanupOldSessions (now : Z) (m : t) : t :=
  let '(m, sessionsToRemove) :=
    fold_left (sweepEntry now) (JSMap.keys (activeSessions m)) (m, []) in
  fold_left
    (fun m sessionId => with_sessions (JSMap.delete sessionId (activeSessions m)) m)
    sessionsToRemove m.

Definition countStatus (st : Status.t) (sessions : list WaterSession.t) : nat :=
  length (List.filter (fun s => Status.eqb (WaterSession.status s) st) sessions).

Definition getStatistics (m : t) : Statistics.t :=
  let sessions := JSMap.values (activeSessions m) in
  let devices := (map_to_list (deviceStatuses m)).*2 in
  Statistics.mk
    (length sessions)
    (countStatus Status.active sessions)
    (countStatus Status.completed sessions)
    (countStatus Status.cancelled sessions)
    (countStatus Status.error sessions)
    (fold_left (fun sum s => (sum + WaterSession.totalVolume s)%float) sessions 0%float)
    (fold_left (fun sum s => (sum + WaterSession.totalCost s)%float) sessions 0%float)
    (length (List.filter
               (fun d => DeviceState.eqb (DeviceStatus.status d) DeviceState.ONLINE)
               devices))
    (length devices).

Definition destroy (m : t) : t := mk (config m) [] ∅.

(** What the sweep leaves of an active session [s] it cancels for inactivity,
    and of one it completes for its duration. *)
Definition cancelledByTimeout (now : Z) (s : WaterSession.t) : WaterSession.t :=
  WaterSession.set_errorMessage (Some "Session timeout due to inactivity")
    (WaterSession.set_endTime (Some now)
       (WaterSession.set_status Status.cancelled s)).

Definition completedByDuration (now : Z) (s : WaterSession.t) : WaterSession.t :=
  WaterSession.set_endTime (Some now)
    (WaterSession.set_status Status.completed s).

(** The sweep at [now] took the session under [id] from active to the
    terminal session [s']. *)
Definition sweptToTerminal (now : Z) (m : t) (id : string) (s' : WaterSession.t)
  : Prop :=
  ∃ s, getSession id m = Some s
       ∧ WaterSession.status s = Status.active
       ∧ getSession id (cleanupOldSessions now m) = Some s'
       ∧ WaterSession.status s' ≠ Status.active.





(** The calls that reach a manager after construction. *)
Inductive Op :=
| CreateSession (sessionData : SessionData.t)
| ProcessMessage (pm : ProcessedMessage.t)
| CompleteSession (sessionId : string) (reason : option string)
| CancelSession (sessionId : string) (reason : option string)
| ErrorSession (sessionId : string) (errorMessage : string)
| CleanupOldSessions.

(** One call at clock reading [now]. *)
Definition step (m : t) (call : Z * Op) : t :=
  let '(now, op) := call in
  match op with
  | CreateSession sessionData => fst (createSession sessionData now m)
  | ProcessMessage pm => processMessage pm now m
  | CompleteSession sessionId reason => fst (completeSession sessionId reason now m)
  | CancelSession sessionId reason => fst (cancelSession sessionId reason now m)
  | ErrorSession sessionId errorMessage => fst (errorSession sessionId errorMessage now m)
  | CleanupOldSessions => cleanupOldSessions now m
  end.

Definition run (cfg : SessionManagerConfig.t) (calls : list (Z * Op)) : t :=
  fold_left step calls (new cfg).

End Manager.

(** ** The module ['@noble/ed25519']

    [verificationPipeline.ts] binds the name [ed25519] of this module.  The
    repository's own stand-in for the module
    ([tests/setup/jest.setup.js], lines 138-147) lists what it exports. *)

Module Noble.

Definition exports : list string := ["sign"; "verify"; "getPublicKey"; "utils"].

(** [import { name } from '@noble/ed25519']: whether [name] is bound to an
    export; a name the module does not export is bound to [undefined]. *)
Definition bound (name : string) : bool := existsb (String.eqb name) exports.

End Noble.

(** ** verificationPipeline.ts *)

Module DeviceRegistry.
Record t := mk {
  deviceId : string;
  wellId : string;
  publicKey : string;
  isActive : bool;
  lastSeen : number;
  owner : string
}.
Definition set_lastSeen (v : number) (d : t) : t :=
  mk (deviceId d) (wellId d) (publicKey d) (isActive d) v (owner d).
End DeviceRegistry.

Module VerificationResult.
Record t := mk {
  isValid : bool;
  errors : list string;
  warnings : list string;
  deviceInfo : option DeviceRegistry.t
}.
End VerificationResult.

Module Tracking.
(** The value type of the pipeline's private [activeSessions] map. *)
Record t := mk {
  startTime : number;
  totalVolume : number
}.
End Tracking.

Module Pipeline.

Record t := mk {
  deviceRegistry : gmap string DeviceRegistry.t;
  activeSessions : gmap string Tracking.t
}.

Definition new : t := mk ∅ ∅.

Definition maxTimestampDrift : number := (5 * 60 * 1000)%float.
Definition maxSessionDuration : number := (60 * 60 * 1000)%float.

Definition registerDevice (device : DeviceRegistry.t) (p : t) : t :=
  mk (<[DeviceRegistry.deviceId device := device]> (deviceRegistry p))
     (activeSessions p).

Definition getDevice (deviceId : string) (p : t) : option DeviceRegistry.t :=
  deviceRegistry p !! deviceId.

(** [now] is the reading of [Date.now()]. *)
Definition validateTimestamp (now timestamp : number) : bool :=
  let timeDiff := abs (now - timestamp) in
  (timeDiff <=? maxTimestampDrift)%float.

(** The template literal [`${message.deviceId}-${message.sessionId}`]. *)
Definition sessionKey (message : WaterFlowMessage.t) : string :=
  WaterFlowMessage.deviceId message +:+ "-" +:+ WaterFlowMessage.sessionId message.

Definition pushIf (c : bool) (e : string) (errors : list string) : list string :=
  if c then errors ++ [e] else errors.

Definition validateWaterFlowMessage (message : WaterFlowMessage.t) (p : t)
  : t * list string :=
  let errors : list string := [] in
  let existingSession := activeSessions p !! sessionKey message in
  let '(p, errors) :=
    match existingSession with
    | Some existing =>
        let sessionDuration :=
          (WaterFlowMessage.timestamp message - Tracking.startTime existing)%float in
        let errors :=
          pushIf (maxSessionDuration <? sessionDuration)%float
                 "Session duration exceeds maximum allowed time" errors in
        let errors :=
          pushIf (WaterFlowMessage.totalVolume message
                  <? Tracking.totalVolume existing)%float
                 "Total volume cannot decrease during session" errors in
        (p, errors)
    | None =>
        (mk (deviceRegistry p)
            (<[sessionKey message :=
                 Tracking.mk (WaterFlowMessage.timestamp message)
                             (WaterFlowMessage.totalVolume message)]>
               (activeSessions p)),
         errors)
    end in
  let errors :=
    pushIf (WaterFlowMessage.flowRate message <? 0)%float
           "Flow rate cannot be negative" errors in
  let errors :=
    pushIf (WaterFlowMessage.totalVolume message <? 0)%float
           "Total volume cannot be negative" errors in
  let errors :=
    pushIf (WaterFlowMessage.pulseCount message <? 0)%float
           "Pulse count cannot be negative" errors in
  let errors :=
    pushIf ((WaterFlowMessage.pressure message <? 0)%float
            || (200 <? WaterFlowMessage.pressure message)%float)
           "Pressure reading out of valid range (0-200 PSI)" errors in
  let errors :=
    pushIf ((WaterFlowMessage.temperature message <? -10)%float
            || (60 <? WaterFlowMessage.temperature message)%float)
           "Temperature reading out of valid range (-10 to 60°C)" errors in
  let p :=
    match existingSession with
    | Some existing =>
        mk (deviceRegistry p)
           (<[sessionKey message :=
                Tracking.mk (Tracking.startTime existing)
                            (WaterFlowMessage.totalVolume message)]>
              (activeSessions p))
    | None => p
    end in
  (p, errors).

Definition validateDeviceStatusMessage (message : DeviceStatusMessage.t)
  : list string :=
  let errors : list string := [] in
  let errors :=
    pushIf ((DeviceStatusMessage.batteryLevel message <? 0)%float
            || (100 <? DeviceStatusMessage.batteryLevel message)%float)
           "Battery level must be between 0 and 100" errors in
  let errors :=
    pushIf ((DeviceStatusMessage.signalStrength message <? -120)%float
            || (0 <? DeviceStatusMessage.signalStrength message)%float)
           "Signal strength out of valid range (-120 to 0 dBm)" errors in
  let diagnostics := DeviceStatusMessage.diagnostics message in
  let errors :=
    pushIf ((Diagnostics.memoryUsage diagnostics <? 0)%float
            || (100 <? Diagnostics.memoryUsage diagnostics)%float)
           "Memory usage must be between 0 and 100" errors in
  pushIf (Diagnostics.uptime diagnostics <? 0)%float
         "Uptime cannot be negative" errors.

Section Verify.

(** [verifySignature]: ed25519 over the JSON text of the payload without its
    [signature] field, against the device's public key; [false] when the
    library throws.  The outcome is taken as given. *)
Variable verifySignature : HCSMessage -> string -> bool.

Definition verifyMessage (message : HCSMessage) (now : number) (p : t)
  : t * VerificationResult.t :=
  match getDevice (HCS.deviceId message) p with
  | None =>
      (p, VerificationResult.mk false ["Device not registered in the system"]
            [] None)
  | Some device =>
      let errors : list string := [] in
      let errors :=
        pushIf (negb (DeviceRegistry.isActive device))
               "Device is not active" errors in
      let errors :=
        pushIf (negb (String.eqb (DeviceRegistry.wellId device) (HCS.wellId message)))
               "Device is not associated with the specified well" errors in
      let errors :=
        pushIf (negb (validateTimestamp now (HCS.timestamp message)))
               "Message timestamp is outside acceptable range" errors in
      let signatureValid :=
        verifySignature message (DeviceRegistry.publicKey device) in
      let errors :=
        pushIf (negb signatureValid)
               "Message signature verification failed" errors in
      let '(p, errors) :=
        match message with
        | WATER_FLOW flow =>
            let '(p, flowErrors) := validateWaterFlowMessage flow p in
            (p, errors ++ flowErrors)
        | DEVICE_STATUS statusMsg =>
            (p, errors ++ validateDeviceStatusMessage statusMsg)
        end in
      (* device.lastSeen = message.timestamp; result.deviceInfo is that object *)
      let device := DeviceRegistry.set_lastSeen (HCS.timestamp message) device in
      let p :=
        mk (<[HCS.deviceId message := device]> (deviceRegistry p))
           (activeSessions p) in
      let warnings :=
        match message with
        | DEVICE_STATUS statusMsg =>
            pushIf (DeviceStatusMessage.signalStrength statusMsg <? -90)%float
                   "Device signal strength is weak"
              (pushIf (DeviceStatusMessage.batteryLevel statusMsg <? 20)%float
                      "Device battery level is low" [])
        | WATER_FLOW _ => []
        end in
      (p, VerificationResult.mk (Nat.eqb (length errors) 0) errors warnings
            (Some device))
  end.

(** Events verified one after the other; [feed] pairs each event with the
    clock reading at its verification. *)
Fixpoint verifyAll (feed : list (number * HCSMessage)) (p : t)
  : t * list VerificationResult.t :=
  match feed with
  | [] => (p, [])
  | (now, message) :: rest =>
      let '(p, r) := verifyMessage message now p in
      let '(p, rs) := verifyAll rest p in
      (p, r :: rs)
  end.

(** The volumes of the flow events of [feed] that were accepted, in order. *)
Definition acceptedVolumes (feed : list (number * HCSMessage)) (p : t)
  : list number :=
  omap (fun '((_, message), r) =>
          match message with
          | WATER_FLOW flow =>
              if VerificationResult.isValid r
              then Some (WaterFlowMessage.totalVolume flow) else None
          | DEVICE_STATUS _ => None
          end)
       (zip feed (verifyAll feed p).2).

End Verify.

(** [verifySignature]: its whole body runs inside [try], and [catch] returns
    [false].  [verify] stands for [ed25519.verify] on the bytes of the
    signature, of the JSON text of the payload without its signature, and of
    the key, with the error it may throw, should [ed25519] be bound to an
    object that has it; reading [verify] of [undefined] throws. *)
Definition verifySignature (verify : HCSMessage -> string -> result bool)
  (message : HCSMessage) (publicKey : string) : bool :=
  if Noble.bound "ed25519" then
    match verify message publicKey with
    | Returned valid => valid
    | Thrown _ => false
    end
  else false.

Definition cleanupExpiredSessions (now : number) (p : t) : t :=
  mk (deviceRegistry p)
     (filter (fun kv => negb (maxSessionDuration <? now - Tracking.startTime kv.2)%float)
             (activeSessions p)).

End Pipeline.

(** ** Arithmetic of [number] on integers *)

Module Number.

(** The nearest binary64 value of an integer, ties to even: an integer of at
    most 53 significant bits is one; a longer one loses its low bits.  (Near
    2^1024 the nearest value is [Infinity]; a sequence number plus one stays
    clear of it, the largest binary64 value plus one being rounded back to
    it.) *)
Definition round (n : Z) : Z :=
  let magnitude := Z.abs n in
  let excess := Z.log2 magnitude + 1 - 53 in
  if excess <=? 0 then n
  else
    let quotient := Z.shiftr magnitude excess in
    let remainder := Z.land magnitude (Z.ones excess) in
    let half := Z.shiftl 1 (excess - 1) in
    let quotient :=
      if (half <? remainder) || ((remainder =? half) && Z.odd quotient)
      then quotient + 1 else quotient in
    Z.sgn n * Z.shiftl quotient excess.

(** [a + b]. *)
Definition add (a b : Z) : Z := round (a + b).

Definition MAX_SAFE_INTEGER : Z := 2 ^ 53 - 1.

(** [Math.pow(2, n)] for an integer [n]: the power of two, [Infinity] from
    1024 on and 0 below -1074. *)
Definition Math_pow2 (n : Z) : number := Z.ldexp 1%float n.

(** [Math.min(x, y)]: NaN when either is, and -0 below +0. *)
Definition Math_min (x y : number) : number :=
  if is_nan x || is_nan y then nan
  else if (x <? y)%float then x
  else if (y <? x)%float then y
  else if is_zero x && get_sign x then x else y.

End Number.

(** ** mirrorNodeClient.ts: the [MirrorNodeClient] class *)

Module TopicMessage.
Record t := mk {
  consensus_timestamp : string;
  message : string;
  payer_account_id : string;
  running_hash : string;
  running_hash_version : Z;
  sequence_number : Z;
  topic_id : string;
  valid_start_timestamp : string
}.
End TopicMessage.

Module MirrorNodeConfig.
Record t := mk {
  baseUrl : string;
  topicId : string;
  pollInterval : number;
  maxRetries : Z;
  timeout : Z
}.
End MirrorNodeConfig.

Module MirrorNode.

(** [pollTimeout] keeps the delay the pending timer was set with, if any. *)
Record t := mk {
  config : MirrorNodeConfig.t;
  lastSequenceNumber : Z;
  isPolling : bool;
  pollTimeout : option number;
  retryCount : Z
}.

Definition new (cfg : MirrorNodeConfig.t) : t := mk cfg 0 false None 0.

(** What [await this.getMessages(...)] came to: the page of the mirror node,
    or the error thrown (network failure, abort on timeout, non-2xx status). *)
Inductive FetchOutcome :=
| Fetched (messages : list TopicMessage.t)
| Failed (error : string).

(** [if (fromSequenceNumber)]: [undefined] and [0] add no filter. *)
Definition sequenceFilter (fromSequenceNumber : option Z) : option Z :=
  match fromSequenceNumber with
  | Some n => if n =? 0 then None else Some n
  | None => None
  end.

Section Url.

(** [`${n}`]: the engine's decimal text of a number, taken as given (for a
    safe integer, its digits). *)
Variable toString : Z -> string.

Definition buildUrl (c : t) (fromSequenceNumber : option Z) (limit : Z) : string :=
  let url :=
    MirrorNodeConfig.baseUrl (config c) +:+ "/api/v1/topics/"
    +:+ MirrorNodeConfig.topicId (config c) +:+ "/messages?limit="
    +:+ toString limit +:+ "&order=asc" in
  match sequenceFilter fromSequenceNumber with
  | Some n => url +:+ "&sequencenumber=gte:" +:+ toString n
  | None => url
  end.

(** The URL [poll] asks for: [getMessages(this.lastSequenceNumber + 1)], at
    the default limit. *)
Definition pollUrl (c : t) : string :=
  buildUrl c (Some (Number.add (lastSequenceNumber c) 1)) 100.

End Url.

(** [startPolling(fromSequenceNumber?)], up to its call of [poll]. *)
Definition startPolling (fromSequenceNumber : option Z) (c : t) : t :=
  if isPolling c then c
  else mk (config c) (default 0 (sequenceFilter fromSequenceNumber)) true
          (pollTimeout c) 0.

Definition stopPolling (c : t) : t :=
  mk (config c) (lastSequenceNumber c) false None (retryCount c).

(** [Math.max(x, ...xs)] on integers. *)
Definition Math_max (x : Z) (xs : list Z) : Z := fold_left Z.max xs x.

Definition scheduleNextPoll (c : t) : t :=
  if negb (isPolling c) then c
  else mk (config c) (lastSequenceNumber c) (isPolling c)
          (Some (MirrorNodeConfig.pollInterval (config c))) (retryCount c).

Definition handlePollError (error : string) (c : t) : t :=
  let c := mk (config c) (lastSequenceNumber c) (isPolling c) (pollTimeout c)
              (retryCount c + 1) in
  if MirrorNodeConfig.maxRetries (config c) <=? retryCount c then stopPolling c
  else
    let backoffDelay :=
      (Number.Math_pow2 (retryCount c) * MirrorNodeConfig.pollInterval (config c))%float in
    let maxDelay := 60000%float in
    let delay := Number.Math_min backoffDelay maxDelay in
    mk (config c) (lastSequenceNumber c) (isPolling c) (Some delay) (retryCount c).

(** The cursor bounds what was delivered and is one of the delivered sequence
    numbers, unless nothing was delivered and it stands where it stood. *)
Definition cursorIsMaximum (before after : Z) (delivered : list ProcessedMessage.t)
  : Prop :=
  Forall (fun pm => ProcessedMessage.sequenceNumber pm <= after) delivered
  ∧ (delivered ≠ [] →
     ∃ pm, pm ∈ delivered ∧ ProcessedMessage.sequenceNumber pm = after)
  ∧ (delivered = [] → after = before).

Section Ingest.

(** [JSON.parse] of the base64-decoded payload: the parsed message, or the
    error thrown.  The result is cast to [HCSMessage] unchecked. *)
Variable parsePayload : string -> result (option HCSMessage).

(** [verifyHCSMessage], imported from the verification module (which does not
    export that name); taken as given, with the error it may throw. *)
Variable verifyHCSMessage : option HCSMessage -> result VerificationResult.t.

Definition invalidMessage (rawMessage : TopicMessage.t) (error : string)
  : ProcessedMessage.t :=
  ProcessedMessage.mk
    (TopicMessage.sequence_number rawMessage)
    (TopicMessage.valid_start_timestamp rawMessage)
    (TopicMessage.consensus_timestamp rawMessage)
    None false (Some ["Parse error: " +:+ error])
    (TopicMessage.payer_account_id rawMessage).

Definition processMessage (rawMessage : TopicMessage.t) : ProcessedMessage.t :=
  match parsePayload (TopicMessage.message rawMessage) with
  | Thrown error => invalidMessage rawMessage error
  | Returned hcsMessage =>
      match verifyHCSMessage hcsMessage with
      | Thrown error => invalidMessage rawMessage error
      | Returned verification =>
          ProcessedMessage.mk
            (TopicMessage.sequence_number rawMessage)
            (TopicMessage.valid_start_timestamp rawMessage)
            (TopicMessage.consensus_timestamp rawMessage)
            hcsMessage
            (VerificationResult.isValid verification)
            (if VerificationResult.isValid verification then None
             else Some (VerificationResult.errors verification))
            (TopicMessage.payer_account_id rawMessage)
      end
  end.

Definition processMessages (rawMessages : list TopicMessage.t)
  : list ProcessedMessage.t :=
  map processMessage rawMessages.

(** One run of [poll], given what the fetch of
    [buildUrl(lastSequenceNumber + 1)] came to.  The second component lists,
    in order, the messages every registered message callback was called with. *)
Definition poll (outcome : FetchOutcome) (c : t) : t * list ProcessedMessage.t :=
  if negb (isPolling c) then (c, [])
  else
    match outcome with
    | Failed error => (handlePollError error c, [])
    | Fetched rawMessages =>
        let messages := processMessages rawMessages in
        let c :=
          match messages with
          | [] => c
          | first :: others =>
              mk (config c)
                 (Math_max (ProcessedMessage.sequenceNumber first)
                           (map ProcessedMessage.sequenceNumber others))
                 (isPolling c) (pollTimeout c) (retryCount c)
          end in
        let c := mk (config c) (lastSequenceNumber c) (isPolling c)
                    (pollTimeout c) 0 in
        (scheduleNextPoll c, messages)
    end.

(** Successive poll cycles; the deliveries are concatenated. *)
Fixpoint polls (outcomes : list FetchOutcome) (c : t) : t * list ProcessedMessage.t :=
  match outcomes with
  | [] => (c, [])
  | outcome :: rest =>
      let '(c, delivered) := poll outcome c in
      let '(c, later) := polls rest c in
      (c, delivered ++ later)
  end.

(** The mirror node honours the filter of the URL it was asked: every message
    of the page has a sequence number at or above it. *)
Definition honoursFilter (c : t) (rawMessages : list TopicMessage.t) : Prop :=
  match sequenceFilter (Some (Number.add (lastSequenceNumber c) 1)) with
  | Some n => Forall (fun raw => n <= TopicMessage.sequence_number raw) rawMessages
  | None => True
  end.

(** No message of the page lies below the cursor. *)
Definition notBelowCursor (c : t) (rawMessages : list TopicMessage.t) : Prop :=
  Forall (fun raw => lastSequenceNumber c <= TopicMessage.sequence_number raw)
    rawMessages.

(** Successful cycles none of whose pages lies below the cursor of its
    cycle. *)
Fixpoint ascending (pages : list (list TopicMessage.t)) (c : t) : Prop :=
  match pages with
  | [] => True
  | page :: rest => notBelowCursor c page ∧ ascending rest (poll (Fetched page) c).1
  end.

End Ingest.

End MirrorNode.

(** ** messageFormats.ts: validators and (de)serialisation

    The validators take [message: any]; untyped values are the [JS.Value]s
    below.  [JSON.stringify] and [JSON.parse] are the engine's: a JSON text is
    kept as the document it spells ([JSON.Json]), or as a text that spells
    none ([JSON.Malformed]).  What ECMAScript fixes about the two is kept: a
    property whose value is [undefined] is not written and an array element
    that is [undefined] is written [null], a number that is not finite is
    written [null], negative zero is written [0], every other number is read
    back as itself, and of the members of an object that repeat a name the
    last one gives the value, at the place of the first. *)

Module JS.

(** The properties of an object are listed in the order they were defined,
    which is the order the engine enumerates names that are not array
    indices in; no field of the two messages is named by an index. *)
Inductive Value :=
| Undefined
| Null
| Boolean (b : bool)
| Number (x : number)
| String (s : string)
| Object (properties : list (string * Value))
| Array (elements : list Value).

Definition typeof (v : Value) : string :=
  match v with
  | Undefined => "undefined"
  | Null => "object"
  | Boolean _ => "boolean"
  | Number _ => "number"
  | String _ => "string"
  | Object _ => "object"
  | Array _ => "object"
  end.

Definition nullish (v : Value) : bool :=
  match v with Undefined | Null => true | _ => false end.

(** [v.name] for [v] that is neither [null] nor [undefined], and [name] one
    of the field names of the two messages: none of them is a property of an
    array or of a prototype, so only an object's own properties answer. *)
Definition member (name : string) (v : Value) : Value :=
  match v with
  | Object properties => default Undefined (JSMap.get name properties)
  | _ => Undefined
  end.

(** [v === 'literal']. *)
Definition isString (literal : string) (v : Value) : bool :=
  match v with String s => String.eqb s literal | _ => false end.

Definition truthy (v : Value) : bool :=
  match v with
  | Undefined | Null => false
  | Boolean b => b
  | Number x => negb (is_zero x || is_nan x)
  | String s => negb (String.eqb s "")
  | Object _ => true
  | Array _ => true
  end.

End JS.

Module JSON.

Inductive Document :=
| Null
| Boolean (b : bool)
| Number (x : number)
| String (s : string)
| Object (members : list (string * Document))
| Array (elements : list Document).

Inductive Text :=
| Json (document : Document)
| Malformed (raw : string).

Definition isNegativeZero (x : number) : bool := is_zero x && get_sign x.

Definition finite (x : number) : bool := negb (is_nan x || is_infinity x).

(** The number read back from the decimal text written for [x]. *)
Definition positiveZero (x : number) : number :=
  if isNegativeZero x then 0%float else x.

Definition numberToken (x : number) : Document :=
  if finite x then Number (positiveZero x) else Null.

(** [SerializeJSONProperty]; [None] is [undefined]. *)
Fixpoint serialize (v : JS.Value) : option Document :=
  match v with
  | JS.Undefined => None
  | JS.Null => Some Null
  | JS.Boolean b => Some (Boolean b)
  | JS.Number x => Some (numberToken x)
  | JS.String s => Some (String s)
  | JS.Object properties =>
      Some (Object
        ((fix members (ps : list (string * JS.Value)) : list (string * Document) :=
            match ps with
            | [] => []
            | (name, v) :: ps =>
                match serialize v with
                | Some d => (name, d) :: members ps
                | None => members ps
                end
            end) properties))
  | JS.Array elements =>
      Some (Array (map (fun v => default Null (serialize v)) elements))
  end.

(** The value [JSON.parse] builds: the members of an object are defined one
    after the other on a fresh object, so a name that comes again keeps its
    place and takes the later value. *)
Fixpoint valueOf (d : Document) : JS.Value :=
  match d with
  | Null => JS.Null
  | Boolean b => JS.Boolean b
  | Number x => JS.Number x
  | String s => JS.String s
  | Object members =>
      JS.Object
        ((fix properties (ms : list (string * Document))
              (object : list (string * JS.Value)) : list (string * JS.Value) :=
            match ms with
            | [] => object
            | (name, d) :: ms => properties ms (JSMap.set name (valueOf d) object)
            end) members [])
  | Array elements => JS.Array (map valueOf elements)
  end.

(** [JSON.stringify(v)]; for [undefined] the caller holds [undefined], which
    reads as the text ["undefined"] where a string is expected. *)
Definition stringify (v : JS.Value) : Text :=
  match serialize v with
  | Some d => Json d
  | None => Malformed "undefined"
  end.

Definition parse (text : Text) : result JS.Value :=
  match text with
  | Json d => Returned (valueOf d)
  | Malformed raw => Thrown "SyntaxError"
  end.

End JSON.

Module Formats.

Definition isNumber (v : JS.Value) : bool := String.eqb (JS.typeof v) "number".
Definition isText (v : JS.Value) : bool := String.eqb (JS.typeof v) "string".

(** [['a', 'b'].includes(v)]. *)
Definition includes (literals : list string) (v : JS.Value) : bool :=
  existsb (fun literal => JS.isString literal v) literals.

Definition TypeError : string := "TypeError: Cannot read properties".

Definition validateWaterFlowMessage (message : JS.Value) : result bool :=
  if JS.nullish message then Thrown TypeError
  else Returned (
    JS.isString "WATER_FLOW" (JS.member "messageType" message)
    && isNumber (JS.member "timestamp" message)
    && isText (JS.member "deviceId" message)
    && isText (JS.member "wellId" message)
    && isText (JS.member "signature" message)
    && isText (JS.member "sessionId" message)
    && isText (JS.member "userId" message)
    && isNumber (JS.member "pulseCount" message)
    && isNumber (JS.member "flowRate" message)
    && isNumber (JS.member "totalVolume" message)
    && includes ["OPEN"; "CLOSED"] (JS.member "valveStatus" message)
    && isNumber (JS.member "pressure" message)
    && isNumber (JS.member "temperature" message)).

Definition validateDeviceStatusMessage (message : JS.Value) : result bool :=
  if JS.nullish message then Thrown TypeError
  else Returned (
    JS.isString "DEVICE_STATUS" (JS.member "messageType" message)
    && isNumber (JS.member "timestamp" message)
    && isText (JS.member "deviceId" message)
    && isText (JS.member "wellId" message)
    && isText (JS.member "signature" message)
    && includes ["ONLINE"; "OFFLINE"; "MAINTENANCE"; "ERROR"]
                (JS.member "status" message)
    && isNumber (JS.member "batteryLevel" message)
    && isNumber (JS.member "signalStrength" message)
    && isNumber (JS.member "lastMaintenance" message)
    && JS.truthy (JS.member "diagnostics" message)
    && String.eqb (JS.typeof (JS.member "diagnostics" message)) "object").

Definition validateHCSMessage (message : JS.Value) : result bool :=
  if JS.nullish message then Thrown TypeError
  else if JS.isString "WATER_FLOW" (JS.member "messageType" message)
  then validateWaterFlowMessage message
  else if JS.isString "DEVICE_STATUS" (JS.member "messageType" message)
  then validateDeviceStatusMessage message
  else Returned false.

(** The object a typed message is at run time. *)
Definition valveStatusValue (v : ValveStatus.t) : JS.Value :=
  JS.String match v with ValveStatus.OPEN => "OPEN" | ValveStatus.CLOSED => "CLOSED" end.

Definition deviceStateValue (s : DeviceState.t) : JS.Value :=
  JS.String match s with
            | DeviceState.ONLINE => "ONLINE"
            | DeviceState.OFFLINE => "OFFLINE"
            | DeviceState.MAINTENANCE => "MAINTENANCE"
            | DeviceState.ERROR => "ERROR"
            end.

Definition levelValue (l : Level.t) : JS.Value :=
  JS.String match l with
            | Level.OK => "OK"
            | Level.WARNING => "WARNING"
            | Level.ERROR => "ERROR"
            end.

Definition diagnosticsValue (d : Diagnostics.t) : JS.Value :=
  JS.Object
    [ ("pumpStatus", levelValue (Diagnostics.pumpStatus d));
      ("sensorStatus", levelValue (Diagnostics.sensorStatus d));
      ("networkStatus", levelValue (Diagnostics.networkStatus d));
      ("memoryUsage", JS.Number (Diagnostics.memoryUsage d));
      ("uptime", JS.Number (Diagnostics.uptime d)) ].

Definition toValue (message : HCSMessage) : JS.Value :=
  match message with
  | WATER_FLOW m =>
      JS.Object
        [ ("timestamp", JS.Number (WaterFlowMessage.timestamp m));
          ("deviceId", JS.String (WaterFlowMessage.deviceId m));
          ("wellId", JS.String (WaterFlowMessage.wellId m));
          ("signature", JS.String (WaterFlowMessage.signature m));
          ("messageType", JS.String "WATER_FLOW");
          ("sessionId", JS.String (WaterFlowMessage.sessionId m));
          ("userId", JS.String (WaterFlowMessage.userId m));
          ("pulseCount", JS.Number (WaterFlowMessage.pulseCount m));
          ("flowRate", JS.Number (WaterFlowMessage.flowRate m));
          ("totalVolume", JS.Number (WaterFlowMessage.totalVolume m));
          ("valveStatus", valveStatusValue (WaterFlowMessage.valveStatus m));
          ("pressure", JS.Number (WaterFlowMessage.pressure m));
          ("temperature", JS.Number (WaterFlowMessage.temperature m)) ]
  | DEVICE_STATUS m =>
      JS.Object
        ([ ("timestamp", JS.Number (DeviceStatusMessage.timestamp m));
           ("deviceId", JS.String (DeviceStatusMessage.deviceId m));
           ("wellId", JS.String (DeviceStatusMessage.wellId m));
           ("signature", JS.String (DeviceStatusMessage.signature m));
           ("messageType", JS.String "DEVICE_STATUS");
           ("status", deviceStateValue (DeviceStatusMessage.status m));
           ("batteryLevel", JS.Number (DeviceStatusMessage.batteryLevel m));
           ("signalStrength", JS.Number (DeviceStatusMessage.signalStrength m));
           ("lastMaintenance", JS.Number (DeviceStatusMessage.lastMaintenance m)) ]
         ++ match DeviceStatusMessage.errorCode m with
            | Some code => [ ("errorCode", JS.String code) ]
            | None => []
            end
         ++ [ ("diagnostics", diagnosticsValue (DeviceStatusMessage.diagnostics m)) ])
  end.

Definition serializeMessage (message : HCSMessage) : JSON.Text :=
  JSON.stringify (toValue message).

(** The result is the parsed object itself; [None] is [null]. *)
Definition deserializeMessage (data : JSON.Text) : option JS.Value :=
  match JSON.parse data with
  | Thrown _ => None
  | Returned parsed =>
      match validateHCSMessage parsed with
      | Returned true => Some parsed
      | Returned false => None
      | Thrown _ => None
      end
  end.

(** Every numeric field of a typed message. *)
Definition numbers (message : HCSMessage) : list number :=
  match message with
  | WATER_FLOW m =>
      [ WaterFlowMessage.timestamp m; WaterFlowMessage.pulseCount m;
        WaterFlowMessage.flowRate m; WaterFlowMessage.totalVolume m;
        WaterFlowMessage.pressure m; WaterFlowMessage.temperature m ]
  | DEVICE_STATUS m =>
      [ DeviceStatusMessage.timestamp m; DeviceStatusMessage.batteryLevel m;
        DeviceStatusMessage.signalStrength m; DeviceStatusMessage.lastMaintenance m;
        Diagnostics.memoryUsage (DeviceStatusMessage.diagnostics m);
        Diagnostics.uptime (DeviceStatusMessage.diagnostics m) ]
  end.

(** The numeric fields the validators test with [typeof]: the top-level
    ones; the validator of status messages does not look inside
    [diagnostics]. *)
Definition checkedNumbers (message : HCSMessage) : list number :=
  match message with
  | WATER_FLOW m =>
      [ WaterFlowMessage.timestamp m; WaterFlowMessage.pulseCount m;
        WaterFlowMessage.flowRate m; WaterFlowMessage.totalVolume m;
        WaterFlowMessage.pressure m; WaterFlowMessage.temperature m ]
  | DEVICE_STATUS m =>
      [ DeviceStatusMessage.timestamp m; DeviceStatusMessage.batteryLevel m;
        DeviceStatusMessage.signalStrength m; DeviceStatusMessage.lastMaintenance m ]
  end.

(** The message with every negative zero replaced by [0]. *)
Definition positiveZeros (message : HCSMessage) : HCSMessage :=
  let z := JSON.positiveZero in
  match message with
  | WATER_FLOW m =>
      WATER_FLOW
        (WaterFlowMessage.mk
           (z (WaterFlowMessage.timestamp m)) (WaterFlowMessage.deviceId m)
           (WaterFlowMessage.wellId m) (WaterFlowMessage.signature m)
           (WaterFlowMessage.sessionId m) (WaterFlowMessage.userId m)
           (z (WaterFlowMessage.pulseCount m)) (z (WaterFlowMessage.flowRate m))
           (z (WaterFlowMessage.totalVolume m)) (WaterFlowMessage.valveStatus m)
           (z (WaterFlowMessage.pressure m)) (z (WaterFlowMessage.temperature m)))
  | DEVICE_STATUS m =>
      let d := DeviceStatusMessage.diagnostics m in
      DEVICE_STATUS
        (DeviceStatusMessage.mk
           (z (DeviceStatusMessage.timestamp m)) (DeviceStatusMessage.deviceId m)
           (DeviceStatusMessage.wellId m) (DeviceStatusMessage.signature m)
           (DeviceStatusMessage.status m)
           (z (DeviceStatusMessage.batteryLevel m))
           (z (DeviceStatusMessage.signalStrength m))
           (z (DeviceStatusMessage.lastMaintenance m))
           (DeviceStatusMessage.errorCode m)
           (Diagnostics.mk (Diagnostics.pumpStatus d) (Diagnostics.sensorStatus d)
              (Diagnostics.networkStatus d)
              (z (Diagnostics.memoryUsage d)) (z (Diagnostics.uptime d))))
  end.

(** The round-trip law at one event. *)
Definition roundTrips (e : HCSMessage) : Prop :=
  deserializeMessage (serializeMessage e) = Some (toValue e).

End Formats.

(** ** websocketServer.ts: the [MockWebSocketServer] class

    [data?: any] is a type parameter.  The timer of [start] only feeds random
    sample data and is left out. *)

Module WebSocketMessage.
Inductive Kind :=
| session_update | device_status | hcs_message | statistics | error | ping | pong.
Record t (A : Type) := mk {
  type : Kind;
  timestamp : Z;
  data : option A;
  error_ : option string
}.
Arguments mk {A} type timestamp data error_.
Arguments type {A} _.
Arguments timestamp {A} _.
Arguments data {A} _.
Arguments error_ {A} _.
End WebSocketMessage.

Module ClientSubscription.
Record t := mk {
  sessionUpdates : bool;
  deviceStatus : bool;
  hcsMessages : bool;
  statistics : bool;
  wellIds : option (list string);
  deviceIds : option (list string);
  userIds : option (list string)
}.
End ClientSubscription.

Module MockClient.
Record t := mk {
  id : string;
  subscription : ClientSubscription.t;
  connected : bool;
  lastSeen : Z
}.
End MockClient.

Module JSArray.

(** [array.slice(start)] for an integral [start]: a negative start counts
    from the end, and either is clamped to the array. *)
Definition slice {A} (start : Z) (l : list A) : list A :=
  let len := Z.of_nat (length l) in
  let k := if start <? 0 then Z.max (len + start) 0 else Z.min start len in
  drop (Z.to_nat k) l.

(** The last [n] elements of a list. *)
Definition lastN {B} (n : nat) (l : list B) : list B := drop (length l - n) l.

End JSArray.

Module MockWebSocketServer.
Section Server.
Context {A : Type}.

Record t := mk {
  clients : gmap string MockClient.t;
  messageQueue : list (WebSocketMessage.t A);
  isRunning : bool
}.

Definition new : t := mk ∅ [] false.

Definition start (s : t) : t := mk (clients s) (messageQueue s) true.
Definition stop (s : t) : t := mk (clients s) (messageQueue s) false.

Definition addClient (clientId : string) (subscription : ClientSubscription.t)
  (now : Z) (s : t) : t :=
  mk (<[clientId := MockClient.mk clientId subscription true now]> (clients s))
     (messageQueue s) (isRunning s).

Definition removeClient (clientId : string) (s : t) : t :=
  mk (delete clientId (clients s)) (messageQueue s) (isRunning s).

Definition broadcast (message : WebSocketMessage.t A) (s : t) : t :=
  if negb (isRunning s) then s
  else
    let queue := messageQueue s ++ [message] in
    let queue :=
      if (100 <? length queue)%nat then JSArray.slice (-100) queue else queue in
    mk (clients s) queue (isRunning s).

Definition getMessageHistory (limit : Z) (s : t) : list (WebSocketMessage.t A) :=
  JSArray.slice (- limit) (messageQueue s).

(** [getStatus()]: running flag, client count, queue size. *)
Definition getStatus (s : t) : bool * nat * nat :=
  (isRunning s, size (clients s), length (messageQueue s)).

End Server.
Arguments t A : clear implicits.
End MockWebSocketServer.

(** ** Predicates on the session registry *)

Module Registry.

(** Each key of the registry occurs once, and each session is registered
    under its own id. *)
Definition coherent (m : Manager.t) : Prop :=
  NoDup (JSMap.keys (Manager.activeSessions m))
  ∧ Forall (fun entry => WaterSession.sessionId entry.2 = entry.1)
      (Manager.activeSessions m).

(** What the sweep leaves alone: an active session within both limits, and a
    terminal one whose end time is absent, zero or within the retention. *)
Definition settled (now : Z) (cfg : SessionManagerConfig.t) (s : WaterSession.t)
  : Prop :=
  if Status.eqb (WaterSession.status s) Status.active
  then now - WaterSession.lastActivity s <= SessionManagerConfig.sessionTimeout cfg
       ∧ now - WaterSession.startTime s <= SessionManagerConfig.maxSessionDuration cfg
  else Manager.truthy (WaterSession.endTime s) = false
       ∨ now - default 0 (WaterSession.endTime s) <= Manager.retention.

(** What the sweep evicts. *)
Definition expired (now : Z) (s : WaterSession.t) : Prop :=
  WaterSession.status s ≠ Status.active
  ∧ Manager.truthy (WaterSession.endTime s) = true
  ∧ Manager.retention < now - default 0 (WaterSession.endTime s).

(** The liveness record a status message leaves. *)
Definition recordOf (msg : DeviceStatusMessage.t) : DeviceStatus.t :=
  DeviceStatus.mk
    (DeviceStatusMessage.deviceId msg) (DeviceStatusMessage.wellId msg)
    (DeviceStatusMessage.timestamp msg) (DeviceStatusMessage.status msg)
    (DeviceStatusMessage.batteryLevel msg) (DeviceStatusMessage.signalStrength msg)
    (DeviceStatusMessage.lastMaintenance msg) (DeviceStatusMessage.errorCode msg)
    (Some (DeviceStatusMessage.diagnostics msg)).

End Registry.

(** ** Predicates on verification *)

Module Rules.

(** The errors of the kind-specific stage of [verifyMessage]. *)
Definition kindErrors (message : HCSMessage) (p : Pipeline.t) : list string :=
  match message with
  | WATER_FLOW flow => (Pipeline.validateWaterFlowMessage flow p).2
  | DEVICE_STATUS statusMsg => Pipeline.validateDeviceStatusMessage statusMsg
  end.

(** The comparisons a flow event must all fail to raise no error. *)
Definition flowPasses (flow : WaterFlowMessage.t) (p : Pipeline.t) : Prop :=
  match Pipeline.activeSessions p !! Pipeline.sessionKey flow with
  | Some existing =>
      (Pipeline.maxSessionDuration
       <? WaterFlowMessage.timestamp flow - Tracking.startTime existing)%float = false
      ∧ (WaterFlowMessage.totalVolume flow <? Tracking.totalVolume existing)%float = false
  | None => True
  end
  ∧ (WaterFlowMessage.flowRate flow <? 0)%float = false
  ∧ (WaterFlowMessage.totalVolume flow <? 0)%float = false
  ∧ (WaterFlowMessage.pulseCount flow <? 0)%float = false
  ∧ (WaterFlowMessage.pressure flow <? 0)%float = false
  ∧ (200 <? WaterFlowMessage.pressure flow)%float = false
  ∧ (WaterFlowMessage.temperature flow <? -10)%float = false
  ∧ (60 <? WaterFlowMessage.temperature flow)%float = false.

Definition statusPasses (msg : DeviceStatusMessage.t) : Prop :=
  (DeviceStatusMessage.batteryLevel msg <? 0)%float = false
  ∧ (100 <? DeviceStatusMessage.batteryLevel msg)%float = false
  ∧ (DeviceStatusMessage.signalStrength msg <? -120)%float = false
  ∧ (0 <? DeviceStatusMessage.signalStrength msg)%float = false
  ∧ (Diagnostics.memoryUsage (DeviceStatusMessage.diagnostics msg) <? 0)%float = false
  ∧ (100 <? Diagnostics.memoryUsage (DeviceStatusMessage.diagnostics msg))%float = false
  ∧ (Diagnostics.uptime (DeviceStatusMessage.diagnostics msg) <? 0)%float = false.

End Rules.

(** ** Concrete inputs used below *)

Module Scenario.

(** [defaultSessionManagerConfig]. *)
Definition defaultSessionManagerConfig : SessionManagerConfig.t :=
  SessionManagerConfig.mk (5 * 60 * 1000) (30 * 60 * 1000) 5%float (60 * 1000).

Definition diagnostics : Diagnostics.t :=
  Diagnostics.mk Level.OK Level.OK Level.OK 40%float 3600%float.

Definition statusMessage (device well : string) (state : DeviceState.t)
  : DeviceStatusMessage.t :=
  DeviceStatusMessage.mk 1000%float device well "sig" state
    90%float (-60)%float 0%float None diagnostics.

Definition flowMessage (device session user : string) (volume : number)
  (valve : ValveStatus.t) : WaterFlowMessage.t :=
  WaterFlowMessage.mk 1000%float device "F1" "sig" session user
    100%float 2%float volume valve 40%float 20%float.

(** A message the ingestion client found valid, at sequence number [seq]. *)
Definition verified (seq : Z) (message : HCSMessage) : ProcessedMessage.t :=
  ProcessedMessage.mk seq "1.000" "1.000" (Some message) true None "0.0.2".

Definition sessionS1 : SessionData.t :=
  SessionData.mk "S1" "U1" "D1" "F1" 5%float 0.1%float.

(** Scenario A: device D1 reports online, session S1 is created, three valid
    flow events report 1.0, 3.0 and 5.0 litres (valve open, open, closed). *)
Definition scenarioA : list (Z * Manager.Op) :=
  [ (1000, Manager.ProcessMessage
             (verified 1 (DEVICE_STATUS (statusMessage "D1" "F1" DeviceState.ONLINE))));
    (2000, Manager.CreateSession sessionS1);
    (3000, Manager.ProcessMessage
             (verified 2 (WATER_FLOW (flowMessage "D1" "S1" "U1" 1%float ValveStatus.OPEN))));
    (4000, Manager.ProcessMessage
             (verified 3 (WATER_FLOW (flowMessage "D1" "S1" "U1" 3%float ValveStatus.OPEN))));
    (5000, Manager.ProcessMessage
             (verified 4 (WATER_FLOW (flowMessage "D1" "S1" "U1" 5%float ValveStatus.CLOSED)))) ].

(** The manager once D1 is online and S1 is created, and the session
    object registered then. *)
Definition afterCreate : Manager.t :=
  fold_left Manager.step (take 2 scenarioA)
    (Manager.new defaultSessionManagerConfig).

Definition createdS1 : WaterSession.t :=
  WaterSession.mk "S1" "U1" "D1" "F1" 2000 None 5%float 0.1%float
    0%float 0%float Status.active 2000 [] None None None.

(** The manager at the end of scenario A: S1 is completed. *)
Definition afterScenarioA : Manager.t :=
  Manager.run defaultSessionManagerConfig scenarioA.

(** S1 is still dispensing after more than twenty-eight minutes. *)
Definition longSession : Manager.t :=
  Manager.step afterCreate
    (1700000, Manager.ProcessMessage
                (verified 2 (WATER_FLOW (flowMessage "D1" "S1" "U1" 1%float ValveStatus.OPEN)))).

(** A flow event for S1 that arrives after S1 is completed. *)
Definition lateFlow : ProcessedMessage.t :=
  verified 5 (WATER_FLOW (flowMessage "D1" "S1" "U1" 7%float ValveStatus.OPEN)).

(** The verification pipeline with device D1 registered at facility F1. *)
Definition deviceD1 : DeviceRegistry.t :=
  DeviceRegistry.mk "D1" "F1" "a1b2" true 0%float "0.0.1001".

Definition pipelineD1 : Pipeline.t := Pipeline.registerDevice deviceD1 Pipeline.new.

(** A verifier under which every signature checks, for the statements that
    hold of every verifier; [Pipeline.verifySignature] accepts none. *)
Definition signed (message : HCSMessage) (publicKey : string) : bool := true.

(** [verify] of the stand-in module: it resolves to [true]. *)
Definition verify (message : HCSMessage) (publicKey : string) : result bool :=
  Returned true.

(** Three flow events of session S1 on D1, verified at reading 1000: the
    reported volume goes 5.0, 2.0, 3.0. *)
Definition dip : list (number * HCSMessage) :=
  [ (1000%float, WATER_FLOW (flowMessage "D1" "S1" "U1" 5%float ValveStatus.OPEN));
    (1000%float, WATER_FLOW (flowMessage "D1" "S1" "U1" 2%float ValveStatus.OPEN));
    (1000%float, WATER_FLOW (flowMessage "D1" "S1" "U1" 3%float ValveStatus.OPEN)) ].

(** A polling client at cursor 0 and three pages of the topic: sequence
    numbers 1 and 2, nothing, then 3.  No payload parses. *)
Definition client : MirrorNode.t :=
  MirrorNode.startPolling None
    (MirrorNode.new (MirrorNodeConfig.mk "https://testnet.mirrornode.hedera.com"
                       "0.0.123456" 5000%float 5 10000)).

Definition raw (seq : Z) : TopicMessage.t :=
  TopicMessage.mk "1.000" "e30=" "0.0.2" "hash" 3 seq "0.0.123456" "1.000".

Definition pages : list (list TopicMessage.t) := [ [raw 1; raw 2]; []; [raw 3] ].

(** Two pages of which the second holds an older message than the first. *)
Definition stalePages : list (list TopicMessage.t) := [ [raw 5]; [raw 3] ].

Definition unparsable (payload : string) : result (option HCSMessage) :=
  Thrown "Unexpected token".

Definition unverified (message : option HCSMessage) : result VerificationResult.t :=
  Thrown "verifyHCSMessage is not a function".

(** A flow event whose volume reading is NaN, and a status report. *)
Definition flowNaN : HCSMessage :=
  WATER_FLOW (flowMessage "D1" "S1" "U1" nan ValveStatus.OPEN).

Definition statusReport : HCSMessage :=
  DEVICE_STATUS (statusMessage "D1" "F1" DeviceState.ONLINE).

(** The status report with a memory reading that is NaN. *)
Definition statusNaN : HCSMessage :=
  DEVICE_STATUS
    (DeviceStatusMessage.mk 1000%float "D1" "F1" "sig" DeviceState.ONLINE
       90%float (-60)%float 0%float None
       (Diagnostics.mk Level.OK Level.OK Level.OK nan 3600%float)).

(** The JSON text of a flow event with a second [messageType] member put
    before its own. *)
Definition repeated : JSON.Document :=
  match JSON.serialize
          (Formats.toValue
             (WATER_FLOW (flowMessage "D1" "S1" "U1" 1%float ValveStatus.OPEN))) with
  | Some (JSON.Object members) =>
      JSON.Object (("messageType", JSON.String "NOTE") :: members)
  | _ => JSON.Null
  end.

(** D1 reports offline while S1 is active. *)
Definition offlineD1 : ProcessedMessage.t :=
  verified 2 (DEVICE_STATUS (statusMessage "D1" "F1" DeviceState.OFFLINE)).

(** The S1 registered at the end of scenario A. *)
Definition completedS1 : WaterSession.t :=
  default createdS1 (Manager.getSession "S1" afterScenarioA).

(** D2 reports that it is under maintenance. *)
Definition maintenanceD2 : DeviceStatusMessage.t :=
  statusMessage "D2" "F1" DeviceState.MAINTENANCE.

(** Two devices and two sessions whose ids run together to one key. *)
Definition flowOfD1 : WaterFlowMessage.t :=
  flowMessage "D1" "A-B" "U1" 5%float ValveStatus.OPEN.
Definition flowOfD1A : WaterFlowMessage.t :=
  flowMessage "D1-A" "B" "U2" 1%float ValveStatus.OPEN.

(** A started mock server and the keep-alive messages broadcast on it. *)
Definition ping (timestamp : Z) : WebSocketMessage.t unit :=
  WebSocketMessage.mk WebSocketMessage.ping timestamp None None.
Definition server : MockWebSocketServer.t unit :=
  fold_left (fun s message => MockWebSocketServer.broadcast message s)
    [ping 1; ping 2; ping 3]
    (MockWebSocketServer.start MockWebSocketServer.new).

(** Scenario D: a session is asked on device D3, which never reported. *)
Definition sessionOnD3 : SessionData.t :=
  SessionData.mk "S3" "U3" "D3" "F1" 5%float 0.1%float.

End Scenario.

(** * Properties *)

(** ** The ordered map *)

Section JSMapFacts.
Context {V : Type}.
Implicit Types (m : list (string * V)) (k : string) (v : V).

Lemma get_set_eq k v m : JSMap.get k (JSMap.set k v m) = Some v.
Proof.
  induction m as [|[k' v'] m IH]; simpl.
  - by rewrite String.eqb_refl.
  - destruct (String.eqb k k') eqn:E; simpl; rewrite E; auto.
Qed.

Lemma get_set_ne k k' v m :
  k ≠ k' → JSMap.get k' (JSMap.set k v m) = JSMap.get k' m.
Proof.
  intros Hne. induction m as [|[k0 v0] m IH]; simpl.
  - apply String.eqb_neq in Hne. rewrite String.eqb_sym in Hne. by rewrite Hne.
  - destruct (String.eqb k k0) eqn:E; simpl.
    + apply String.eqb_eq in E. subst k0.
      destruct (String.eqb k' k) eqn:E'; [|done].
      apply String.eqb_eq in E'. congruence.
    + by rewrite IH.
Qed.

Lemma get_delete_ne k k' m :
  k ≠ k' → JSMap.get k' (JSMap.delete k m) = JSMap.get k' m.
Proof.
  intros Hne. induction m as [|[k0 v0] m IH]; simpl; [done|].
  destruct (String.eqb k k0) eqn:E; simpl.
  - apply String.eqb_eq in E. subst k0.
    destruct (String.eqb k' k) eqn:E'; [|done].
    apply String.eqb_eq in E'. congruence.
  - by rewrite IH.
Qed.

Lemma get_In k v m : JSMap.get k m = Some v → In (k, v) m.
Proof.
  induction m as [|[k0 v0] m IH]; simpl; [done|].
  destruct (String.eqb k k0) eqn:E.
  - apply String.eqb_eq in E. intros [= ->]. left. by subst.
  - intros H. right. auto.
Qed.


(** Counting the values that satisfy a test, across the three updates. *)

Lemma count_set_le f k v m :
  (JSMap.count f (JSMap.set k v m) ≤ JSMap.count f m + (if f v then 1 else 0))%nat.
Proof.
  unfold JSMap.count.
  induction m as [|[k0 v0] m IH]; simpl.
  - destruct (f v); simpl; lia.
  - destruct (String.eqb k k0); simpl.
    + destruct (f v), (f v0); simpl; lia.
    + destruct (f v0); simpl; lia.
Qed.

Lemma count_set_same f k v old m :
  JSMap.get k m = Some old → f v = f old →
  JSMap.count f (JSMap.set k v m) = JSMap.count f m.
Proof.
  unfold JSMap.count. intros Hget Hf.
  induction m as [|[k0 v0] m IH]; simpl in *; [done|].
  revert Hget. destruct (String.eqb k k0); simpl; intros Hget.
  - injection Hget as ->. rewrite Hf. by destruct (f old).
  - destruct (f v0); simpl; rewrite IH; auto.
Qed.

Lemma count_delete_le f k m : (JSMap.count f (JSMap.delete k m) ≤ JSMap.count f m)%nat.
Proof.
  unfold JSMap.count.
  induction m as [|[k0 v0] m IH]; simpl; [lia|].
  destruct (String.eqb k k0); simpl.
  - destruct (f v0); simpl; lia.
  - destruct (f v0); simpl; lia.
Qed.

Lemma find_none_count f m :
  List.find f (JSMap.values m) = None → JSMap.count f m = 0%nat.
Proof.
  unfold JSMap.count.
  induction m as [|[k0 v0] m IH]; simpl; [done|].
  destruct (f v0); [done|]. auto.
Qed.


End JSMapFacts.

(** ** Session manager: at most one active session per device *)

Section ActiveCount.
Import Manager.
Implicit Types (m : Manager.t) (d : string) (now : Z).

Lemma status_eqb_eq (a b : Status.t) : Status.eqb a b = true ↔ a = b.
Proof. destruct a, b; simpl; split; congruence. Qed.

Lemma isActiveOn_inactive d s :
  WaterSession.status s ≠ Status.active → isActiveOn d s = false.
Proof.
  intros H. unfold isActiveOn.
  destruct (Status.eqb (WaterSession.status s) Status.active) eqn:E.
  - apply status_eqb_eq in E. done.
  - apply andb_false_r.
Qed.

Lemma activeOn_store_inactive d id s m :
  WaterSession.status s ≠ Status.active →
  (activeOn d (store id s m) ≤ activeOn d m)%nat.
Proof.
  intros H. unfold activeOn, store. simpl.
  pose proof (count_set_le (isActiveOn d) id s (activeSessions m)) as Hle.
  rewrite (isActiveOn_inactive d s H) in Hle. lia.
Qed.

Lemma activeOn_completeSession d id reason now m :
  (activeOn d (completeSession id reason now m).1 ≤ activeOn d m)%nat.
Proof.
  unfold completeSession.
  destruct (getSession id m) as [s|]; simpl; [|lia].
  destruct (Status.eqb (WaterSession.status s) Status.active); simpl; [|lia].
  by apply activeOn_store_inactive.
Qed.

Lemma activeOn_cancelSession d id reason now m :
  (activeOn d (cancelSession id reason now m).1 ≤ activeOn d m)%nat.
Proof.
  unfold cancelSession.
  destruct (getSession id m) as [s|]; simpl; [|lia].
  destruct (Status.eqb (WaterSession.status s) Status.active); simpl; [|lia].
  by apply activeOn_store_inactive.
Qed.

Lemma activeOn_errorSession d id msg now m :
  (activeOn d (errorSession id msg now m).1 ≤ activeOn d m)%nat.
Proof.
  unfold errorSession.
  destruct (getSession id m) as [s|]; simpl; [|lia].
  by apply activeOn_store_inactive.
Qed.

Lemma isActiveOn_addFlow d ev volume now s :
  isActiveOn d (addFlow ev volume now s) = isActiveOn d s.
Proof. reflexivity. Qed.

Lemma activeOn_processWaterFlowMessage d pm flow now m :
  (activeOn d (processWaterFlowMessage pm flow now m) ≤ activeOn d m)%nat.
Proof.
  unfold processWaterFlowMessage.
  destruct (getSession (WaterFlowMessage.sessionId flow) m) as [s|] eqn:Hs; [|lia].
  destruct (_ || _); [lia|].
  set (s' := addFlow _ _ _ s).
  assert (Hsame : activeOn d (store (WaterFlowMessage.sessionId flow) s' m)
                  = activeOn d m).
  { unfold activeOn, store; simpl.
    apply (count_set_same _ _ _ s); [exact Hs|apply isActiveOn_addFlow]. }
  destruct (_ || _); [|lia].
  etransitivity; [apply activeOn_completeSession|lia].
Qed.

Lemma activeOn_processDeviceStatusMessage d pm msg now m :
  (activeOn d (processDeviceStatusMessage pm msg now m) ≤ activeOn d m)%nat.
Proof.
  unfold processDeviceStatusMessage.
  set (m' := Manager.mk _ _ _).
  change (activeOn d m) with (activeOn d m').
  destruct (DeviceState.eqb _ _); [|lia].
  destruct (getActiveSessionForDevice _ m'); [|lia].
  apply activeOn_cancelSession.
Qed.

Lemma activeOn_processMessage d pm now m :
  (activeOn d (processMessage pm now m) ≤ activeOn d m)%nat.
Proof.
  unfold processMessage.
  destruct (negb _); [lia|].
  destruct (ProcessedMessage.message pm) as [[flow|msg]|]; [| |lia].
  - apply activeOn_processWaterFlowMessage.
  - apply activeOn_processDeviceStatusMessage.
Qed.

Lemma activeOn_sweepEntry d now acc id :
  (activeOn d (sweepEntry now acc id).1 ≤ activeOn d acc.1)%nat.
Proof.
  destruct acc as [m rem]. unfold sweepEntry. simpl.
  destruct (getSession id m) as [s|]; simpl; [|lia].
  set (m1 := if Status.eqb _ _ then _ else m).
  assert (H1 : (activeOn d m1 ≤ activeOn d m)%nat).
  { subst m1. destruct (Status.eqb _ _); [|lia].
    destruct (_ <? _); [apply activeOn_cancelSession|].
    destruct (_ <? _); [apply activeOn_completeSession|lia]. }
  destruct (getSession id m1); [|exact H1].
  destruct (_ && _); [|exact H1].
  destruct (retention <? _); exact H1.
Qed.

Lemma activeOn_sweep d now ids acc :
  (activeOn d (fold_left (sweepEntry now) ids acc).1 ≤ activeOn d acc.1)%nat.
Proof.
  revert acc. induction ids as [|id ids IH]; intros acc; simpl; [lia|].
  etransitivity; [apply IH|apply activeOn_sweepEntry].
Qed.

Lemma activeOn_evict d ids m :
  (activeOn d
     (fold_left
        (fun m id => with_sessions (JSMap.delete id (activeSessions m)) m) ids m)
   ≤ activeOn d m)%nat.
Proof.
  revert m. induction ids as [|id ids IH]; intros m; simpl; [lia|].
  etransitivity; [apply IH|]. apply count_delete_le.
Qed.

Lemma activeOn_cleanupOldSessions d now m :
  (activeOn d (cleanupOldSessions now m) ≤ activeOn d m)%nat.
Proof.
  unfold cleanupOldSessions.
  pose proof (activeOn_sweep d now (JSMap.keys (activeSessions m)) (m, [])) as H.
  destruct (fold_left _ _ (m, [])) as [m1 rem]. simpl in H.
  etransitivity; [apply activeOn_evict|exact H].
Qed.

Lemma activeOn_createSession d data now m :
  (activeOn d m ≤ 1)%nat →
  (activeOn d (createSession data now m).1 ≤ 1)%nat.
Proof.
  intros Hinv. unfold createSession.
  destruct (negb _); [done|].
  destruct (getActiveSessionForDevice _ m) eqn:Hfind; [done|].
  simpl. unfold activeOn, store. simpl.
  set (s := WaterSession.mk _ _ _ _ _ _ _ _ _ _ _ _ _ _ _ _).
  pose proof (count_set_le (isActiveOn d) (SessionData.sessionId data) s
                (activeSessions m)) as Hle.
  destruct (isActiveOn d s) eqn:Hact.
  - unfold isActiveOn in Hact. simpl in Hact.
    apply andb_true_iff in Hact as [Hd _]. apply String.eqb_eq in Hd. subst d.
    apply find_none_count in Hfind. fold (JSMap.count (isActiveOn (SessionData.deviceId data)) (activeSessions m)) in Hle.
    lia.
  - unfold activeOn in Hinv. lia.
Qed.

Lemma activeOn_step d m call :
  (activeOn d m ≤ 1)%nat → (activeOn d (step m call) ≤ 1)%nat.
Proof.
  intros Hinv. destruct call as [now op]. destruct op; simpl.
  - by apply activeOn_createSession.
  - etransitivity; [apply activeOn_processMessage|done].
  - etransitivity; [apply activeOn_completeSession|done].
  - etransitivity; [apply activeOn_cancelSession|done].
  - etransitivity; [apply activeOn_errorSession|done].
  - etransitivity; [apply activeOn_cleanupOldSessions|done].
Qed.

End ActiveCount.

(** C3. In every state the session manager reaches from construction by
    calls of createSession, processMessage, completeSession, cancelSession,
    errorSession and the clean-up sweep, each device has at most one
    registered session that is active on it. *)
Theorem at_most_one_active_session
  (cfg : SessionManagerConfig.t) (calls : list (Z * Manager.Op)) (d : string) :
  (length (List.filter
             (fun s => String.eqb (WaterSession.deviceId s) d
                       && Status.eqb (WaterSession.status s) Status.active)
             (JSMap.values (Manager.activeSessions (Manager.run cfg calls))))
   ≤ 1)%nat.
Proof.
  change (Manager.activeOn d (Manager.run cfg calls) ≤ 1)%nat.
  unfold Manager.run.
  assert (H0 : (Manager.activeOn d (Manager.new cfg) ≤ 1)%nat) by (cbv; lia).
  revert H0. generalize (Manager.new cfg).
  induction calls as [|call calls IH]; intros m Hm; simpl; [done|].
  apply IH. by apply activeOn_step.
Qed.

(** ** Session manager: a matching flow event *)

Section FlowEvent.
Import Manager.

Lemma getSession_store_eq id s m : getSession id (store id s m) = Some s.
Proof. apply get_set_eq. Qed.

Lemma getSession_store_ne id id' s m :
  id ≠ id' → getSession id' (store id s m) = getSession id' m.
Proof. apply get_set_ne. Qed.



End FlowEvent.

Section FlowEventTheorem.
Import Manager.





End FlowEventTheorem.


(** ** Session manager: creating a session *)

Section Create.
Import Manager.

Lemma isActiveOn_spec d s :
  isActiveOn d s = true
  ↔ WaterSession.deviceId s = d ∧ WaterSession.status s = Status.active.
Proof.
  unfold isActiveOn. rewrite andb_true_iff, String.eqb_eq, status_eqb_eq. done.
Qed.

Lemma getActiveSessionForDevice_Some d m :
  (∃ s, getActiveSessionForDevice d m = Some s)
  ↔ ∃ id s, In (id, s) (activeSessions m)
            ∧ WaterSession.deviceId s = d
            ∧ WaterSession.status s = Status.active.
Proof.
  unfold getActiveSessionForDevice, JSMap.values. split.
  - intros [s Hs]. apply find_some in Hs as [Hin Hact].
    apply in_map_iff in Hin as [[id s'] [Heq Hin]]. simpl in Heq. subst s'.
    apply isActiveOn_spec in Hact. by exists id, s.
  - intros (id & s & Hin & Hd & Hst).
    destruct (List.find _ _) as [s'|] eqn:Hfind; [by exists s'|].
    pose proof (find_none _ _ Hfind s) as Hnone.
    assert (Hact : isActiveOn d s = true) by (by apply isActiveOn_spec).
    rewrite Hnone in Hact; [done|].
    apply in_map_iff. by exists (id, s).
Qed.

Lemma isOnline_spec (o : option DeviceStatus.t) :
  isOnline o = true
  ↔ ∃ ds, o = Some ds ∧ DeviceStatus.status ds = DeviceState.ONLINE.
Proof.
  destruct o as [ds|]; simpl.
  - split.
    + intros H. exists ds. split; [done|].
      by destruct (DeviceStatus.status ds).
    + intros (ds' & [= <-] & ->). done.
  - split; [done|]. by intros (? & ? & _).
Qed.

(** C5. createSession throws exactly when the device has no liveness record
    marked ONLINE or already has an active session in the registry; when it
    throws the manager, and so the registry, is unchanged; when it returns,
    the returned session has status active and is registered under its id. *)
Theorem createSession_fails_exactly
  (sessionData : SessionData.t) (now : Z) (m : Manager.t) :
  let d := SessionData.deviceId sessionData in
  let outcome := createSession sessionData now m in
  ((∃ message, outcome.2 = Thrown message)
   ↔ ¬ (∃ ds, deviceStatuses m !! d = Some ds
              ∧ DeviceStatus.status ds = DeviceState.ONLINE)
     ∨ (∃ id s, In (id, s) (activeSessions m)
                ∧ WaterSession.deviceId s = d
                ∧ WaterSession.status s = Status.active))
  ∧ ((∃ message, outcome.2 = Thrown message) → outcome.1 = m)
  ∧ (∀ session, outcome.2 = Returned session →
       WaterSession.status session = Status.active
       ∧ WaterSession.sessionId session = SessionData.sessionId sessionData
       ∧ WaterSession.deviceId session = d
       ∧ getSession (SessionData.sessionId sessionData) outcome.1 = Some session).
Proof.
  intros d outcome. subst outcome. unfold createSession. fold d.
  pose proof (isOnline_spec (getDeviceStatus d m)) as Hon.
  pose proof (getActiveSessionForDevice_Some d m) as Hbusy.
  unfold getDeviceStatus in *.
  destruct (isOnline (deviceStatuses m !! d)) eqn:Eon; simpl.
  - destruct (getActiveSessionForDevice d m) as [existing|] eqn:Efind; simpl.
    + split; [|split].
      * split; [intros _; right; apply Hbusy; eauto|eauto].
      * done.
      * intros ? [=].
    + split; [|split].
      * split; [intros [? [=]]|].
        intros [Hoff|Hact].
        -- exfalso. apply Hoff. by apply Hon.
        -- apply Hbusy in Hact as [? [=]].
      * intros [? [=]].
      * intros session [= <-]. simpl. repeat split.
        apply getSession_store_eq.
  - split; [|split].
    + split; [|eauto]. intros _. left. intros Hex. apply Hon in Hex. done.
    + done.
    + intros ? [=].
Qed.

End Create.

(** Scenario D, and a busy device, through the theorem: the call throws and
    leaves the manager as it was. *)
Lemma createSession_scenario_D :
  (Manager.createSession Scenario.sessionOnD3 2000 Scenario.afterCreate).1
  = Scenario.afterCreate
  ∧ Manager.getSession "S3"
      (Manager.createSession Scenario.sessionOnD3 2000 Scenario.afterCreate).1
    = None.
Proof.
  split.
  - apply (proj1 (proj2 (createSession_fails_exactly
                           Scenario.sessionOnD3 2000 Scenario.afterCreate))).
    by eexists.
  - reflexivity.
Defined.

(** ** Session manager: statistics *)

Section Stats.
Import Manager.

Lemma countStatus_partition (sessions : list WaterSession.t) :
  (countStatus Status.active sessions + countStatus Status.completed sessions
   + countStatus Status.cancelled sessions + countStatus Status.error sessions
   = length sessions)%nat.
Proof.
  unfold countStatus.
  induction sessions as [|s sessions IH]; simpl; [done|].
  destruct (WaterSession.status s); simpl; lia.
Qed.

(** C10. getStatistics reports counts by status that add up to totalSessions;
    its totalVolume and totalRevenue are the running sums, from 0, of the
    totalVolume and totalCost of every registered session in registry order,
    whatever the status: a session registered last, of any status, adds its
    totalVolume and totalCost to the two totals. *)
Theorem statistics_cover_every_session (m : Manager.t) :
  let stats := getStatistics m in
  let sessions := JSMap.values (activeSessions m) in
  (Statistics.activeSessions stats + Statistics.completedSessions stats
   + Statistics.cancelledSessions stats + Statistics.errorSessions stats
   = Statistics.totalSessions stats)%nat
  ∧ Statistics.totalSessions stats = length (activeSessions m)
  ∧ Statistics.totalVolume stats
    = fold_left (fun sum s => (sum + WaterSession.totalVolume s)%float) sessions 0%float
  ∧ Statistics.totalRevenue stats
    = fold_left (fun sum s => (sum + WaterSession.totalCost s)%float) sessions 0%float
  ∧ (∀ id s,
       let stats' := getStatistics (with_sessions (activeSessions m ++ [(id, s)]) m) in
       Statistics.totalVolume stats'
       = (Statistics.totalVolume stats + WaterSession.totalVolume s)%float
       ∧ Statistics.totalRevenue stats'
         = (Statistics.totalRevenue stats + WaterSession.totalCost s)%float).
Proof.
  simpl. split; [apply countStatus_partition|].
  split; [unfold JSMap.values; by rewrite length_map|].
  split; [done|]. split; [done|].
  intros id s. unfold JSMap.values.
  rewrite map_app, !fold_left_app. done.
Qed.

End Stats.

(** ** Session manager: terminal sessions *)

Section Terminal.
Import Manager.

Lemma completeSession_not_active id reason now m :
  (∀ s, getSession id m = Some s → WaterSession.status s ≠ Status.active) →
  completeSession id reason now m = (m, false).
Proof.
  intros H. unfold completeSession.
  destruct (getSession id m) as [s|]; [|done].
  specialize (H s eq_refl). by destruct (WaterSession.status s).
Qed.

Lemma cancelSession_not_active id reason now m :
  (∀ s, getSession id m = Some s → WaterSession.status s ≠ Status.active) →
  cancelSession id reason now m = (m, false).
Proof.
  intros H. unfold cancelSession.
  destruct (getSession id m) as [s|]; [|done].
  specialize (H s eq_refl). by destruct (WaterSession.status s).
Qed.

Lemma errorSession_absent id message now m :
  getSession id m = None → errorSession id message now m = (m, false).
Proof. intros H. unfold errorSession. by rewrite H. Qed.

(** errorSession does not look at the status of the session it finds. *)
Lemma errorSession_present id message now m s :
  getSession id m = Some s →
  errorSession id message now m
  = (store id
       (WaterSession.set_errorMessage (Some message)
          (WaterSession.set_endTime (Some now)
             (WaterSession.set_status Status.error s))) m,
     true).
Proof. intros H. unfold errorSession. by rewrite H. Qed.

(** C1, at the failing input.  S1 is completed at the end of scenario A.
    errorSession on S1 then returns true and rewrites its status, end time
    and message; and a later valid flow event for S1 is appended to it and
    replaces its totalVolume, totalCost and lastActivity. *)
Theorem terminal_session_is_rewritten :
  let m := Scenario.afterScenarioA in
  let afterError := errorSession "S1" "late failure" 6000 m in
  let afterEvent := processMessage Scenario.lateFlow 6000 m in
  (∃ s, getSession "S1" m = Some s
        ∧ WaterSession.status s = Status.completed
        ∧ WaterSession.endTime s = Some 5000
        ∧ WaterSession.errorMessage s = None
        ∧ WaterSession.totalVolume s = 5%float
        ∧ length (WaterSession.flowEvents s) = 3%nat
        ∧ WaterSession.lastActivity s = 5000)
  ∧ afterError.2 = true
  ∧ (∃ s, getSession "S1" afterError.1 = Some s
          ∧ WaterSession.status s = Status.error
          ∧ WaterSession.endTime s = Some 6000
          ∧ WaterSession.errorMessage s = Some "late failure")
  ∧ (∃ s, getSession "S1" afterEvent = Some s
          ∧ WaterSession.status s = Status.completed
          ∧ WaterSession.totalVolume s = 7%float
          ∧ length (WaterSession.flowEvents s) = 4%nat
          ∧ WaterSession.lastActivity s = 6000).
Proof.
  simpl. split; [|split; [|split]].
  - eexists. split; [vm_compute; reflexivity|]. by vm_compute.
  - by vm_compute.
  - eexists. split; [vm_compute; reflexivity|]. by vm_compute.
  - eexists. split; [vm_compute; reflexivity|]. by vm_compute.
Qed.

End Terminal.

(** ** Session manager: the clean-up sweep *)

Section Sweep.
Import Manager.

Lemma get_In_keys {V} (k : string) (v : V) (reg : list (string * V)) :
  JSMap.get k reg = Some v → k ∈ JSMap.keys reg.
Proof.
  intros H. apply get_In in H. apply list_elem_of_In.
  unfold JSMap.keys. change k with (fst (k, v)). by apply in_map.
Qed.

Lemma getSession_cancelSession_ne id k reason now m :
  k ≠ id → getSession id (cancelSession k reason now m).1 = getSession id m.
Proof.
  intros Hne. unfold cancelSession.
  destruct (getSession k m) as [s|]; [|done].
  destruct (negb _); [done|]. simpl. by apply getSession_store_ne.
Qed.

Lemma getSession_completeSession_ne id k reason now m :
  k ≠ id → getSession id (completeSession k reason now m).1 = getSession id m.
Proof.
  intros Hne. unfold completeSession.
  destruct (getSession k m) as [s|]; [|done].
  destruct (negb _); [done|]. simpl. by apply getSession_store_ne.
Qed.

Lemma config_cancelSession k reason now m :
  config (cancelSession k reason now m).1 = config m.
Proof.
  unfold cancelSession. destruct (getSession k m); [|done]. by destruct (negb _).
Qed.

Lemma config_completeSession k reason now m :
  config (completeSession k reason now m).1 = config m.
Proof.
  unfold completeSession. destruct (getSession k m); [|done]. by destruct (negb _).
Qed.

(** A turn of the loop for another key leaves the entry of [id] alone. *)
Lemma sweepEntry_other now id k m rem :
  k ≠ id →
  getSession id (sweepEntry now (m, rem) k).1 = getSession id m
  ∧ config (sweepEntry now (m, rem) k).1 = config m
  ∧ (id ∉ rem → id ∉ (sweepEntry now (m, rem) k).2).
Proof.
  intros Hne. unfold sweepEntry.
  destruct (getSession k m) as [s|]; [|done].
  set (m1 := if Status.eqb _ _ then _ else m).
  assert (H1 : getSession id m1 = getSession id m ∧ config m1 = config m).
  { subst m1. destruct (Status.eqb _ _); [|done].
    destruct (_ <? _).
    - split; [by apply getSession_cancelSession_ne|apply config_cancelSession].
    - destruct (_ <? _); [|done].
      split; [by apply getSession_completeSession_ne|apply config_completeSession]. }
  destruct H1 as [Hget Hcfg].
  destruct (getSession k m1) as [s1|]; [|done].
  destruct (negb _ && _); [|done].
  destruct (retention <? _); simpl; [|done].
  split; [done|]. split; [done|].
  intros Hrem. rewrite elem_of_app, list_elem_of_singleton. intros [|]; done.
Qed.

(** A turn of the loop for a session that ended at this very reading. *)
Lemma sweepEntry_settled now id m rem t :
  getSession id m = Some t →
  WaterSession.status t ≠ Status.active →
  WaterSession.endTime t = Some now →
  sweepEntry now (m, rem) id = (m, rem).
Proof.
  intros Hget Hst Hend. unfold sweepEntry. rewrite Hget.
  assert (E : Status.eqb (WaterSession.status t) Status.active = false).
  { by destruct (WaterSession.status t). }
  rewrite E, Hget, E, Hend. simpl.
  destruct (negb (now =? 0)); [|done].
  by rewrite Z.sub_diag.
Qed.

Lemma sweepEntry_timeout now id m rem s :
  getSession id m = Some s →
  WaterSession.status s = Status.active →
  SessionManagerConfig.sessionTimeout (config m) < now - WaterSession.lastActivity s →
  sweepEntry now (m, rem) id = (store id (cancelledByTimeout now s) m, rem).
Proof.
  intros Hget Hst Hlt. unfold sweepEntry. rewrite Hget, Hst. simpl.
  apply Z.ltb_lt in Hlt. rewrite Hlt.
  unfold cancelSession. rewrite Hget, Hst. simpl.
  rewrite getSession_store_eq. simpl.
  destruct (negb (now =? 0)); [|done].
  by rewrite Z.sub_diag.
Qed.

Lemma sweepEntry_duration now id m rem s :
  getSession id m = Some s →
  WaterSession.status s = Status.active →
  now - WaterSession.lastActivity s <= SessionManagerConfig.sessionTimeout (config m) →
  SessionManagerConfig.maxSessionDuration (config m) < now - WaterSession.startTime s →
  sweepEntry now (m, rem) id = (store id (completedByDuration now s) m, rem).
Proof.
  intros Hget Hst Hle Hlt. unfold sweepEntry. rewrite Hget, Hst. simpl.
  apply Z.ltb_ge in Hle. rewrite Hle.
  apply Z.ltb_lt in Hlt. rewrite Hlt.
  unfold completeSession. rewrite Hget, Hst. simpl.
  rewrite getSession_store_eq. simpl.
  destruct (negb (now =? 0)); [|done].
  by rewrite Z.sub_diag.
Qed.

(** The loop takes the entry of [id] from [s] to [target] once and leaves it
    there; [id] is not listed for removal. *)
Lemma sweep_reaches now id s target cfg :
  (∀ m rem, config m = cfg → getSession id m = Some s →
            sweepEntry now (m, rem) id = (store id target m, rem)) →
  WaterSession.status target ≠ Status.active →
  WaterSession.endTime target = Some now →
  ∀ ks m rem,
    config m = cfg → id ∉ rem →
    (getSession id m = Some s ∧ id ∈ ks) ∨ getSession id m = Some target →
    getSession id (fold_left (sweepEntry now) ks (m, rem)).1 = Some target
    ∧ id ∉ (fold_left (sweepEntry now) ks (m, rem)).2.
Proof.
  intros Hstep Hst Hend ks.
  induction ks as [|k ks IH]; intros m rem Hcfg Hrem Hcase; cbn [fold_left].
  - destruct Hcase as [[_ Hin]|Hget]; [by apply elem_of_nil in Hin|done].
  - destruct (decide (k = id)) as [->|Hne].
    + destruct Hcase as [[Hget _]|Hget].
      * rewrite (Hstep m rem Hcfg Hget).
        apply IH; [done|done|]. right. apply getSession_store_eq.
      * rewrite (sweepEntry_settled now id m rem target Hget Hst Hend).
        apply IH; [done|done|by right].
    + destruct (sweepEntry_other now id k m rem Hne) as (Hget' & Hcfg' & Hrem').
      destruct (sweepEntry now (m, rem) k) as [m' rem'] eqn:E. simpl in *.
      apply IH; [congruence|by apply Hrem'|].
      rewrite Hget'. destruct Hcase as [[Hget Hin]|Hget]; [left|by right].
      split; [done|]. apply elem_of_cons in Hin as [->|Hin]; done.
Qed.

Lemma evict_keeps id ids m :
  id ∉ ids →
  getSession id
    (fold_left (fun m k => with_sessions (JSMap.delete k (activeSessions m)) m) ids m)
  = getSession id m.
Proof.
  revert m. induction ids as [|k ids IH]; intros m Hnot; simpl; [done|].
  apply not_elem_of_cons in Hnot as [Hne Hnot].
  rewrite IH by done.
  unfold getSession. simpl. by apply get_delete_ne.
Qed.

Lemma cleanup_reaches now id s target m :
  (∀ m' rem, config m' = config m → getSession id m' = Some s →
             sweepEntry now (m', rem) id = (store id target m', rem)) →
  WaterSession.status target ≠ Status.active →
  WaterSession.endTime target = Some now →
  getSession id m = Some s →
  getSession id (cleanupOldSessions now m) = Some target.
Proof.
  intros Hstep Hst Hend Hget. unfold cleanupOldSessions.
  destruct (sweep_reaches now id s target (config m) Hstep Hst Hend
              (JSMap.keys (activeSessions m)) m [])
    as [Hfinal Hrem]; [done|apply not_elem_of_nil| |].
  { left. split; [done|]. by apply (get_In_keys _ s). }
  destruct (fold_left (sweepEntry now) _ (m, [])) as [m1 rem]. simpl in *.
  by rewrite evict_keeps.
Qed.

(** C8, as amended.  An active session that the sweep finds inactive for
    longer than sessionTimeout is left cancelled with the stored reason
    "Session timeout due to inactivity"; one that is not inactive that long
    but older than maxSessionDuration is left completed with its
    errorMessage as it was: the completion stores no reason. *)
Theorem sweep_reason_only_on_cancellation
  (now : Z) (m : Manager.t) (id : string) (s : WaterSession.t) :
  getSession id m = Some s →
  WaterSession.status s = Status.active →
  (SessionManagerConfig.sessionTimeout (config m) < now - WaterSession.lastActivity s →
   ∃ s', getSession id (cleanupOldSessions now m) = Some s'
         ∧ WaterSession.status s' = Status.cancelled
         ∧ WaterSession.endTime s' = Some now
         ∧ WaterSession.errorMessage s' = Some "Session timeout due to inactivity")
  ∧ (now - WaterSession.lastActivity s <= SessionManagerConfig.sessionTimeout (config m) →
     SessionManagerConfig.maxSessionDuration (config m) < now - WaterSession.startTime s →
     ∃ s', getSession id (cleanupOldSessions now m) = Some s'
           ∧ WaterSession.status s' = Status.completed
           ∧ WaterSession.endTime s' = Some now
           ∧ WaterSession.errorMessage s' = WaterSession.errorMessage s).
Proof.
  intros Hget Hst. split.
  - intros Hlt. exists (cancelledByTimeout now s). split; [|done].
    apply (cleanup_reaches now id s); try done.
    intros m' rem Hcfg Hget'. apply sweepEntry_timeout; [done|done|by rewrite Hcfg].
  - intros Hle Hlt. exists (completedByDuration now s). split; [|done].
    apply (cleanup_reaches now id s); try done.
    intros m' rem Hcfg Hget'. apply sweepEntry_duration; try done; by rewrite Hcfg.
Qed.

End Sweep.

(** The sweep of scenario A's manager, left idle until S1 times out, through
    the theorem: S1 is cancelled with the inactivity reason. *)
Lemma sweep_cancels_idle_S1 :
  ∃ s', Manager.getSession "S1"
          (Manager.cleanupOldSessions 400000 Scenario.afterCreate) = Some s'
        ∧ WaterSession.status s' = Status.cancelled
        ∧ WaterSession.endTime s' = Some 400000
        ∧ WaterSession.errorMessage s' = Some "Session timeout due to inactivity".
Proof.
  apply (proj1 (sweep_reason_only_on_cancellation
                  400000 Scenario.afterCreate "S1" Scenario.createdS1
                  eq_refl eq_refl)).
  reflexivity.
Defined.

(** C8, the claim as stated fails: the sweep completes the long-running S1
    for its duration and stores no reason on it; the manager it leaves is the
    one a caller's completeSession leaves at the same reading. *)
Lemma sweep_completion_stores_no_reason :
  (∃ s', Manager.sweptToTerminal 1900000 Scenario.longSession "S1" s'
         ∧ WaterSession.status s' = Status.completed
         ∧ WaterSession.errorMessage s' = None)
  ∧ Manager.cleanupOldSessions 1900000 Scenario.longSession
    = (Manager.completeSession "S1" (Some "requested by the user") 1900000
         Scenario.longSession).1.
Proof.
  split.
  - eexists. split; [|split].
    + eexists. split; [vm_compute; reflexivity|].
      split; [reflexivity|]. split; [vm_compute; reflexivity|]. done.
    + reflexivity.
    + reflexivity.
  - vm_compute. reflexivity.
Qed.

(** ** Verification pipeline: volume tracking *)

Section Tracking.
Import Pipeline.
Variable verifySignature : HCSMessage → string → bool.

Lemma validateWaterFlowMessage_tracking flow p :
  activeSessions (validateWaterFlowMessage flow p).1
  = <[sessionKey flow :=
        Tracking.mk
          (match activeSessions p !! sessionKey flow with
           | Some existing => Tracking.startTime existing
           | None => WaterFlowMessage.timestamp flow
           end)
          (WaterFlowMessage.totalVolume flow)]> (activeSessions p).
Proof.
  unfold validateWaterFlowMessage.
  destruct (activeSessions p !! sessionKey flow) as [existing|] eqn:E; simpl.
  - done.
  - done.
Qed.



(** An unregistered device leaves the pipeline as it was. *)
Lemma verifyMessage_unregistered message now p :
  getDevice (HCS.deviceId message) p = None →
  verifyMessage verifySignature message now p
  = (p, VerificationResult.mk false ["Device not registered in the system"] [] None).
Proof. intros H. unfold verifyMessage. by rewrite H. Qed.

End Tracking.


(** ** Verification pipeline: accepted volumes *)

Section Accepted.
Import Pipeline.
Variable verifySignature : HCSMessage → string → bool.

Lemma pushIf_nil c e errors : pushIf c e errors = [] → c = false ∧ errors = [].
Proof.
  unfold pushIf. destruct c; [|done].
  intros H. by apply app_eq_nil in H as [_ ?].
Qed.



End Accepted.

(** With a verifier that accepts every signature, three flow events of one
    (device, session) key that report 5.0, 2.0 and 3.0 litres are accepted,
    rejected and accepted: the rejected 2.0 became the tracked volume. *)
Example accepting_verifier_lets_the_volume_dip :
  map VerificationResult.isValid
    (Pipeline.verifyAll Scenario.signed Scenario.dip Scenario.pipelineD1).2
  = [true; false; true]
  ∧ Pipeline.acceptedVolumes Scenario.signed Scenario.dip Scenario.pipelineD1
    = [5%float; 3%float].
Proof. split; vm_compute; reflexivity. Qed.

Section Shipped.
Import Pipeline.
Variable verify : HCSMessage → string → result bool.






End Shipped.


(** ** Ingestion client: the cursor *)

Section Cursor.
Import MirrorNode.
Variable parsePayload : string → result (option HCSMessage).
Variable verifyHCSMessage : option HCSMessage → result VerificationResult.t.

Local Abbreviation processMessage := (processMessage parsePayload verifyHCSMessage).
Local Abbreviation processMessages := (processMessages parsePayload verifyHCSMessage).
Local Abbreviation poll := (poll parsePayload verifyHCSMessage).
Local Abbreviation polls := (polls parsePayload verifyHCSMessage).
Local Abbreviation ascending := (ascending parsePayload verifyHCSMessage).
Local Abbreviation honoursFilter := MirrorNode.honoursFilter.

Lemma processMessage_sequenceNumber rawMessage :
  ProcessedMessage.sequenceNumber (processMessage rawMessage)
  = TopicMessage.sequence_number rawMessage.
Proof.
  unfold MirrorNode.processMessage.
  destruct (parsePayload _); [|done]. by destruct (verifyHCSMessage _).
Qed.

Lemma Math_max_ge x xs : x <= Math_max x xs ∧ Forall (fun y => y <= Math_max x xs) xs.
Proof.
  unfold Math_max. revert x.
  induction xs as [|y xs IH]; intros x; simpl; [split; [lia|constructor]|].
  destruct (IH (Z.max x y)) as [H1 H2]. split; [lia|].
  constructor; [lia|done].
Qed.

Lemma Math_max_elem x xs : Math_max x xs ∈ x :: xs.
Proof.
  unfold Math_max. revert x.
  induction xs as [|y xs IH]; intros x; simpl; [apply list_elem_of_here|].
  specialize (IH (Z.max x y)).
  apply elem_of_cons in IH as [IH|IH].
  - rewrite IH. destruct (Z.max_spec x y) as [[_ ->]|[_ ->]];
      [apply list_elem_of_further, list_elem_of_here|apply list_elem_of_here].
  - by do 2 apply list_elem_of_further.
Qed.

Lemma processMessage_keeps rawMessage :
  ProcessedMessage.sequenceNumber (processMessage rawMessage)
  = TopicMessage.sequence_number rawMessage
  ∧ ProcessedMessage.timestamp (processMessage rawMessage)
    = TopicMessage.valid_start_timestamp rawMessage
  ∧ ProcessedMessage.consensusTimestamp (processMessage rawMessage)
    = TopicMessage.consensus_timestamp rawMessage
  ∧ ProcessedMessage.payerAccountId (processMessage rawMessage)
    = TopicMessage.payer_account_id rawMessage.
Proof.
  unfold MirrorNode.processMessage.
  destruct (parsePayload _); [|done]. by destruct (verifyHCSMessage _).
Qed.

Lemma poll_fetched page c :
  isPolling c = true →
  notBelowCursor c page →
  isPolling (poll (Fetched page) c).1 = true
  ∧ (poll (Fetched page) c).2 = processMessages page
  ∧ lastSequenceNumber c <= lastSequenceNumber (poll (Fetched page) c).1
  ∧ MirrorNode.cursorIsMaximum (lastSequenceNumber c)
      (lastSequenceNumber (poll (Fetched page) c).1) (poll (Fetched page) c).2.
Proof.
  intros Hpoll Hhon. unfold MirrorNode.poll. rewrite Hpoll. simpl.
  unfold scheduleNextPoll. unfold notBelowCursor in Hhon.
  destruct page as [|r0 page]; simpl.
  - rewrite ?Hpoll. simpl. split; [done|]. split; [done|]. split; [lia|].
    split; [constructor|]. split; done.
  - rewrite ?Hpoll. simpl.
    set (x := ProcessedMessage.sequenceNumber (processMessage r0)).
    set (xs := map ProcessedMessage.sequenceNumber (MirrorNode.processMessages _ _ page)).
    destruct (Math_max_ge x xs) as [Hx Hxs].
    assert (Hx0 : lastSequenceNumber c <= x).
    { subst x. rewrite processMessage_sequenceNumber.
      by apply Forall_cons in Hhon as [? _]. }
    split; [done|]. split; [done|]. split; [lia|].
    split; [|split; [|done]].
    + constructor; [done|]. apply Forall_forall. intros pm Hpm.
      rewrite Forall_forall in Hxs. apply Hxs.
      subst xs. apply list_elem_of_fmap. by exists pm.
    + intros _. pose proof (Math_max_elem x xs) as Hin.
      apply elem_of_cons in Hin as [Hin|Hin].
      * exists (processMessage r0). split; [apply list_elem_of_here|done].
      * subst xs. apply list_elem_of_fmap in Hin as (pm & Hpm & Hin).
        exists pm. split; [by apply list_elem_of_further|done].
Qed.

Lemma processMessages_app pages1 pages2 :
  processMessages (pages1 ++ pages2)
  = processMessages pages1 ++ processMessages pages2.
Proof. apply map_app. Qed.

Lemma polls_fetched pages : ∀ c,
  isPolling c = true →
  ascending pages c →
  isPolling (polls (map Fetched pages) c).1 = true
  ∧ (polls (map Fetched pages) c).2 = processMessages (concat pages)
  ∧ lastSequenceNumber c <= lastSequenceNumber (polls (map Fetched pages) c).1
  ∧ MirrorNode.cursorIsMaximum (lastSequenceNumber c)
      (lastSequenceNumber (polls (map Fetched pages) c).1)
      (polls (map Fetched pages) c).2.
Proof.
  induction pages as [|page pages IH]; intros c Hpoll Hhon.
  - simpl. split; [done|]. split; [done|]. split; [lia|].
    split; [constructor|]. split; done.
  - destruct Hhon as [Hpage Hrest].
    destruct (poll_fetched page c Hpoll Hpage)
      as (Hpoll1 & Hd1 & Hle1 & Hb1 & Hm1 & He1).
    cbn [map MirrorNode.polls concat].
    destruct (poll (Fetched page) c) as [c1 d1] eqn:E1. simpl in *.
    destruct (IH c1 Hpoll1 Hrest) as (Hpoll2 & Hd2 & Hle2 & Hb2 & Hm2 & He2).
    destruct (polls (map Fetched pages) c1) as [c2 d2] eqn:E2. simpl in *.
    split; [done|]. split; [by rewrite processMessages_app, Hd1, Hd2|].
    split; [lia|]. split; [|split].
    + apply Forall_app. split; [|done].
      eapply Forall_impl; [exact Hb1|]. simpl. intros pm Hpm. lia.
    + intros Hne. destruct d2 as [|pm2 d2].
      * rewrite app_nil_r in Hne. destruct (Hm1 Hne) as (pm & Hin & Hseq).
        exists pm. split; [by rewrite app_nil_r|]. rewrite He2; done.
      * destruct Hm2 as (pm & Hin & Hseq); [done|].
        exists pm. split; [|done]. apply elem_of_app. by right.
    + intros Hnil. apply app_eq_nil in Hnil as [Hn1 Hn2].
      rewrite He2, He1; done.
Qed.

(** Below 2^53 the sum the client asks from is exact. *)
Lemma add_one_safe (n : Z) :
  0 <= n < Number.MAX_SAFE_INTEGER → Number.add n 1 = n + 1.
Proof.
  unfold Number.MAX_SAFE_INTEGER. intros Hn.
  unfold Number.add, Number.round.
  rewrite Z.abs_eq by lia.
  assert (Hlog : Z.log2 (n + 1) < 53) by (apply Z.log2_lt_pow2; lia).
  destruct (Z.leb_spec (Z.log2 (n + 1) + 1 - 53) 0); [done|lia].
Qed.

(** A page that honours the filter the client sent does not lie below the
    cursor, the cursor being a safe integer that is not negative. *)
Lemma honoured_page_is_not_below c page :
  0 <= lastSequenceNumber c < Number.MAX_SAFE_INTEGER →
  honoursFilter c page → notBelowCursor c page.
Proof.
  intros Hc. unfold honoursFilter, notBelowCursor, sequenceFilter.
  rewrite (add_one_safe _ Hc).
  destruct (Z.eqb_spec (lastSequenceNumber c + 1) 0) as [|_]; [lia|].
  intros H. eapply Forall_impl; [exact H|]. simpl. intros raw. lia.
Qed.

(** C6, as amended.  Over any sequence of successful poll cycles of a polling
    client none of whose pages holds a sequence number below the cursor of
    its cycle: the cursor never decreases from one cycle to the next; every
    fetched message, valid or not, is delivered, in order, with its sequence
    number, timestamps and payer; and the cursor is the largest sequence
    number delivered (it stands where it stood when nothing was
    delivered). *)
Theorem cursor_is_monotone_and_maximal
  (c : MirrorNode.t) (pages : list (list TopicMessage.t)) :
  isPolling c = true →
  ascending pages c →
  (∀ n, lastSequenceNumber (polls (map Fetched (take n pages)) c).1
        <= lastSequenceNumber (polls (map Fetched (take (S n) pages)) c).1)
  ∧ Forall2 (fun raw pm =>
               ProcessedMessage.sequenceNumber pm = TopicMessage.sequence_number raw
               ∧ ProcessedMessage.timestamp pm = TopicMessage.valid_start_timestamp raw
               ∧ ProcessedMessage.consensusTimestamp pm
                 = TopicMessage.consensus_timestamp raw
               ∧ ProcessedMessage.payerAccountId pm = TopicMessage.payer_account_id raw)
      (concat pages) (polls (map Fetched pages) c).2
  ∧ (polls (map Fetched pages) c).2 = processMessages (concat pages)
  ∧ Forall (fun pm => ProcessedMessage.sequenceNumber pm
                      <= lastSequenceNumber (polls (map Fetched pages) c).1)
      (polls (map Fetched pages) c).2
  ∧ ((polls (map Fetched pages) c).2 ≠ [] →
     ∃ pm, pm ∈ (polls (map Fetched pages) c).2
           ∧ ProcessedMessage.sequenceNumber pm
             = lastSequenceNumber (polls (map Fetched pages) c).1)
  ∧ ((polls (map Fetched pages) c).2 = [] →
     lastSequenceNumber (polls (map Fetched pages) c).1 = lastSequenceNumber c).
Proof.
  intros Hpoll Hhon.
  destruct (polls_fetched pages c Hpoll Hhon) as (_ & Hd & _ & Hb & Hm & He).
  split; [|split; [|done]].
  - clear Hd Hb Hm He. revert c Hpoll Hhon.
    induction pages as [|page pages IH]; intros c Hpoll Hhon n.
    + by rewrite !take_nil.
    + destruct Hhon as [Hpage Hrest].
      destruct (poll_fetched page c Hpoll Hpage) as (Hpoll1 & _ & Hle1 & _).
      destruct n as [|n].
      * cbn [take map MirrorNode.polls].
        destruct (poll (Fetched page) c) as [c1 d1] eqn:E1. simpl in *.
        done.
      * cbn [take map MirrorNode.polls].
        destruct (poll (Fetched page) c) as [c1 d1] eqn:E1. simpl in *.
        specialize (IH c1 Hpoll1 Hrest n).
        destruct (polls (map Fetched (take n pages)) c1) as [ca da].
        destruct (polls (map Fetched (take (S n) pages)) c1) as [cb db].
        done.
  - rewrite Hd. clear. unfold MirrorNode.processMessages.
    generalize (concat pages). intros raws.
    induction raws as [|raw raws IH]; simpl; constructor; [|done].
    apply processMessage_keeps.
Qed.

End Cursor.

(** Three cycles of the example client through the theorem: all three
    messages are delivered, none of them valid, and the cursor ends at 3. *)
Lemma cursor_after_three_pages :
  map ProcessedMessage.sequenceNumber
    (MirrorNode.polls Scenario.unparsable Scenario.unverified
       (map MirrorNode.Fetched Scenario.pages) Scenario.client).2
  = [1; 2; 3]
  ∧ MirrorNode.lastSequenceNumber
      (MirrorNode.polls Scenario.unparsable Scenario.unverified
         (map MirrorNode.Fetched Scenario.pages) Scenario.client).1
    = 3
  ∧ Forall (fun pm => ProcessedMessage.sequenceNumber pm <= 3)
      (MirrorNode.polls Scenario.unparsable Scenario.unverified
         (map MirrorNode.Fetched Scenario.pages) Scenario.client).2.
Proof.
  split; [reflexivity|]. split; [reflexivity|].
  refine (proj1 (proj2 (proj2 (proj2 (cursor_is_monotone_and_maximal
            Scenario.unparsable Scenario.unverified Scenario.client Scenario.pages
            eq_refl _))))).
  simpl. unfold MirrorNode.notBelowCursor. simpl.
  repeat split; repeat constructor; vm_compute; discriminate.
Defined.

(** C6, the claim as stated fails: when the second page holds sequence
    number 3 after the first held 5, the cursor goes from 5 back to 3, below
    the 5 that was delivered. *)
Lemma cursor_falls_back_on_a_stale_page :
  MirrorNode.isPolling Scenario.client = true
  ∧ MirrorNode.lastSequenceNumber
      (MirrorNode.polls Scenario.unparsable Scenario.unverified
         (map MirrorNode.Fetched (take 1 Scenario.stalePages)) Scenario.client).1
    = 5
  ∧ MirrorNode.lastSequenceNumber
      (MirrorNode.polls Scenario.unparsable Scenario.unverified
         (map MirrorNode.Fetched (take 2 Scenario.stalePages)) Scenario.client).1
    = 3
  ∧ map ProcessedMessage.sequenceNumber
      (MirrorNode.polls Scenario.unparsable Scenario.unverified
         (map MirrorNode.Fetched Scenario.stalePages) Scenario.client).2
    = [5; 3]
  ∧ ¬ (∀ n, MirrorNode.lastSequenceNumber
              (MirrorNode.polls Scenario.unparsable Scenario.unverified
                 (map MirrorNode.Fetched (take n Scenario.stalePages))
                 Scenario.client).1
            <= MirrorNode.lastSequenceNumber
                 (MirrorNode.polls Scenario.unparsable Scenario.unverified
                    (map MirrorNode.Fetched (take (S n) Scenario.stalePages))
                    Scenario.client).1)
  ∧ ¬ Forall (fun pm => ProcessedMessage.sequenceNumber pm
                        <= MirrorNode.lastSequenceNumber
                             (MirrorNode.polls Scenario.unparsable Scenario.unverified
                                (map MirrorNode.Fetched Scenario.stalePages)
                                Scenario.client).1)
        (MirrorNode.polls Scenario.unparsable Scenario.unverified
           (map MirrorNode.Fetched Scenario.stalePages) Scenario.client).2.
Proof.
  split; [reflexivity|]. split; [reflexivity|]. split; [reflexivity|].
  split; [reflexivity|]. split.
  - intros H. specialize (H 1%nat). vm_compute in H. by apply H.
  - intros H. apply Forall_cons in H as [H _]. vm_compute in H. by apply H.
Qed.

(** The first request of the example client carries the filter. *)
Example pollUrl_of_client :
  MirrorNode.pollUrl pretty Scenario.client
  = "https://testnet.mirrornode.hedera.com/api/v1/topics/0.0.123456/messages?limit=100&order=asc&sequencenumber=gte:1".
Proof. reflexivity. Qed.

(** At 2^53 the engine's sum loses the one, and so does the filter asked. *)
Example add_one_at_two_to_53 :
  Number.add 9007199254740992 1 = 9007199254740992
  ∧ (9007199254740992 + 1)%float = 9007199254740992%float
  ∧ Number.add 9007199254740994 1 = 9007199254740996
  ∧ (9007199254740994 + 1)%float = 9007199254740996%float.
Proof. repeat split; vm_compute; reflexivity. Qed.

(** ** Message formats: the round trip *)

Section RoundTrip.
Import Formats.

Lemma numberToken_finite x :
  JSON.finite x = true → JSON.numberToken x = JSON.Number (JSON.positiveZero x).
Proof. intros H. unfold JSON.numberToken. by rewrite H. Qed.

Lemma typed_message_is_valid (e : HCSMessage) :
  validateHCSMessage (toValue e) = Returned true.
Proof.
  destruct e as [m|m]; simpl.
  - unfold validateWaterFlowMessage. simpl.
    by destruct (WaterFlowMessage.valveStatus m).
  - unfold validateDeviceStatusMessage. simpl.
    destruct (DeviceStatusMessage.status m);
      by destruct (DeviceStatusMessage.errorCode m).
Qed.

Lemma numberToken_not_finite x :
  JSON.finite x = false → JSON.numberToken x = JSON.Null.
Proof. intros H. unfold JSON.numberToken. by rewrite H. Qed.

Lemma finite_cases x :
  JSON.numberToken x = JSON.Number (JSON.positiveZero x) ∧ JSON.finite x = true
  ∨ JSON.numberToken x = JSON.Null ∧ JSON.finite x = false.
Proof.
  unfold JSON.numberToken. destruct (JSON.finite x); [by left|by right].
Qed.

Lemma round_trip_flow (m : WaterFlowMessage.t) :
  deserializeMessage (serializeMessage (WATER_FLOW m))
  = if forallb JSON.finite (checkedNumbers (WATER_FLOW m))
    then Some (toValue (positiveZeros (WATER_FLOW m))) else None.
Proof.
  unfold serializeMessage, JSON.stringify. simpl.
  destruct (finite_cases (WaterFlowMessage.timestamp m)) as [[-> ->]|[-> ->]],
           (finite_cases (WaterFlowMessage.pulseCount m)) as [[-> ->]|[-> ->]],
           (finite_cases (WaterFlowMessage.flowRate m)) as [[-> ->]|[-> ->]],
           (finite_cases (WaterFlowMessage.totalVolume m)) as [[-> ->]|[-> ->]],
           (finite_cases (WaterFlowMessage.pressure m)) as [[-> ->]|[-> ->]],
           (finite_cases (WaterFlowMessage.temperature m)) as [[-> ->]|[-> ->]];
    unfold deserializeMessage; simpl;
    unfold validateWaterFlowMessage; simpl;
    by destruct (WaterFlowMessage.valveStatus m).
Qed.

(** What a status event comes back as when its top-level numbers are finite:
    the event with each number of [diagnostics] that is not finite turned
    into [null]. *)
Lemma round_trip_status (m : DeviceStatusMessage.t) :
  deserializeMessage (serializeMessage (DEVICE_STATUS m))
  = if forallb JSON.finite (checkedNumbers (DEVICE_STATUS m))
    then option_map JSON.valueOf (JSON.serialize (toValue (DEVICE_STATUS m)))
    else None.
Proof.
  unfold serializeMessage, JSON.stringify. simpl.
  destruct (finite_cases (DeviceStatusMessage.timestamp m)) as [[-> ->]|[-> ->]],
           (finite_cases (DeviceStatusMessage.batteryLevel m)) as [[-> ->]|[-> ->]],
           (finite_cases (DeviceStatusMessage.signalStrength m)) as [[-> ->]|[-> ->]],
           (finite_cases (DeviceStatusMessage.lastMaintenance m)) as [[-> ->]|[-> ->]];
    destruct (DeviceStatusMessage.errorCode m) as [code|]; simpl;
    unfold deserializeMessage; simpl;
    unfold validateDeviceStatusMessage; simpl;
    by destruct (DeviceStatusMessage.status m).
Qed.

Lemma diagnostics_of_toValue (m : DeviceStatusMessage.t) :
  JS.member "memoryUsage" (JS.member "diagnostics" (toValue (DEVICE_STATUS m)))
  = JS.Number (Diagnostics.memoryUsage (DeviceStatusMessage.diagnostics m))
  ∧ JS.member "uptime" (JS.member "diagnostics" (toValue (DEVICE_STATUS m)))
    = JS.Number (Diagnostics.uptime (DeviceStatusMessage.diagnostics m)).
Proof. simpl. by destruct (DeviceStatusMessage.errorCode m). Qed.

(** C7, as amended.  Every typed event is structurally valid.  When all its
    numeric fields are finite, deserializeMessage (serializeMessage e)
    returns the event again, a field holding negative zero coming back as 0.
    When one of the numeric fields the validators check is NaN or infinite,
    it returns null.  When those are finite and a number of diagnostics is
    not, it returns an object that holds null in that field, which is not
    the event. *)
Theorem round_trip_of_finite_events (e : HCSMessage) :
  validateHCSMessage (toValue e) = Returned true
  ∧ (forallb JSON.finite (numbers e) = true →
     deserializeMessage (serializeMessage e) = Some (toValue (positiveZeros e)))
  ∧ (forallb JSON.finite (checkedNumbers e) = false →
     deserializeMessage (serializeMessage e) = None)
  ∧ (forallb JSON.finite (checkedNumbers e) = true →
     forallb JSON.finite (numbers e) = false →
     ∃ m v,
       e = DEVICE_STATUS m
       ∧ deserializeMessage (serializeMessage e) = Some v
       ∧ v ≠ toValue e
       ∧ v ≠ toValue (positiveZeros e)
       ∧ (JSON.finite (Diagnostics.memoryUsage (DeviceStatusMessage.diagnostics m))
          = false →
          JS.member "memoryUsage" (JS.member "diagnostics" v) = JS.Null)
       ∧ (JSON.finite (Diagnostics.uptime (DeviceStatusMessage.diagnostics m))
          = false →
          JS.member "uptime" (JS.member "diagnostics" v) = JS.Null)).
Proof.
  split; [apply typed_message_is_valid|].
  split; [|split].
  - intros H. destruct e as [m|m].
    + rewrite round_trip_flow. change (checkedNumbers (WATER_FLOW m))
        with (numbers (WATER_FLOW m)). by rewrite H.
    + simpl in H. repeat (apply andb_true_iff in H as [? H]).
      unfold serializeMessage, JSON.stringify. simpl.
      destruct (DeviceStatusMessage.errorCode m) as [code|]; simpl;
        rewrite !numberToken_finite by done;
        unfold deserializeMessage; simpl;
        unfold validateDeviceStatusMessage; simpl;
        by destruct (DeviceStatusMessage.status m),
                    (Diagnostics.pumpStatus (DeviceStatusMessage.diagnostics m)),
                    (Diagnostics.sensorStatus (DeviceStatusMessage.diagnostics m)),
                    (Diagnostics.networkStatus (DeviceStatusMessage.diagnostics m)).
  - intros H. destruct e as [m|m].
    + by rewrite round_trip_flow, H.
    + by rewrite round_trip_status, H.
  - intros Hc Hn. destruct e as [m|m].
    + change (checkedNumbers (WATER_FLOW m)) with (numbers (WATER_FLOW m)) in Hc.
      congruence.
    + exists m.
      set (d := DeviceStatusMessage.diagnostics m).
      assert (Hone : JSON.finite (Diagnostics.memoryUsage d) = false
                     ∨ JSON.finite (Diagnostics.uptime d) = false).
      { simpl in Hc, Hn. repeat (apply andb_true_iff in Hc as [? Hc]).
        repeat match goal with Hf : JSON.finite _ = true |- _ =>
                 rewrite Hf in Hn; clear Hf end.
        simpl in Hn. fold d in Hn.
        destruct (JSON.finite (Diagnostics.memoryUsage d)); [|by left].
        destruct (JSON.finite (Diagnostics.uptime d)); [done|by right]. }
      rewrite round_trip_status, Hc.
      set (back := default JS.Undefined
                     (option_map JSON.valueOf
                        (JSON.serialize (toValue (DEVICE_STATUS m))))).
      assert (Hmem : JSON.finite (Diagnostics.memoryUsage d) = false →
                     JS.member "memoryUsage" (JS.member "diagnostics" back) = JS.Null).
      { intros Hf. subst back d. simpl.
        destruct (DeviceStatusMessage.errorCode m) as [code|]; simpl;
          by rewrite (numberToken_not_finite _ Hf). }
      assert (Hup : JSON.finite (Diagnostics.uptime d) = false →
                    JS.member "uptime" (JS.member "diagnostics" back) = JS.Null).
      { intros Hf. subst back d. simpl.
        destruct (DeviceStatusMessage.errorCode m) as [code|]; simpl;
          by rewrite (numberToken_not_finite _ Hf). }
      assert (Hdiff : ∀ m', back ≠ toValue (DEVICE_STATUS m')).
      { intros m' Heq.
        destruct (diagnostics_of_toValue m') as [Hm' Hu'].
        rewrite <- Heq in Hm', Hu'.
        destruct Hone as [Hf|Hf]; [rewrite (Hmem Hf) in Hm'|rewrite (Hup Hf) in Hu'];
          discriminate. }
      exists back. split; [done|]. split; [done|].
      split; [apply Hdiff|]. split; [apply Hdiff|]. done.
Qed.

(** Without a negative zero the event comes back as it was. *)
Lemma positiveZeros_id (e : HCSMessage) :
  forallb (fun x => negb (JSON.isNegativeZero x)) (numbers e) = true →
  positiveZeros e = e.
Proof.
  intros H. unfold positiveZeros, JSON.positiveZero.
  destruct e as [m|m]; simpl in H;
    repeat (apply andb_true_iff in H as [?%negb_true_iff H]).
  - destruct m; simpl in *. by repeat match goal with H : _ = false |- _ => rewrite H; clear H end.
  - destruct m as [? ? ? ? ? ? ? ? ? d]; destruct d; simpl in *.
    by repeat match goal with H : _ = false |- _ => rewrite H; clear H end.
Qed.

(** JavaScript's [===] does not tell the number read back from the one
    written, provided that one was not NaN. *)
Lemma positiveZero_equal (x : number) :
  is_nan x = false → (JSON.positiveZero x =? x)%float = true.
Proof.
  intros Hnan. unfold JSON.positiveZero, JSON.isNegativeZero.
  assert (Hxx : (x =? x)%float = true).
  { unfold is_nan in Hnan. by apply negb_false_iff in Hnan. }
  destruct (is_zero x) eqn:Ez; simpl; [|done].
  destruct (get_sign x); [|done].
  unfold is_zero in Ez. rewrite FloatAxioms.eqb_spec in Ez |- *.
  destruct (Prim2SF x) as [s|s| |s m e]; try destruct s;
    vm_compute in Ez; try discriminate; reflexivity.
Qed.

End RoundTrip.

(** The status report of the scenarios through the theorem: it round-trips;
    with a memory reading that is NaN it comes back as an object that holds
    null there. *)
Lemma status_report_round_trips :
  Formats.roundTrips Scenario.statusReport
  ∧ ∃ v, Formats.deserializeMessage (Formats.serializeMessage Scenario.statusNaN)
         = Some v
         ∧ v ≠ Formats.toValue Scenario.statusNaN
         ∧ JS.member "memoryUsage" (JS.member "diagnostics" v) = JS.Null.
Proof.
  split.
  - exact (proj1 (proj2 (round_trip_of_finite_events Scenario.statusReport)) eq_refl).
  - destruct (proj2 (proj2 (proj2 (round_trip_of_finite_events Scenario.statusNaN)))
                eq_refl eq_refl)
      as (m & v & Hm & Hv & Hne & _ & Hmem & _).
    exists v. split; [exact Hv|]. split; [exact Hne|].
    apply Hmem. injection Hm as <-. reflexivity.
Defined.

(** C7, the claim as stated fails: a flow event whose totalVolume is NaN is
    structurally valid, and deserializing its serialization returns null. *)
Lemma nan_event_does_not_round_trip :
  Formats.validateHCSMessage (Formats.toValue Scenario.flowNaN) = Returned true
  ∧ Formats.deserializeMessage (Formats.serializeMessage Scenario.flowNaN) = None
  ∧ ¬ Formats.roundTrips Scenario.flowNaN.
Proof.
  split; [reflexivity|]. split; [reflexivity|].
  unfold Formats.roundTrips.
  change (Formats.deserializeMessage (Formats.serializeMessage Scenario.flowNaN))
    with (@None JS.Value).
  discriminate.
Qed.


(** * Further properties *)

(** ** Session manager: the registry's keys *)

Section RegistryKeys.
Import Manager.

Lemma keys_set_present {V} (k : string) (v old : V) (reg : list (string * V)) :
  JSMap.get k reg = Some old → JSMap.keys (JSMap.set k v reg) = JSMap.keys reg.
Proof.
  unfold JSMap.keys. induction reg as [|[k0 v0] reg IH]; simpl; [done|].
  destruct (String.eqb k k0); simpl; [done|]. intros H. by rewrite IH.
Qed.

Lemma keys_set_absent {V} (k : string) (v : V) (reg : list (string * V)) :
  JSMap.get k reg = None → JSMap.keys (JSMap.set k v reg) = JSMap.keys reg ++ [k].
Proof.
  unfold JSMap.keys. induction reg as [|[k0 v0] reg IH]; simpl; [done|].
  destruct (String.eqb k k0); simpl; [done|]. intros H. by rewrite IH.
Qed.

Lemma get_None_keys {V} (k : string) (reg : list (string * V)) :
  JSMap.get k reg = None ↔ k ∉ JSMap.keys reg.
Proof.
  unfold JSMap.keys. induction reg as [|[k0 v0] reg IH]; simpl.
  - split; [intros _; apply not_elem_of_nil|done].
  - rewrite not_elem_of_cons. destruct (String.eqb k k0) eqn:E.
    + apply String.eqb_eq in E. split; [done|]. by intros [? _].
    + apply String.eqb_neq in E. rewrite IH. split; [done|by intros [_ ?]].
Qed.

Lemma keys_delete_sublist {V} (k : string) (reg : list (string * V)) :
  sublist (JSMap.keys (JSMap.delete k reg)) (JSMap.keys reg).
Proof.
  unfold JSMap.keys. induction reg as [|[k0 v0] reg IH]; simpl; [done|].
  destruct (String.eqb k k0); simpl.
  - by apply sublist_cons.
  - by apply sublist_skip.
Qed.

Lemma keys_completeSession id reason now m :
  JSMap.keys (activeSessions (completeSession id reason now m).1)
  = JSMap.keys (activeSessions m).
Proof.
  unfold completeSession. destruct (getSession id m) as [s|] eqn:E; [|done].
  destruct (negb _); [done|]. simpl. by apply (keys_set_present _ _ s).
Qed.

Lemma keys_cancelSession id reason now m :
  JSMap.keys (activeSessions (cancelSession id reason now m).1)
  = JSMap.keys (activeSessions m).
Proof.
  unfold cancelSession. destruct (getSession id m) as [s|] eqn:E; [|done].
  destruct (negb _); [done|]. simpl. by apply (keys_set_present _ _ s).
Qed.

Lemma keys_errorSession id message now m :
  JSMap.keys (activeSessions (errorSession id message now m).1)
  = JSMap.keys (activeSessions m).
Proof.
  unfold errorSession. destruct (getSession id m) as [s|] eqn:E; [|done].
  simpl. by apply (keys_set_present _ _ s).
Qed.

Lemma keys_processMessage pm now m :
  JSMap.keys (activeSessions (processMessage pm now m))
  = JSMap.keys (activeSessions m).
Proof.
  unfold processMessage. destruct (negb _); [done|].
  destruct (ProcessedMessage.message pm) as [[flow|msg]|]; [| |done].
  - unfold processWaterFlowMessage.
    destruct (getSession _ m) as [s|] eqn:E; [|done].
    destruct (_ || _)%bool; [done|].
    set (m1 := store _ _ m).
    assert (H1 : JSMap.keys (activeSessions m1) = JSMap.keys (activeSessions m)).
    { subst m1. simpl. by apply (keys_set_present _ _ s). }
    destruct (_ || _)%bool; [|done]. by rewrite keys_completeSession.
  - unfold processDeviceStatusMessage.
    destruct (DeviceState.eqb _ _); [|done].
    destruct (getActiveSessionForDevice _ _); [|done].
    by rewrite keys_cancelSession.
Qed.

Lemma keys_sweepEntry now acc id :
  JSMap.keys (activeSessions (sweepEntry now acc id).1)
  = JSMap.keys (activeSessions acc.1).
Proof.
  destruct acc as [m rem]. unfold sweepEntry. simpl.
  destruct (getSession id m) as [s|]; [|done].
  set (m1 := if Status.eqb _ _ then _ else m).
  assert (H1 : JSMap.keys (activeSessions m1) = JSMap.keys (activeSessions m)).
  { subst m1. destruct (Status.eqb _ _); [|done].
    destruct (_ <? _); [apply keys_cancelSession|].
    destruct (_ <? _); [apply keys_completeSession|done]. }
  destruct (getSession id m1); [|done].
  destruct (negb _ && _); [|done].
  by destruct (retention <? _).
Qed.

Lemma keys_sweep now ids acc :
  JSMap.keys (activeSessions (fold_left (sweepEntry now) ids acc).1)
  = JSMap.keys (activeSessions acc.1).
Proof.
  revert acc. induction ids as [|id ids IH]; intros acc; simpl; [done|].
  by rewrite IH, keys_sweepEntry.
Qed.

Lemma keys_evict ids m :
  sublist
    (JSMap.keys (activeSessions
       (fold_left
          (fun m id => with_sessions (JSMap.delete id (activeSessions m)) m) ids m)))
    (JSMap.keys (activeSessions m)).
Proof.
  revert m. induction ids as [|id ids IH]; intros m; simpl; [done|].
  etransitivity; [apply IH|]. apply keys_delete_sublist.
Qed.

Lemma keys_cleanupOldSessions now m :
  sublist (JSMap.keys (activeSessions (cleanupOldSessions now m)))
          (JSMap.keys (activeSessions m)).
Proof.
  unfold cleanupOldSessions.
  pose proof (keys_sweep now (JSMap.keys (activeSessions m)) (m, [])) as H.
  destruct (fold_left _ _ (m, [])) as [m1 rem]. simpl in H.
  rewrite <- H. apply keys_evict.
Qed.

Lemma keys_createSession data now m :
  JSMap.keys (activeSessions (createSession data now m).1)
  = JSMap.keys (activeSessions m)
  ∨ (getSession (SessionData.sessionId data) m = None
     ∧ JSMap.keys (activeSessions (createSession data now m).1)
       = JSMap.keys (activeSessions m) ++ [SessionData.sessionId data]).
Proof.
  unfold createSession.
  destruct (negb _); [by left|].
  destruct (getActiveSessionForDevice _ m); [by left|].
  simpl. unfold getSession.
  destruct (JSMap.get (SessionData.sessionId data) (activeSessions m)) as [old|] eqn:E.
  - left. by apply (keys_set_present _ _ old).
  - right. split; [done|]. by apply keys_set_absent.
Qed.

(** X1. Message processing and the three explicit transitions never register
    or remove a session; the sweep only removes; createSession adds at most
    its own id, at the end. *)
Theorem registry_keys_by_operation (m : Manager.t) (now : Z) :
  (∀ pm, JSMap.keys (activeSessions (processMessage pm now m))
         = JSMap.keys (activeSessions m))
  ∧ (∀ id reason, JSMap.keys (activeSessions (completeSession id reason now m).1)
                  = JSMap.keys (activeSessions m))
  ∧ (∀ id reason, JSMap.keys (activeSessions (cancelSession id reason now m).1)
                  = JSMap.keys (activeSessions m))
  ∧ (∀ id message, JSMap.keys (activeSessions (errorSession id message now m).1)
                   = JSMap.keys (activeSessions m))
  ∧ sublist (JSMap.keys (activeSessions (cleanupOldSessions now m)))
            (JSMap.keys (activeSessions m))
  ∧ (∀ data,
       JSMap.keys (activeSessions (createSession data now m).1)
       = JSMap.keys (activeSessions m)
       ∨ JSMap.keys (activeSessions (createSession data now m).1)
         = JSMap.keys (activeSessions m) ++ [SessionData.sessionId data]).
Proof.
  split; [intros; apply keys_processMessage|].
  split; [intros; apply keys_completeSession|].
  split; [intros; apply keys_cancelSession|].
  split; [intros; apply keys_errorSession|].
  split; [apply keys_cleanupOldSessions|].
  intros data. destruct (keys_createSession data now m) as [H|[_ H]]; [by left|by right].
Qed.

End RegistryKeys.

(** ** Session manager: the registry is keyed by session id *)

Section Coherence.
Import Manager.

Lemma get_own_id id s m :
  Registry.coherent m → getSession id m = Some s → WaterSession.sessionId s = id.
Proof.
  intros [_ Hall] Hget. apply get_In, list_elem_of_In in Hget.
  rewrite Forall_forall in Hall. exact (Hall _ Hget).
Qed.

Lemma Forall_set_own (k : string) (s : WaterSession.t) reg :
  WaterSession.sessionId s = k →
  Forall (fun entry => WaterSession.sessionId entry.2 = entry.1) reg →
  Forall (fun entry => WaterSession.sessionId entry.2 = entry.1) (JSMap.set k s reg).
Proof.
  intros Hk. induction reg as [|[k0 s0] reg IH]; simpl; intros Hall.
  - by constructor.
  - apply Forall_cons in Hall as [H0 Hall].
    destruct (String.eqb k k0) eqn:E.
    + apply String.eqb_eq in E. subst k0. by constructor.
    + constructor; [done|by apply IH].
Qed.

Lemma Forall_delete_own (k : string) reg :
  Forall (fun entry : string * WaterSession.t =>
            WaterSession.sessionId entry.2 = entry.1) reg →
  Forall (fun entry => WaterSession.sessionId entry.2 = entry.1) (JSMap.delete k reg).
Proof.
  induction reg as [|[k0 s0] reg IH]; simpl; intros Hall; [done|].
  apply Forall_cons in Hall as [H0 Hall].
  destruct (String.eqb k k0); [done|]. constructor; [done|by apply IH].
Qed.

Lemma coherent_store id s m :
  Registry.coherent m → WaterSession.sessionId s = id →
  Registry.coherent (store id s m).
Proof.
  intros [Hnd Hall] Hid. split; simpl.
  - destruct (JSMap.get id (activeSessions m)) as [old|] eqn:E.
    + by rewrite (keys_set_present _ _ old _ E).
    + rewrite (keys_set_absent _ _ _ E). apply NoDup_app.
      split; [done|]. split; [|apply NoDup_singleton].
      intros x Hx Hx'. apply list_elem_of_singleton in Hx'. subst x.
      by apply get_None_keys in E.
  - by apply Forall_set_own.
Qed.

Lemma coherent_delete id m :
  Registry.coherent m →
  Registry.coherent (with_sessions (JSMap.delete id (activeSessions m)) m).
Proof.
  intros [Hnd Hall]. split; simpl.
  - eapply sublist_NoDup; [exact Hnd|apply keys_delete_sublist].
  - by apply Forall_delete_own.
Qed.

Lemma coherent_completeSession id reason now m :
  Registry.coherent m → Registry.coherent (completeSession id reason now m).1.
Proof.
  intros H. unfold completeSession.
  destruct (getSession id m) as [s|] eqn:E; [|done].
  destruct (negb _); [done|]. simpl.
  apply coherent_store; [done|]. simpl. by apply (get_own_id _ _ m).
Qed.

Lemma coherent_cancelSession id reason now m :
  Registry.coherent m → Registry.coherent (cancelSession id reason now m).1.
Proof.
  intros H. unfold cancelSession.
  destruct (getSession id m) as [s|] eqn:E; [|done].
  destruct (negb _); [done|]. simpl.
  apply coherent_store; [done|]. simpl. by apply (get_own_id _ _ m).
Qed.

Lemma coherent_errorSession id message now m :
  Registry.coherent m → Registry.coherent (errorSession id message now m).1.
Proof.
  intros H. unfold errorSession.
  destruct (getSession id m) as [s|] eqn:E; [|done]. simpl.
  apply coherent_store; [done|]. simpl. by apply (get_own_id _ _ m).
Qed.

Lemma coherent_processMessage pm now m :
  Registry.coherent m → Registry.coherent (processMessage pm now m).
Proof.
  intros H. unfold processMessage. destruct (negb _); [done|].
  destruct (ProcessedMessage.message pm) as [[flow|msg]|]; [| |done].
  - unfold processWaterFlowMessage.
    destruct (getSession _ m) as [s|] eqn:E; [|done].
    destruct (_ || _)%bool; [done|].
    set (m1 := store _ _ m).
    assert (H1 : Registry.coherent m1).
    { subst m1. apply coherent_store; [done|]. simpl. by apply (get_own_id _ _ m). }
    destruct (_ || _)%bool; [|done]. by apply coherent_completeSession.
  - unfold processDeviceStatusMessage.
    set (m1 := Manager.mk _ _ _).
    assert (H1 : Registry.coherent m1) by exact H.
    destruct (DeviceState.eqb _ _); [|done].
    destruct (getActiveSessionForDevice _ m1); [|done].
    by apply coherent_cancelSession.
Qed.

Lemma coherent_sweepEntry now acc id :
  Registry.coherent acc.1 → Registry.coherent (sweepEntry now acc id).1.
Proof.
  destruct acc as [m rem]. simpl. intros H. unfold sweepEntry.
  destruct (getSession id m) as [s|]; [|done].
  set (m1 := if Status.eqb _ _ then _ else m).
  assert (H1 : Registry.coherent m1).
  { subst m1. destruct (Status.eqb _ _); [|done].
    destruct (_ <? _); [by apply coherent_cancelSession|].
    destruct (_ <? _); [by apply coherent_completeSession|done]. }
  destruct (getSession id m1); [|done].
  destruct (negb _ && _); [|done].
  by destruct (retention <? _).
Qed.

Lemma coherent_cleanupOldSessions now m :
  Registry.coherent m → Registry.coherent (cleanupOldSessions now m).
Proof.
  intros H. unfold cleanupOldSessions.
  assert (H1 : Registry.coherent
                 (fold_left (sweepEntry now) (JSMap.keys (activeSessions m)) (m, [])).1).
  { change m with ((m, @nil string).1) in H. revert H. generalize (m, @nil string).
    induction (JSMap.keys (activeSessions m)) as [|id ids IH]; intros acc Hacc;
      simpl; [done|].
    apply IH. by apply coherent_sweepEntry. }
  destruct (fold_left _ _ (m, [])) as [m1 rem]. simpl in H1.
  revert m1 H1. induction rem as [|id rem IH]; intros m1 H1; simpl; [done|].
  apply IH. by apply coherent_delete.
Qed.

Lemma coherent_createSession data now m :
  Registry.coherent m → Registry.coherent (createSession data now m).1.
Proof.
  intros H. unfold createSession.
  destruct (negb _); [done|].
  destruct (getActiveSessionForDevice _ m); [done|].
  simpl. by apply coherent_store.
Qed.

(** X2. In every state the session manager reaches, no session id is
    registered twice and every session sits under its own id, so the id a
    session carries and the key it is found by can be used for one another. *)
Theorem registry_is_keyed_by_session_id
  (cfg : SessionManagerConfig.t) (calls : list (Z * Manager.Op)) :
  NoDup (JSMap.keys (activeSessions (run cfg calls)))
  ∧ (∀ id s, getSession id (run cfg calls) = Some s
             ↔ In (id, s) (activeSessions (run cfg calls)))
  ∧ (∀ id s, getSession id (run cfg calls) = Some s →
             WaterSession.sessionId s = id).
Proof.
  assert (H : Registry.coherent (run cfg calls)).
  { unfold run.
    assert (H0 : Registry.coherent (new cfg)) by (split; constructor).
    revert H0. generalize (new cfg).
    induction calls as [|[now op] calls IH]; intros m Hm; simpl; [done|].
    apply IH. destruct op; simpl.
    - by apply coherent_createSession.
    - by apply coherent_processMessage.
    - by apply coherent_completeSession.
    - by apply coherent_cancelSession.
    - by apply coherent_errorSession.
    - by apply coherent_cleanupOldSessions. }
  split; [apply H|]. split; [|intros id s; by apply get_own_id].
  intros id s. split; [apply get_In|].
  destruct H as [Hnd _]. revert Hnd. unfold getSession.
  generalize (activeSessions (run cfg calls)). intros reg.
  induction reg as [|[k0 s0] reg IH]; simpl; [done|].
  intros Hnd [Heq|Hin].
  - injection Heq as -> ->. by rewrite String.eqb_refl.
  - apply NoDup_cons in Hnd as [Hnot Hnd].
    destruct (String.eqb id k0) eqn:E.
    + apply String.eqb_eq in E. subst k0. exfalso. apply Hnot.
      apply list_elem_of_In. change id with (fst (id, s)). by apply in_map.
    + by apply IH.
Qed.

End Coherence.

(** ** Session manager: device reports *)

Section DeviceReports.
Import Manager.

Lemma deviceStatuses_cancelSession id reason now m :
  deviceStatuses (cancelSession id reason now m).1 = deviceStatuses m.
Proof.
  unfold cancelSession. destruct (getSession id m); [|done]. by destruct (negb _).
Qed.

Lemma status_report_upserts_liveness_aux
  (pm : ProcessedMessage.t) (msg : DeviceStatusMessage.t) (now : Z) (m : Manager.t) :
  ProcessedMessage.isValid pm = true →
  ProcessedMessage.message pm = Some (DEVICE_STATUS msg) →
  getDeviceStatus (DeviceStatusMessage.deviceId msg) (processMessage pm now m)
  = Some (Registry.recordOf msg)
  ∧ (∀ d, d ≠ DeviceStatusMessage.deviceId msg →
          getDeviceStatus d (processMessage pm now m) = getDeviceStatus d m)
  ∧ (DeviceStatusMessage.status msg ≠ DeviceState.OFFLINE →
     activeSessions (processMessage pm now m) = activeSessions m).
Proof.
  intros Hvalid Hmsg. unfold processMessage. rewrite Hvalid, Hmsg. simpl.
  unfold processDeviceStatusMessage. fold (Registry.recordOf msg).
  set (m1 := Manager.mk _ _ _).
  assert (Hds : deviceStatuses
                  (if DeviceState.eqb (DeviceStatusMessage.status msg) DeviceState.OFFLINE
                   then match getActiveSessionForDevice (DeviceStatusMessage.deviceId msg) m1 with
                        | Some activeSession =>
                            (cancelSession (WaterSession.sessionId activeSession)
                               (Some "Device went offline") now m1).1
                        | None => m1
                        end
                   else m1)
                = deviceStatuses m1).
  { destruct (DeviceState.eqb _ _); [|done].
    destruct (getActiveSessionForDevice _ m1); [|done].
    apply deviceStatuses_cancelSession. }
  unfold getDeviceStatus. rewrite Hds. simpl.
  split; [apply lookup_insert_eq|]. split.
  - intros d Hne. by apply lookup_insert_ne.
  - intros Hne. by destruct (DeviceStatusMessage.status msg).
Qed.

(** X3. A valid status message replaces the liveness record of its device
    and of no other; unless it reports OFFLINE the session registry is left
    as it is, so a device that reports MAINTENANCE or ERROR keeps its active
    session. *)
Theorem status_report_upserts_liveness
  (pm : ProcessedMessage.t) (msg : DeviceStatusMessage.t) (now : Z) (m : Manager.t) :
  ProcessedMessage.isValid pm = true →
  ProcessedMessage.message pm = Some (DEVICE_STATUS msg) →
  getDeviceStatus (DeviceStatusMessage.deviceId msg) (processMessage pm now m)
  = Some (Registry.recordOf msg)
  ∧ (∀ d, d ≠ DeviceStatusMessage.deviceId msg →
          getDeviceStatus d (processMessage pm now m) = getDeviceStatus d m)
  ∧ (DeviceStatusMessage.status msg ≠ DeviceState.OFFLINE →
     activeSessions (processMessage pm now m) = activeSessions m).
Proof. apply status_report_upserts_liveness_aux. Qed.

(** X4. When a valid status message reports OFFLINE, the session that is
    active on the device is cancelled at that reading with the stored reason
    "Device went offline", and until the device reports ONLINE again every
    createSession on it throws and changes nothing. *)
Theorem offline_report_cancels_active_session
  (pm : ProcessedMessage.t) (msg : DeviceStatusMessage.t) (now : Z)
  (m : Manager.t) (s : WaterSession.t) :
  ProcessedMessage.isValid pm = true →
  ProcessedMessage.message pm = Some (DEVICE_STATUS msg) →
  DeviceStatusMessage.status msg = DeviceState.OFFLINE →
  getActiveSessionForDevice (DeviceStatusMessage.deviceId msg) m = Some s →
  getSession (WaterSession.sessionId s) m = Some s →
  getSession (WaterSession.sessionId s) (processMessage pm now m)
  = Some (WaterSession.set_errorMessage (Some "Device went offline")
            (WaterSession.set_endTime (Some now)
               (WaterSession.set_status Status.cancelled s)))
  ∧ (∀ data t,
       SessionData.deviceId data = DeviceStatusMessage.deviceId msg →
       createSession data t (processMessage pm now m)
       = (processMessage pm now m,
          Thrown ("Device " +:+ DeviceStatusMessage.deviceId msg +:+ " is not online"))).
Proof.
  intros Hvalid Hmsg Hoff Hfind Hget.
  destruct (status_report_upserts_liveness_aux pm msg now m Hvalid Hmsg) as [Hrec _].
  split.
  - unfold processMessage. rewrite Hvalid, Hmsg. simpl.
    unfold processDeviceStatusMessage. rewrite Hoff. simpl.
    set (m1 := Manager.mk _ _ _).
    change (getActiveSessionForDevice (DeviceStatusMessage.deviceId msg) m1)
      with (getActiveSessionForDevice (DeviceStatusMessage.deviceId msg) m).
    rewrite Hfind. unfold cancelSession.
    change (getSession (WaterSession.sessionId s) m1)
      with (getSession (WaterSession.sessionId s) m).
    rewrite Hget.
    apply find_some in Hfind as [_ Hact]. apply isActiveOn_spec in Hact as [_ Hact].
    rewrite Hact. simpl. apply getSession_store_eq.
  - intros data t Hd. unfold createSession. rewrite Hd, Hrec. simpl.
    by rewrite Hoff.
Qed.

End DeviceReports.

(** ** Session manager: completing and cancelling twice *)

Section Idempotence.
Import Manager.

Lemma completeSession_settles id reason now m :
  ∀ s, getSession id (completeSession id reason now m).1 = Some s →
       WaterSession.status s ≠ Status.active.
Proof.
  intros s. unfold completeSession.
  destruct (getSession id m) as [s0|] eqn:E; simpl; [|by rewrite E].
  destruct (Status.eqb (WaterSession.status s0) Status.active) eqn:Es; simpl.
  - rewrite getSession_store_eq. by intros [= <-].
  - rewrite E. intros [= <-] Hs. by rewrite Hs in Es.
Qed.

Lemma cancelSession_settles id reason now m :
  ∀ s, getSession id (cancelSession id reason now m).1 = Some s →
       WaterSession.status s ≠ Status.active.
Proof.
  intros s. unfold cancelSession.
  destruct (getSession id m) as [s0|] eqn:E; simpl; [|by rewrite E].
  destruct (Status.eqb (WaterSession.status s0) Status.active) eqn:Es; simpl.
  - rewrite getSession_store_eq. by intros [= <-].
  - rewrite E. intros [= <-] Hs. by rewrite Hs in Es.
Qed.

(** X5. completeSession and cancelSession are idempotent on every manager:
    after either has been called for an id, whatever it returned, a further
    completeSession or cancelSession for that id returns false and changes
    nothing. *)
Theorem complete_and_cancel_are_idempotent
  (m : Manager.t) (id : string) (reason reason' : option string) (now now' : Z) :
  let completed := (completeSession id reason now m).1 in
  let cancelled := (cancelSession id reason now m).1 in
  completeSession id reason' now' completed = (completed, false)
  ∧ cancelSession id reason' now' completed = (completed, false)
  ∧ completeSession id reason' now' cancelled = (cancelled, false)
  ∧ cancelSession id reason' now' cancelled = (cancelled, false).
Proof.
  simpl. split; [|split; [|split]].
  - apply completeSession_not_active, completeSession_settles.
  - apply cancelSession_not_active, completeSession_settles.
  - apply completeSession_not_active, cancelSession_settles.
  - apply cancelSession_not_active, cancelSession_settles.
Qed.

End Idempotence.

(** ** Session manager: events that are dropped *)

Section Dropped.
Import Manager.

(** X6. processMessage leaves the manager as it is for a message that is not
    valid, for a payload of neither kind, and for a flow event that names no
    registered session or names one of another device or another user. *)
Theorem dropped_messages_change_nothing
  (pm : ProcessedMessage.t) (now : Z) (m : Manager.t) :
  (ProcessedMessage.isValid pm = false → processMessage pm now m = m)
  ∧ (ProcessedMessage.message pm = None → processMessage pm now m = m)
  ∧ (∀ flow,
       ProcessedMessage.message pm = Some (WATER_FLOW flow) →
       (getSession (WaterFlowMessage.sessionId flow) m = None →
        processMessage pm now m = m)
       ∧ (∀ s, getSession (WaterFlowMessage.sessionId flow) m = Some s →
               WaterSession.deviceId s ≠ WaterFlowMessage.deviceId flow
               ∨ WaterSession.userId s ≠ WaterFlowMessage.userId flow →
               processMessage pm now m = m)).
Proof.
  unfold processMessage. split; [|split].
  - by intros ->.
  - intros ->. by destruct (negb _).
  - intros flow ->. destruct (negb _); [done|].
    unfold processWaterFlowMessage. split.
    + by intros ->.
    + intros s -> Hne.
      assert (E : (negb (String.eqb (WaterSession.deviceId s) (WaterFlowMessage.deviceId flow))
                   || negb (String.eqb (WaterSession.userId s) (WaterFlowMessage.userId flow)))%bool
                  = true).
      { apply orb_true_iff. destruct Hne as [Hne|Hne];
          apply String.eqb_neq in Hne; rewrite Hne; auto. }
      by rewrite E.
Qed.

End Dropped.

(** ** Session manager: creating under a registered id *)

Section Overwrite.
Import Manager.

(** X7. createSession does not look at the session id: when the device is
    online and idle and the id is already registered, the call succeeds, the
    registered session is replaced in place by the new active one, whatever
    its status or device was, and the registry keeps its keys. *)
Theorem createSession_replaces_registered_id
  (data : SessionData.t) (now : Z) (m : Manager.t) (old : WaterSession.t) :
  isOnline (getDeviceStatus (SessionData.deviceId data) m) = true →
  getActiveSessionForDevice (SessionData.deviceId data) m = None →
  getSession (SessionData.sessionId data) m = Some old →
  ∃ session,
    (createSession data now m).2 = Returned session
    ∧ getSession (SessionData.sessionId data) (createSession data now m).1
      = Some session
    ∧ WaterSession.status session = Status.active
    ∧ WaterSession.startTime session = now
    ∧ WaterSession.flowEvents session = []
    ∧ WaterSession.totalVolume session = 0%float
    ∧ JSMap.keys (activeSessions (createSession data now m).1)
      = JSMap.keys (activeSessions m).
Proof.
  intros Hon Hidle Hold. unfold createSession. rewrite Hon, Hidle. simpl.
  eexists. split; [reflexivity|]. split; [apply get_set_eq|].
  repeat (split; [reflexivity|]).
  by apply (keys_set_present _ _ old).
Qed.

End Overwrite.

(** ** Session manager: what the sweep keeps and what it evicts *)

Section Retention.
Import Manager.

Lemma sweepEntry_settled_session now id m rem s :
  getSession id m = Some s →
  Registry.settled now (config m) s →
  sweepEntry now (m, rem) id = (m, rem).
Proof.
  intros Hget Hs. unfold sweepEntry, Registry.settled in *. rewrite Hget.
  destruct (Status.eqb (WaterSession.status s) Status.active) eqn:E.
  - destruct Hs as [H1 H2].
    apply Z.ltb_ge in H1. apply Z.ltb_ge in H2. rewrite H1, H2, Hget, E. done.
  - rewrite Hget, E. simpl. destruct Hs as [Hs|Hs].
    + by rewrite Hs.
    + apply Z.ltb_ge in Hs. rewrite Hs. by destruct (truthy _).
Qed.

Lemma sweep_stays now id s cfg :
  Registry.settled now cfg s →
  ∀ ks m rem,
    config m = cfg → id ∉ rem → getSession id m = Some s →
    getSession id (fold_left (sweepEntry now) ks (m, rem)).1 = Some s
    ∧ id ∉ (fold_left (sweepEntry now) ks (m, rem)).2.
Proof.
  intros Hs ks. induction ks as [|k ks IH]; intros m rem Hcfg Hrem Hget;
    cbn [fold_left]; [done|].
  destruct (decide (k = id)) as [->|Hne].
  - rewrite (sweepEntry_settled_session now id m rem s); [|done|by rewrite Hcfg].
    by apply IH.
  - destruct (sweepEntry_other now id k m rem Hne) as (Hget' & Hcfg' & Hrem').
    destruct (sweepEntry now (m, rem) k) as [m' rem']. simpl in *.
    apply IH; [congruence|by apply Hrem'|congruence].
Qed.

(** X8. The sweep leaves a session exactly as it is when the session is
    active and within both limits, or terminal and either within the
    twenty-four hour retention or without a non-zero end time. *)
Theorem sweep_keeps_settled_sessions
  (now : Z) (m : Manager.t) (id : string) (s : WaterSession.t) :
  getSession id m = Some s →
  Registry.settled now (config m) s →
  getSession id (cleanupOldSessions now m) = Some s.
Proof.
  intros Hget Hs. unfold cleanupOldSessions.
  destruct (sweep_stays now id s (config m) Hs
              (JSMap.keys (activeSessions m)) m [])
    as [Hfinal Hrem]; [done|apply not_elem_of_nil|done|].
  destruct (fold_left (sweepEntry now) _ (m, [])) as [m1 rem]. simpl in *.
  by rewrite evict_keeps.
Qed.

Lemma sweepEntry_expired now id m rem s :
  getSession id m = Some s →
  Registry.expired now s →
  sweepEntry now (m, rem) id = (m, rem ++ [id]).
Proof.
  intros Hget (Hst & Htr & Hlt). unfold sweepEntry. rewrite Hget.
  assert (E : Status.eqb (WaterSession.status s) Status.active = false).
  { by destruct (WaterSession.status s). }
  rewrite E, Hget, E, Htr. simpl.
  apply Z.ltb_lt in Hlt. by rewrite Hlt.
Qed.

Lemma sweepEntry_listed now k m rem x :
  x ∈ rem → x ∈ (sweepEntry now (m, rem) k).2.
Proof.
  intros Hx. unfold sweepEntry.
  destruct (getSession k m) as [s|]; [|done].
  set (m1 := if Status.eqb _ _ then _ else m).
  destruct (getSession k m1); [|done].
  destruct (negb _ && _); [|done].
  destruct (retention <? _); simpl; [|done].
  apply elem_of_app. by left.
Qed.

Lemma sweep_lists_expired now id s :
  Registry.expired now s →
  ∀ ks m rem,
    getSession id m = Some s → id ∈ rem ∨ id ∈ ks →
    id ∈ (fold_left (sweepEntry now) ks (m, rem)).2.
Proof.
  intros Hs ks. induction ks as [|k ks IH]; intros m rem Hget Hin; cbn [fold_left].
  - destruct Hin as [Hin|Hin]; [done|by apply elem_of_nil in Hin].
  - destruct (decide (k = id)) as [->|Hne].
    + rewrite (sweepEntry_expired now id m rem s Hget Hs).
      apply IH; [done|]. left. apply elem_of_app. right. by apply list_elem_of_singleton.
    + destruct (sweepEntry_other now id k m rem Hne) as (Hget' & _ & _).
      pose proof (sweepEntry_listed now k m rem id) as Hlisted.
      destruct (sweepEntry now (m, rem) k) as [m' rem']. simpl in *.
      apply IH; [congruence|].
      destruct Hin as [Hin|Hin]; [left; by apply Hlisted|].
      apply elem_of_cons in Hin as [->|Hin]; [done|by right].
Qed.

Lemma get_delete_eq {V} (k : string) (reg : list (string * V)) :
  NoDup (JSMap.keys reg) → JSMap.get k (JSMap.delete k reg) = None.
Proof.
  unfold JSMap.keys. induction reg as [|[k0 v0] reg IH]; simpl; intros Hnd; [done|].
  apply NoDup_cons in Hnd as [Hnot Hnd].
  destruct (String.eqb k k0) eqn:E; simpl.
  - apply String.eqb_eq in E. subst k0. by apply get_None_keys.
  - rewrite E. by apply IH.
Qed.

Lemma get_delete_None {V} (k k' : string) (reg : list (string * V)) :
  JSMap.get k reg = None → JSMap.get k (JSMap.delete k' reg) = None.
Proof.
  induction reg as [|[k0 v0] reg IH]; simpl; [done|].
  destruct (String.eqb k k0) eqn:E; [done|]. intros H.
  destruct (String.eqb k' k0); [done|]. simpl. rewrite E. by apply IH.
Qed.

Lemma evict_removes id ids : ∀ m,
  NoDup (JSMap.keys (activeSessions m)) →
  id ∈ ids ∨ getSession id m = None →
  getSession id
    (fold_left (fun m k => with_sessions (JSMap.delete k (activeSessions m)) m) ids m)
  = None.
Proof.
  induction ids as [|k ids IH]; intros m Hnd Hin; simpl.
  - destruct Hin as [Hin|Hin]; [by apply elem_of_nil in Hin|done].
  - apply IH.
    + simpl. eapply sublist_NoDup; [exact Hnd|apply keys_delete_sublist].
    + destruct Hin as [Hin|Hin].
      * apply elem_of_cons in Hin as [->|Hin]; [|by left].
        right. unfold getSession. simpl. by apply get_delete_eq.
      * right. unfold getSession. simpl. by apply get_delete_None.
Qed.

(** X9. In a registry without repeated keys, the sweep evicts every terminal
    session whose non-zero end time lies more than twenty-four hours back:
    its id is no longer registered afterwards. *)
Theorem sweep_evicts_expired_sessions
  (now : Z) (m : Manager.t) (id : string) (s : WaterSession.t) :
  NoDup (JSMap.keys (activeSessions m)) →
  getSession id m = Some s →
  Registry.expired now s →
  getSession id (cleanupOldSessions now m) = None
  ∧ id ∉ JSMap.keys (activeSessions (cleanupOldSessions now m)).
Proof.
  intros Hnd Hget Hs.
  assert (Hnone : getSession id (cleanupOldSessions now m) = None).
  { unfold cleanupOldSessions.
    pose proof (sweep_lists_expired now id s Hs
                  (JSMap.keys (activeSessions m)) m [] Hget) as Hlisted.
    pose proof (keys_sweep now (JSMap.keys (activeSessions m)) (m, [])) as Hkeys.
    destruct (fold_left (sweepEntry now) _ (m, [])) as [m1 rem]. simpl in *.
    apply evict_removes; [by rewrite Hkeys|].
    left. apply Hlisted. right. by apply (get_In_keys _ s). }
  split; [done|]. by apply get_None_keys.
Qed.

End Retention.

(** ** Ingestion client: failures, backoff and recovery *)

Section Retries.
Import MirrorNode.
Variable parsePayload : string → result (option HCSMessage).
Variable verifyHCSMessage : option HCSMessage → result VerificationResult.t.

Local Abbreviation poll := (poll parsePayload verifyHCSMessage).
Local Abbreviation polls := (polls parsePayload verifyHCSMessage).
Local Abbreviation processMessages := (processMessages parsePayload verifyHCSMessage).

Lemma polls_stopped outcomes c :
  isPolling c = false → polls outcomes c = (c, []).
Proof.
  intros H. induction outcomes as [|o outcomes IH]; simpl; [done|].
  unfold MirrorNode.poll. rewrite H. simpl. by rewrite IH.
Qed.

Lemma poll_failed error c :
  isPolling c = true → poll (Failed error) c = (handlePollError error c, []).
Proof. intros H. unfold MirrorNode.poll. by rewrite H. Qed.

Lemma handlePollError_stops error c :
  MirrorNodeConfig.maxRetries (config c) <= retryCount c + 1 →
  handlePollError error c
  = MirrorNode.mk (config c) (lastSequenceNumber c) false None (retryCount c + 1).
Proof.
  intros H. unfold handlePollError. simpl.
  apply Z.leb_le in H. by rewrite H.
Qed.

Lemma handlePollError_retries error c :
  retryCount c + 1 < MirrorNodeConfig.maxRetries (config c) →
  handlePollError error c
  = MirrorNode.mk (config c) (lastSequenceNumber c) (isPolling c)
      (Some (Number.Math_min
               (Number.Math_pow2 (retryCount c + 1)
                * MirrorNodeConfig.pollInterval (config c))%float
               60000%float))
      (retryCount c + 1).
Proof.
  intros H. unfold handlePollError. simpl.
  apply Z.leb_gt in H. by rewrite H.
Qed.

(** X10. Once the consecutive failures of a polling client reach maxRetries,
    polling is stopped with no timer pending; the cursor is where it was,
    nothing was delivered, and every later cycle does nothing. *)
Theorem polling_stops_when_retries_are_exhausted
  (c : MirrorNode.t) (errors : list string) (later : list FetchOutcome) :
  isPolling c = true →
  errors ≠ [] →
  MirrorNodeConfig.maxRetries (config c) <= retryCount c + Z.of_nat (length errors) →
  let c' := (polls (map Failed errors) c).1 in
  isPolling c' = false
  ∧ pollTimeout c' = None
  ∧ lastSequenceNumber c' = lastSequenceNumber c
  ∧ (polls (map Failed errors) c).2 = []
  ∧ polls later c' = (c', []).
Proof.
  intros Hpoll Hne Hmax. simpl.
  assert (H : isPolling (polls (map Failed errors) c).1 = false
              ∧ pollTimeout (polls (map Failed errors) c).1 = None
              ∧ lastSequenceNumber (polls (map Failed errors) c).1
                = lastSequenceNumber c
              ∧ (polls (map Failed errors) c).2 = []).
  { revert c Hpoll Hne Hmax.
    induction errors as [|e errors IH]; intros c Hpoll Hne Hmax; [done|].
    cbn [map MirrorNode.polls]. rewrite (poll_failed e c Hpoll).
    destruct (Z_le_gt_dec (MirrorNodeConfig.maxRetries (config c)) (retryCount c + 1))
      as [Hstop|Hgo].
    - rewrite (handlePollError_stops e c Hstop).
      rewrite polls_stopped by done. done.
    - rewrite (handlePollError_retries e c) by lia.
      set (c1 := MirrorNode.mk _ _ _ _ _).
      assert (Hne1 : errors ≠ []).
      { intros ->. simpl in Hmax. lia. }
      destruct (IH c1) as (H1 & H2 & H3 & H4); [done|done| |].
      { subst c1. simpl. simpl length in Hmax. lia. }
      destruct (polls (map Failed errors) c1) as [c2 d2]. simpl in *.
      by subst d2. }
  destruct H as (H1 & H2 & H3 & H4).
  repeat (split; [done|]). by apply polls_stopped.
Qed.

Lemma ltb_leb (x y : number) : (x <? y)%float = true → (x <=? y)%float = true.
Proof.
  rewrite FloatAxioms.ltb_spec, FloatAxioms.leb_spec.
  unfold SpecFloat.SFltb, SpecFloat.SFleb.
  by destruct (SpecFloat.SFcompare _ _) as [[| |]|].
Qed.

Lemma zero_cases (x : number) :
  is_zero x = true → x = 0%float ∨ x = (-0)%float.
Proof.
  unfold is_zero. rewrite FloatAxioms.eqb_spec. intros H.
  rewrite <- (FloatAxioms.SF2Prim_Prim2SF x).
  destruct (Prim2SF x) as [[|]|[|]| |[|] m e]; vm_compute in H; try discriminate;
    [by right|by left].
Qed.

Lemma Math_min_nan (x : number) :
  is_nan (Number.Math_min x 60000) = is_nan x.
Proof.
  unfold Number.Math_min. destruct (is_nan x) eqn:E; simpl; [done|].
  destruct (x <? 60000)%float; [done|].
  destruct (60000 <? x)%float; [done|].
  by destruct (is_zero x && get_sign x).
Qed.

Lemma Math_min_capped (x : number) :
  (Number.Math_min x 60000 <=? 60000)%float = true
  ∨ is_nan (Number.Math_min x 60000) = true.
Proof.
  unfold Number.Math_min. destruct (is_nan x) eqn:E; simpl; [by right|].
  left. destruct (x <? 60000)%float eqn:Hlt; [by apply ltb_leb|].
  destruct (60000 <? x)%float; [done|].
  destruct (is_zero x) eqn:Hz; simpl; [|done].
  destruct (zero_cases x Hz) as [->| ->]; done.
Qed.

(** From 1024 on the power of two is [Infinity], and its product with a
    zero is NaN. *)
Lemma overflow_times_zero (n : Z) (x : number) :
  1024 <= n → is_zero x = true → is_nan (Number.Math_pow2 n * x)%float = true.
Proof.
  intros Hn Hz. unfold Number.Math_pow2, Z.ldexp.
  set (e := Z.max (Z.min n (emax - SpecFloat.emin prec emax))
                  (SpecFloat.emin prec emax - emax - 1)).
  assert (He : e ∈ seqZ 1024 1075).
  { apply elem_of_seqZ. subst e. unfold emax, SpecFloat.emin, prec. lia. }
  assert (Hall : forallb (fun k =>
                            is_nan (ldshiftexp 1 (Uint63.of_Z (k + FloatOps.shift)) * 0)%float
                            && is_nan (ldshiftexp 1 (Uint63.of_Z (k + FloatOps.shift)) * (-0))%float)
                   (seqZ 1024 1075) = true) by (vm_compute; reflexivity).
  rewrite forallb_forall in Hall.
  apply list_elem_of_In, Hall, andb_true_iff in He as [H0 H1].
  by destruct (zero_cases x Hz) as [->| ->].
Qed.

(** X11. A failure that leaves retries keeps the client polling and the
    cursor in place, counts the retry, and arms a timer with
    Math.min(2^retryCount * pollInterval, 60000), computed in binary64 with
    the new count.  The delay is at most one minute unless it is NaN, and it
    is NaN exactly when the product is: so it is when pollInterval is zero
    and the count has reached 1024, where the power of two is Infinity. *)
Theorem failure_backs_off
  (c : MirrorNode.t) (error : string) :
  isPolling c = true →
  retryCount c + 1 < MirrorNodeConfig.maxRetries (config c) →
  let product :=
    (Number.Math_pow2 (retryCount c + 1)
     * MirrorNodeConfig.pollInterval (config c))%float in
  let delay := Number.Math_min product 60000 in
  poll (Failed error) c
  = (MirrorNode.mk (config c) (lastSequenceNumber c) true (Some delay)
       (retryCount c + 1), [])
  ∧ ((delay <=? 60000)%float = true ∨ is_nan delay = true)
  ∧ is_nan delay = is_nan product
  ∧ (1024 <= retryCount c + 1 →
     is_zero (MirrorNodeConfig.pollInterval (config c)) = true →
     is_nan delay = true).
Proof.
  intros Hpoll Hlt. simpl. split; [|split; [|split]].
  - rewrite (poll_failed error c Hpoll).
    rewrite (handlePollError_retries error c Hlt). by rewrite Hpoll.
  - apply Math_min_capped.
  - apply Math_min_nan.
  - intros Hn Hz. rewrite Math_min_nan. by apply overflow_times_zero.
Qed.

Lemma failures_keep_polling errors : ∀ c,
  isPolling c = true →
  retryCount c + Z.of_nat (length errors) < MirrorNodeConfig.maxRetries (config c) →
  isPolling (polls (map Failed errors) c).1 = true
  ∧ config (polls (map Failed errors) c).1 = config c
  ∧ lastSequenceNumber (polls (map Failed errors) c).1 = lastSequenceNumber c
  ∧ (polls (map Failed errors) c).2 = [].
Proof.
  induction errors as [|e errors IH]; intros c Hpoll Hlt; [done|].
  cbn [map MirrorNode.polls]. rewrite (poll_failed e c Hpoll).
  simpl length in Hlt.
  rewrite (handlePollError_retries e c) by lia.
  set (c1 := MirrorNode.mk _ _ _ _ _).
  destruct (IH c1) as (H1 & H2 & H3 & H4); [done|subst c1; simpl; lia|].
  destruct (polls (map Failed errors) c1) as [c2 d2]. simpl in *.
  by subst d2.
Qed.

Lemma polls_app outcomes1 outcomes2 c :
  polls (outcomes1 ++ outcomes2) c
  = let '(c1, d1) := polls outcomes1 c in
    let '(c2, d2) := polls outcomes2 c1 in
    (c2, d1 ++ d2).
Proof.
  revert c. induction outcomes1 as [|o outcomes1 IH]; intros c; simpl.
  - by destruct (polls outcomes2 c).
  - destruct (poll o c) as [c0 d0]. rewrite IH.
    destruct (polls outcomes1 c0) as [c1 d1].
    destruct (polls outcomes2 c1) as [c2 d2]. by rewrite app_assoc.
Qed.

Lemma poll_fetched_state page c :
  isPolling c = true →
  poll (Fetched page) c
  = (MirrorNode.mk (config c)
       match processMessages page with
       | [] => lastSequenceNumber c
       | first :: others =>
           Math_max (ProcessedMessage.sequenceNumber first)
                    (map ProcessedMessage.sequenceNumber others)
       end
       true (Some (MirrorNodeConfig.pollInterval (config c))) 0,
     processMessages page).
Proof.
  intros H. unfold MirrorNode.poll, scheduleNextPoll. rewrite H. simpl.
  destruct (MirrorNode.processMessages _ _ page); simpl; by rewrite ?H.
Qed.

(** X12. A successful cycle after any number of failures short of maxRetries
    delivers its whole page, resets the retry count to zero and arms the next
    poll at the base interval. *)
Theorem success_resets_the_backoff
  (c : MirrorNode.t) (errors : list string) (page : list TopicMessage.t) :
  isPolling c = true →
  retryCount c + Z.of_nat (length errors) < MirrorNodeConfig.maxRetries (config c) →
  let outcome := polls (map Failed errors ++ [Fetched page]) c in
  isPolling outcome.1 = true
  ∧ retryCount outcome.1 = 0
  ∧ pollTimeout outcome.1 = Some (MirrorNodeConfig.pollInterval (config c))
  ∧ outcome.2 = processMessages page.
Proof.
  intros Hpoll Hlt. simpl. rewrite polls_app.
  destruct (failures_keep_polling errors c Hpoll Hlt) as (H1 & H2 & H3 & H4).
  destruct (polls (map Failed errors) c) as [c1 d1]. simpl in *. subst d1.
  cbn [MirrorNode.polls]. rewrite (poll_fetched_state page c1 H1). simpl.
  by rewrite H2, app_nil_r.
Qed.

(** X13. processMessages keeps the page's length and order and every
    sequence number; each result carries validation errors exactly when it is
    not valid; and a payload that does not parse, or whose verification
    throws, comes out not valid, without a message. *)
Theorem processMessages_keeps_the_page (rawMessages : list TopicMessage.t) :
  map ProcessedMessage.sequenceNumber (processMessages rawMessages)
  = map TopicMessage.sequence_number rawMessages
  ∧ Forall (fun pm => ProcessedMessage.validationErrors pm = None
                      ↔ ProcessedMessage.isValid pm = true)
      (processMessages rawMessages)
  ∧ Forall2 (fun raw pm =>
               (∃ e, parsePayload (TopicMessage.message raw) = Thrown e
                     ∨ (∃ hcs, parsePayload (TopicMessage.message raw) = Returned hcs
                               ∧ verifyHCSMessage hcs = Thrown e)) →
               ProcessedMessage.isValid pm = false
               ∧ ProcessedMessage.message pm = None)
      rawMessages (processMessages rawMessages).
Proof.
  unfold MirrorNode.processMessages. split; [|split].
  - rewrite map_map. apply map_ext. intros raw.
    unfold MirrorNode.processMessage.
    destruct (parsePayload _); [|done]. by destruct (verifyHCSMessage _).
  - apply Forall_forall. intros pm Hpm.
    apply list_elem_of_fmap in Hpm as (raw & -> & _).
    unfold MirrorNode.processMessage.
    destruct (parsePayload _) as [hcs|]; [|done].
    destruct (verifyHCSMessage hcs) as [v|]; [|done]. simpl.
    by destruct (VerificationResult.isValid v).
  - induction rawMessages as [|raw rawMessages IH]; simpl; constructor; [|done].
    unfold MirrorNode.processMessage.
    intros (e & [He|(hcs & Hp & Hv)]).
    + by rewrite He.
    + by rewrite Hp, Hv.
Qed.

End Retries.

(** ** Verification pipeline: the verdict *)

Section Verdict.
Import Pipeline.
Variable verifySignature : HCSMessage → string → bool.

Lemma pushIf_false e errors : pushIf false e errors = errors.
Proof. done. Qed.

Lemma pushIf_true_not_nil e errors : pushIf true e errors ≠ [].
Proof. unfold pushIf. by destruct errors. Qed.

Lemma verifyMessage_errors message now p device :
  getDevice (HCS.deviceId message) p = Some device →
  VerificationResult.errors (verifyMessage verifySignature message now p).2
  = pushIf (negb (verifySignature message (DeviceRegistry.publicKey device)))
      "Message signature verification failed"
      (pushIf (negb (validateTimestamp now (HCS.timestamp message)))
         "Message timestamp is outside acceptable range"
         (pushIf (negb (String.eqb (DeviceRegistry.wellId device) (HCS.wellId message)))
            "Device is not associated with the specified well"
            (pushIf (negb (DeviceRegistry.isActive device)) "Device is not active" [])))
    ++ Rules.kindErrors message p
  ∧ VerificationResult.isValid (verifyMessage verifySignature message now p).2
    = Nat.eqb
        (length (VerificationResult.errors
                   (verifyMessage verifySignature message now p).2)) 0
  ∧ VerificationResult.deviceInfo (verifyMessage verifySignature message now p).2
    = Some (DeviceRegistry.set_lastSeen (HCS.timestamp message) device).
Proof.
  intros Hdev. unfold verifyMessage. rewrite Hdev.
  destruct message as [flow|msg]; simpl.
  - by destruct (validateWaterFlowMessage flow p).
  - done.
Qed.

(** X14. For a registered device the verdict is valid exactly when the
    device is active, its registered well is the message's, the timestamp is
    within the drift, the signature checks and the kind-specific stage raises
    no error; valid means an empty error list; and the result carries the
    registration with lastSeen already stamped. *)
Theorem verdict_of_verifyMessage
  (message : HCSMessage) (now : number) (p : Pipeline.t) (device : DeviceRegistry.t) :
  getDevice (HCS.deviceId message) p = Some device →
  let r := (verifyMessage verifySignature message now p).2 in
  (VerificationResult.isValid r = true
   ↔ DeviceRegistry.isActive device = true
     ∧ DeviceRegistry.wellId device = HCS.wellId message
     ∧ validateTimestamp now (HCS.timestamp message) = true
     ∧ verifySignature message (DeviceRegistry.publicKey device) = true
     ∧ Rules.kindErrors message p = [])
  ∧ (VerificationResult.isValid r = true ↔ VerificationResult.errors r = [])
  ∧ VerificationResult.deviceInfo r
    = Some (DeviceRegistry.set_lastSeen (HCS.timestamp message) device).
Proof.
  intros Hdev r. subst r.
  destruct (verifyMessage_errors message now p device Hdev) as (Herr & Hvalid & Hinfo).
  rewrite Hvalid, Herr. split; [|split; [|done]].
  - rewrite Nat.eqb_eq, length_zero_iff_nil. split.
    + intros H. apply app_eq_nil in H as [H Hkind].
      apply pushIf_nil in H as [H4 H]. apply pushIf_nil in H as [H3 H].
      apply pushIf_nil in H as [H2 H]. apply pushIf_nil in H as [H1 _].
      apply negb_false_iff in H1, H2, H3, H4. apply String.eqb_eq in H2. done.
    + intros (H1 & H2 & H3 & H4 & Hkind).
      apply String.eqb_eq in H2. by rewrite H1, H2, H3, H4, Hkind.
  - by rewrite Nat.eqb_eq, length_zero_iff_nil.
Qed.

(** X15. The kind-specific stage raises no error exactly when every one of
    its comparisons is false: for a flow event the sign and range
    comparisons and, only if the key is already tracked, the duration and
    volume comparisons against the tracked entry; for a status message the
    seven range comparisons. *)
Theorem kind_rules_pass_exactly
  (flow : WaterFlowMessage.t) (msg : DeviceStatusMessage.t) (p : Pipeline.t) :
  ((validateWaterFlowMessage flow p).2 = [] ↔ Rules.flowPasses flow p)
  ∧ (validateDeviceStatusMessage msg = [] ↔ Rules.statusPasses msg).
Proof.
  split.
  - unfold validateWaterFlowMessage, Rules.flowPasses.
    destruct (activeSessions p !! sessionKey flow) as [existing|]; simpl.
    + destruct (maxSessionDuration
                <? WaterFlowMessage.timestamp flow - Tracking.startTime existing)%float,
        (WaterFlowMessage.totalVolume flow <? Tracking.totalVolume existing)%float,
        (WaterFlowMessage.flowRate flow <? 0)%float,
        (WaterFlowMessage.totalVolume flow <? 0)%float,
        (WaterFlowMessage.pulseCount flow <? 0)%float,
        (WaterFlowMessage.pressure flow <? 0)%float,
        (200 <? WaterFlowMessage.pressure flow)%float,
        (WaterFlowMessage.temperature flow <? -10)%float,
        (60 <? WaterFlowMessage.temperature flow)%float; simpl;
        split; try done; intros H; decompose [and] H; congruence.
    + destruct (WaterFlowMessage.flowRate flow <? 0)%float,
        (WaterFlowMessage.totalVolume flow <? 0)%float,
        (WaterFlowMessage.pulseCount flow <? 0)%float,
        (WaterFlowMessage.pressure flow <? 0)%float,
        (200 <? WaterFlowMessage.pressure flow)%float,
        (WaterFlowMessage.temperature flow <? -10)%float,
        (60 <? WaterFlowMessage.temperature flow)%float; simpl;
        split; try done; intros H; decompose [and] H; congruence.
  - unfold validateDeviceStatusMessage, Rules.statusPasses.
    destruct (DeviceStatusMessage.batteryLevel msg <? 0)%float,
      (100 <? DeviceStatusMessage.batteryLevel msg)%float,
      (DeviceStatusMessage.signalStrength msg <? -120)%float,
      (0 <? DeviceStatusMessage.signalStrength msg)%float,
      (Diagnostics.memoryUsage (DeviceStatusMessage.diagnostics msg) <? 0)%float,
      (100 <? Diagnostics.memoryUsage (DeviceStatusMessage.diagnostics msg))%float,
      (Diagnostics.uptime (DeviceStatusMessage.diagnostics msg) <? 0)%float; simpl;
      split; try done; intros H; decompose [and] H; congruence.
Qed.

(** X16. Whatever the verdict, verifying a message of a registered device
    stamps that registration's lastSeen with the message's timestamp and
    changes nothing else of it, nor any other registration. *)
Theorem verifyMessage_stamps_lastSeen
  (message : HCSMessage) (now : number) (p : Pipeline.t) (device : DeviceRegistry.t) :
  getDevice (HCS.deviceId message) p = Some device →
  let p' := (verifyMessage verifySignature message now p).1 in
  getDevice (HCS.deviceId message) p'
  = Some (DeviceRegistry.set_lastSeen (HCS.timestamp message) device)
  ∧ (∀ d, d ≠ HCS.deviceId message → getDevice d p' = getDevice d p).
Proof.
  intros Hdev. simpl. unfold verifyMessage. rewrite Hdev.
  destruct message as [flow|msg]; simpl.
  - destruct (validateWaterFlowMessage flow p) as [p1 errs] eqn:E.
    assert (Hreg : deviceRegistry p1 = deviceRegistry p).
    { apply (f_equal fst) in E. simpl in E. subst p1.
      unfold validateWaterFlowMessage.
      by destruct (activeSessions p !! sessionKey flow). }
    unfold getDevice. simpl. rewrite Hreg.
    split; [apply lookup_insert_eq|intros d Hne; by apply lookup_insert_ne].
  - unfold getDevice. simpl.
    split; [apply lookup_insert_eq|intros d Hne; by apply lookup_insert_ne].
Qed.

End Verdict.

(** ** Verification pipeline: NaN readings, expiry and keys *)

Section TrackingEdges.
Import Pipeline.

Lemma ltb_nan_r (x : number) : (x <? nan)%float = false.
Proof.
  rewrite FloatAxioms.ltb_spec. change (Prim2SF nan) with S754_nan.
  by destruct (Prim2SF x).
Qed.

Lemma ltb_nan_l (x : number) : (nan <? x)%float = false.
Proof. rewrite FloatAxioms.ltb_spec. by change (Prim2SF nan) with S754_nan. Qed.

Lemma in_pushIf x c e errors :
  In x (pushIf c e errors) ↔ (c = true ∧ x = e) ∨ In x errors.
Proof.
  unfold pushIf. destruct c.
  - rewrite in_app_iff. simpl. intuition congruence.
  - intuition congruence.
Qed.

Lemma decrease_error_needs_comparison flow p :
  In "Total volume cannot decrease during session" (validateWaterFlowMessage flow p).2 →
  ∃ existing, activeSessions p !! sessionKey flow = Some existing
              ∧ (WaterFlowMessage.totalVolume flow <? Tracking.totalVolume existing)%float
                = true.
Proof.
  unfold validateWaterFlowMessage.
  destruct (activeSessions p !! sessionKey flow) as [existing|]; simpl;
    rewrite !in_pushIf; simpl; intros H.
  - exists existing. split; [done|].
    decompose [or and] H; try discriminate; done.
  - decompose [or and] H; try discriminate; done.
Qed.

Lemma negative_error_needs_comparison flow p :
  In "Total volume cannot be negative" (validateWaterFlowMessage flow p).2 →
  (WaterFlowMessage.totalVolume flow <? 0)%float = true.
Proof.
  unfold validateWaterFlowMessage.
  destruct (activeSessions p !! sessionKey flow) as [existing|]; simpl;
    rewrite !in_pushIf; simpl; intros H;
    decompose [or and] H; try discriminate; done.
Qed.

(** X17. The comparisons are blind to NaN: a flow event whose volume reading
    is NaN raises neither the decreasing-volume nor the negative-volume
    error, its NaN becomes the tracked volume, and the next event of the key
    is not held to any earlier volume. *)
Theorem nan_volume_disarms_the_volume_check
  (flow next : WaterFlowMessage.t) (p : Pipeline.t) :
  WaterFlowMessage.totalVolume flow = nan →
  sessionKey next = sessionKey flow →
  ¬ In "Total volume cannot decrease during session" (validateWaterFlowMessage flow p).2
  ∧ ¬ In "Total volume cannot be negative" (validateWaterFlowMessage flow p).2
  ∧ ¬ In "Total volume cannot decrease during session"
        (validateWaterFlowMessage next (validateWaterFlowMessage flow p).1).2.
Proof.
  intros Hnan Hkey. split; [|split].
  - intros H. apply decrease_error_needs_comparison in H as (e & _ & H).
    by rewrite Hnan, ltb_nan_l in H.
  - intros H. apply negative_error_needs_comparison in H.
    by rewrite Hnan, ltb_nan_l in H.
  - intros H. apply decrease_error_needs_comparison in H as (e & He & H).
    rewrite Hkey, validateWaterFlowMessage_tracking, lookup_insert_eq in He.
    injection He as <-. simpl in H. by rewrite Hnan, ltb_nan_r in H.
Qed.

(** X18. cleanupExpiredSessions drops exactly the tracking entries whose
    start lies more than maxSessionDuration before the reading and touches no
    registration; the next flow event of a dropped key opens a fresh entry
    and raises neither the duration nor the decreasing-volume error. *)
Theorem cleanupExpiredSessions_drops_old_tracking
  (now : number) (p : Pipeline.t) (key : string) :
  deviceRegistry (cleanupExpiredSessions now p) = deviceRegistry p
  ∧ activeSessions (cleanupExpiredSessions now p) !! key
    = match activeSessions p !! key with
      | Some entry =>
          if (maxSessionDuration <? now - Tracking.startTime entry)%float
          then None else Some entry
      | None => None
      end
  ∧ (∀ flow,
       sessionKey flow = key →
       activeSessions (cleanupExpiredSessions now p) !! key = None →
       activeSessions (validateWaterFlowMessage flow (cleanupExpiredSessions now p)).1
         !! key
       = Some (Tracking.mk (WaterFlowMessage.timestamp flow)
                           (WaterFlowMessage.totalVolume flow))
       ∧ ¬ In "Total volume cannot decrease during session"
             (validateWaterFlowMessage flow (cleanupExpiredSessions now p)).2
       ∧ ¬ In "Session duration exceeds maximum allowed time"
             (validateWaterFlowMessage flow (cleanupExpiredSessions now p)).2).
Proof.
  split; [done|]. split.
  - unfold cleanupExpiredSessions. simpl. rewrite map_lookup_filter.
    destruct (activeSessions p !! key) as [entry|]; simpl; [|done].
    case_guard as Hg; simpl in Hg;
      by destruct (maxSessionDuration <? now - Tracking.startTime entry)%float.
  - intros flow <- Hnone. split; [|split].
    + rewrite validateWaterFlowMessage_tracking, lookup_insert_eq. by rewrite Hnone.
    + intros H. apply decrease_error_needs_comparison in H as (e & He & _).
      congruence.
    + unfold validateWaterFlowMessage. rewrite Hnone. simpl.
      rewrite !in_pushIf. simpl. intros H.
      decompose [or and] H; try discriminate; done.
Qed.

Lemma append_assoc (a b c : string) : (a +:+ b) +:+ c = a +:+ (b +:+ c).
Proof.
  induction a as [|ch a IH]; [reflexivity|].
  change (String ch ((a +:+ b) +:+ c) = String ch (a +:+ (b +:+ c))).
  by f_equal.
Qed.

(** X19. The tracking key is the device id, a hyphen and the session id run
    together, so it does not separate the two: a device whose id ends in
    "-x" and a session id that begins with "x-" give one key, and the two
    streams share one tracking entry. *)
Theorem sessionKey_runs_ids_together
  (flow flow' : WaterFlowMessage.t) (x : string) :
  WaterFlowMessage.deviceId flow' = WaterFlowMessage.deviceId flow +:+ "-" +:+ x →
  WaterFlowMessage.sessionId flow = x +:+ "-" +:+ WaterFlowMessage.sessionId flow' →
  sessionKey flow' = sessionKey flow.
Proof.
  intros Hd Hs. unfold sessionKey. rewrite Hd, Hs.
  by rewrite !append_assoc.
Qed.

End TrackingEdges.

(** ** Message formats: what deserialization returns *)

Section Deserialize.
Import Formats.

Lemma validateHCSMessage_cases v :
  JS.nullish v = false →
  validateHCSMessage v
  = if JS.isString "WATER_FLOW" (JS.member "messageType" v)
    then validateWaterFlowMessage v
    else if JS.isString "DEVICE_STATUS" (JS.member "messageType" v)
    then validateDeviceStatusMessage v
    else Returned false.
Proof. intros H. unfold validateHCSMessage. by rewrite H. Qed.

(** X20. deserializeMessage returns an object exactly when the text is JSON
    and the parsed value passes validateHCSMessage, and then it returns that
    parsed value; text that is not JSON, and JSON that is not an object
    (null included, on which the validator throws), give null. *)
Theorem deserializeMessage_returns_validated_objects (data : JSON.Text) :
  (∀ v, deserializeMessage data = Some v
        ↔ ∃ d, data = JSON.Json d ∧ v = JSON.valueOf d
               ∧ validateHCSMessage v = Returned true)
  ∧ (∀ raw, data = JSON.Malformed raw → deserializeMessage data = None)
  ∧ (∀ d, data = JSON.Json d → (∀ members, d ≠ JSON.Object members) →
          deserializeMessage data = None).
Proof.
  split; [|split].
  - intros v. unfold deserializeMessage. destruct data as [d|raw]; simpl.
    + destruct (validateHCSMessage (JSON.valueOf d)) as [[|]|] eqn:E.
      * split.
        -- intros [= <-]. by exists d.
        -- by intros (d' & [= <-] & -> & _).
      * split; [done|]. intros (d' & [= <-] & -> & H). congruence.
      * split; [done|]. intros (d' & [= <-] & -> & H). congruence.
    + split; [done|]. by intros (d' & ? & _).
  - by intros raw ->.
  - intros d -> Hd. unfold deserializeMessage. simpl.
    destruct d; try done. by destruct (Hd members).
Qed.

(** X21. No value passes both validators, and validateHCSMessage accepts a
    value exactly when one of the two does: the kinds do not overlap. *)
Theorem message_kinds_do_not_overlap (v : JS.Value) :
  (validateHCSMessage v = Returned true
   ↔ validateWaterFlowMessage v = Returned true
     ∨ validateDeviceStatusMessage v = Returned true)
  ∧ (validateWaterFlowMessage v = Returned true →
     validateDeviceStatusMessage v = Returned false).
Proof.
  destruct (JS.nullish v) eqn:Hn.
  { unfold validateHCSMessage, validateWaterFlowMessage, validateDeviceStatusMessage.
    rewrite Hn. split; [|done]. split; [done|]. by intros [|]. }
  rewrite (validateHCSMessage_cases v Hn).
  unfold validateWaterFlowMessage, validateDeviceStatusMessage. rewrite Hn.
  destruct (JS.member "messageType" v) as [| | | |s| |]; simpl;
    try (split; [split; [done|by intros [|]]|done]).
  destruct (String.eqb s "WATER_FLOW") eqn:E1; simpl.
  - apply String.eqb_eq in E1. subst s. simpl.
    split; [|done]. split; [by left|]. by intros [|].
  - destruct (String.eqb s "DEVICE_STATUS"); simpl.
    + split; [|done]. split; [by right|]. by intros [|].
    + split; [|done]. split; [done|]. by intros [|].
Qed.

(** X22. The validators look at the type of each top-level field and at
    nothing else: every typed message passes as its own kind and fails as the
    other, whatever its readings, NaN and out-of-range values included. *)
Theorem typed_messages_pass_validation (flow : WaterFlowMessage.t)
  (msg : DeviceStatusMessage.t) :
  validateWaterFlowMessage (toValue (WATER_FLOW flow)) = Returned true
  ∧ validateDeviceStatusMessage (toValue (WATER_FLOW flow)) = Returned false
  ∧ validateDeviceStatusMessage (toValue (DEVICE_STATUS msg)) = Returned true
  ∧ validateWaterFlowMessage (toValue (DEVICE_STATUS msg)) = Returned false
  ∧ validateHCSMessage (toValue (WATER_FLOW flow)) = Returned true
  ∧ validateHCSMessage (toValue (DEVICE_STATUS msg)) = Returned true.
Proof.
  split; [|split; [|split; [|split; [|split]]]].
  - unfold validateWaterFlowMessage. simpl.
    by destruct (WaterFlowMessage.valveStatus flow).
  - done.
  - unfold validateDeviceStatusMessage. simpl.
    destruct (DeviceStatusMessage.status msg);
      by destruct (DeviceStatusMessage.errorCode msg).
  - done.
  - apply typed_message_is_valid.
  - apply typed_message_is_valid.
Qed.

End Deserialize.

(** ** Broadcast queue of the mock server *)

Section Queue.
Context {A : Type}.
Import MockWebSocketServer.
Implicit Types (s : MockWebSocketServer.t A) (message : WebSocketMessage.t A).

Lemma slice_negative {B} (n : nat) (l : list B) :
  (0 < n)%nat → JSArray.slice (- Z.of_nat n) l = JSArray.lastN n l.
Proof.
  intros Hn. unfold JSArray.slice, JSArray.lastN.
  destruct (- Z.of_nat n <? 0) eqn:E; [|apply Z.ltb_ge in E; lia].
  f_equal. lia.
Qed.

Lemma lastN_all {B} (n : nat) (l : list B) : (length l ≤ n)%nat → JSArray.lastN n l = l.
Proof. intros H. unfold JSArray.lastN. by replace (length l - n)%nat with 0%nat by lia. Qed.

Lemma lastN_app_lastN {B} (n : nat) (l k : list B) :
  JSArray.lastN n (JSArray.lastN n l ++ k) = JSArray.lastN n (l ++ k).
Proof.
  unfold JSArray.lastN. rewrite !length_app, !length_drop.
  destruct (decide (length l ≤ n)%nat) as [Hle|Hgt].
  - replace (length l - n)%nat with 0%nat by lia. simpl. f_equal. lia.
  - replace (length l + length k - n)%nat
      with ((length l - n) + length k)%nat by lia.
    rewrite <- drop_drop. rewrite (drop_app_le l) by lia.
    f_equal. lia.
Qed.

Lemma broadcast_running message s :
  isRunning s = true →
  broadcast message s
  = MockWebSocketServer.mk (clients s) (JSArray.lastN 100 (messageQueue s ++ [message])) true.
Proof.
  intros H. unfold broadcast. rewrite H. simpl. f_equal.
  destruct (100 <? length (messageQueue s ++ [message]))%nat eqn:E.
  - change (-100) with (- Z.of_nat 100). apply slice_negative. lia.
  - apply Nat.ltb_ge in E. by rewrite lastN_all.
Qed.

(** X23. A running server keeps the last hundred messages broadcast, oldest
    first: after any run of broadcasts the queue is the tail of at most a
    hundred of everything queued and broadcast so far; a server that is not
    running drops every broadcast. *)
Theorem broadcast_keeps_the_last_hundred
  (s : MockWebSocketServer.t A) (messages : list (WebSocketMessage.t A)) :
  let s' := fold_left (fun s message => broadcast message s) messages s in
  (isRunning s = false → s' = s)
  ∧ (isRunning s = true →
     (length (messageQueue s) ≤ 100)%nat →
     messageQueue s' = JSArray.lastN 100 (messageQueue s ++ messages)
     ∧ (length (messageQueue s') ≤ 100)%nat
     ∧ clients s' = clients s ∧ isRunning s' = true).
Proof.
  simpl. split.
  - intros H. induction messages as [|m messages IH]; simpl; [done|].
    unfold broadcast at 2. by rewrite H.
  - revert s. induction messages as [|m messages IH]; intros s Hrun Hlen; simpl.
    + rewrite app_nil_r, lastN_all by done. done.
    + rewrite (broadcast_running m s Hrun).
      set (s1 := MockWebSocketServer.mk _ _ _).
      destruct (IH s1) as (Hq & Hl & Hc & Hr); [done| |].
      { subst s1. simpl. unfold JSArray.lastN. rewrite length_drop. lia. }
      split; [|done]. rewrite Hq. subst s1. simpl.
      by rewrite lastN_app_lastN, <- app_assoc.
Qed.

(** X24. getMessageHistory(limit) with a positive limit returns the last
    min(limit, queue size) messages; with limit 0 it returns the whole queue,
    not nothing, since slice(-0) is slice(0); with a negative limit it drops
    the first -limit messages. *)
Theorem getMessageHistory_by_limit (limit : Z) (s : MockWebSocketServer.t A) :
  (0 < limit →
   getMessageHistory limit s = JSArray.lastN (Z.to_nat limit) (messageQueue s)
   ∧ length (getMessageHistory limit s)
     = Nat.min (Z.to_nat limit) (length (messageQueue s)))
  ∧ (limit = 0 → getMessageHistory limit s = messageQueue s)
  ∧ (limit < 0 → getMessageHistory limit s = drop (Z.to_nat (- limit)) (messageQueue s)).
Proof.
  unfold getMessageHistory. split; [|split].
  - intros H.
    assert (E : JSArray.slice (- limit) (messageQueue s)
                = JSArray.lastN (Z.to_nat limit) (messageQueue s)).
    { rewrite <- (slice_negative (Z.to_nat limit)) by lia. f_equal. lia. }
    rewrite E. split; [done|]. unfold JSArray.lastN. rewrite length_drop. lia.
  - intros ->. unfold JSArray.slice. simpl. by rewrite Z.min_l by lia.
  - intros H. unfold JSArray.slice.
    destruct (- limit <? 0) eqn:E; [apply Z.ltb_lt in E; lia|].
    destruct (decide (- limit <= Z.of_nat (length (messageQueue s)))) as [Hle|Hgt].
    + by rewrite Z.min_l.
    + rewrite Z.min_r by lia. rewrite Nat2Z.id.
      rewrite !drop_ge; [done|lia|lia].
Qed.

End Queue.

(** ** The further properties at concrete inputs *)

Lemma maintenance_report_keeps_the_registry :
  Manager.activeSessions
    (Manager.processMessage
       (Scenario.verified 2 (DEVICE_STATUS Scenario.maintenanceD2)) 3000
       Scenario.afterCreate)
  = Manager.activeSessions Scenario.afterCreate.
Proof.
  apply (proj2 (proj2 (status_report_upserts_liveness
                         (Scenario.verified 2 (DEVICE_STATUS Scenario.maintenanceD2))
                         Scenario.maintenanceD2 3000 Scenario.afterCreate
                         eq_refl eq_refl))).
  discriminate.
Defined.

Lemma offline_D1_cancels_S1 :
  Manager.getSession "S1"
    (Manager.processMessage Scenario.offlineD1 3000 Scenario.afterCreate)
  = Some (WaterSession.set_errorMessage (Some "Device went offline")
            (WaterSession.set_endTime (Some 3000)
               (WaterSession.set_status Status.cancelled Scenario.createdS1))).
Proof.
  exact (proj1 (offline_report_cancels_active_session
                  Scenario.offlineD1
                  (Scenario.statusMessage "D1" "F1" DeviceState.OFFLINE)
                  3000 Scenario.afterCreate Scenario.createdS1
                  eq_refl eq_refl eq_refl eq_refl eq_refl)).
Defined.

Lemma second_S1_replaces_the_completed_one :
  ∃ session,
    (Manager.createSession Scenario.sessionS1 7000 Scenario.afterScenarioA).2
    = Returned session
    ∧ Manager.getSession "S1"
        (Manager.createSession Scenario.sessionS1 7000 Scenario.afterScenarioA).1
      = Some session
    ∧ WaterSession.status session = Status.active
    ∧ WaterSession.startTime session = 7000
    ∧ WaterSession.flowEvents session = []
    ∧ WaterSession.totalVolume session = 0%float
    ∧ JSMap.keys (Manager.activeSessions
                    (Manager.createSession Scenario.sessionS1 7000
                       Scenario.afterScenarioA).1)
      = JSMap.keys (Manager.activeSessions Scenario.afterScenarioA).
Proof.
  apply (createSession_replaces_registered_id
           Scenario.sessionS1 7000 Scenario.afterScenarioA Scenario.completedS1);
    vm_compute; reflexivity.
Defined.

Lemma sweep_keeps_fresh_S1 :
  Manager.getSession "S1" (Manager.cleanupOldSessions 3000 Scenario.afterCreate)
  = Some Scenario.createdS1.
Proof.
  apply (sweep_keeps_settled_sessions 3000 Scenario.afterCreate "S1"
           Scenario.createdS1 eq_refl).
  split; vm_compute; discriminate.
Defined.

Lemma sweep_evicts_S1_a_day_later :
  Manager.getSession "S1"
    (Manager.cleanupOldSessions 86405001 Scenario.afterScenarioA)
  = None.
Proof.
  apply (sweep_evicts_expired_sessions 86405001 Scenario.afterScenarioA "S1"
           Scenario.completedS1).
  - replace (JSMap.keys (Manager.activeSessions Scenario.afterScenarioA))
      with ["S1"] by (vm_compute; reflexivity).
    apply NoDup_singleton.
  - vm_compute; reflexivity.
  - split; [vm_compute; discriminate|]. split; vm_compute; reflexivity.
Defined.

Lemma five_failures_stop_the_client :
  MirrorNode.isPolling
    (MirrorNode.polls Scenario.unparsable Scenario.unverified
       (map MirrorNode.Failed ["e1"; "e2"; "e3"; "e4"; "e5"]) Scenario.client).1
  = false.
Proof.
  apply (polling_stops_when_retries_are_exhausted
           Scenario.unparsable Scenario.unverified Scenario.client
           ["e1"; "e2"; "e3"; "e4"; "e5"] [] eq_refl).
  - discriminate.
  - simpl. lia.
Defined.

Lemma first_failure_waits_ten_seconds :
  MirrorNode.poll Scenario.unparsable Scenario.unverified
    (MirrorNode.Failed "timeout") Scenario.client
  = (MirrorNode.mk (MirrorNode.config Scenario.client) 0 true
       (Some 10000%float) 1, []).
Proof.
  refine (proj1 (failure_backs_off Scenario.unparsable Scenario.unverified
                   Scenario.client "timeout" eq_refl _)).
  vm_compute. reflexivity.
Defined.

(** Scenario E: two failures, then a success. *)
Lemma scenario_E_resets_the_backoff :
  let outcome :=
    MirrorNode.polls Scenario.unparsable Scenario.unverified
      (map MirrorNode.Failed ["e1"; "e2"] ++ [MirrorNode.Fetched [Scenario.raw 1]])
      Scenario.client in
  MirrorNode.isPolling outcome.1 = true
  ∧ MirrorNode.retryCount outcome.1 = 0
  ∧ MirrorNode.pollTimeout outcome.1 = Some 5000%float
  ∧ outcome.2
    = MirrorNode.processMessages Scenario.unparsable Scenario.unverified
        [Scenario.raw 1].
Proof.
  apply (success_resets_the_backoff Scenario.unparsable Scenario.unverified
           Scenario.client ["e1"; "e2"] [Scenario.raw 1] eq_refl).
  simpl. lia.
Defined.

Lemma verdict_on_first_flow_event :
  VerificationResult.deviceInfo
    (Pipeline.verifyMessage Scenario.signed
       (WATER_FLOW (Scenario.flowMessage "D1" "S1" "U1" 5%float ValveStatus.OPEN))
       1000%float Scenario.pipelineD1).2
  = Some (DeviceRegistry.set_lastSeen 1000%float Scenario.deviceD1).
Proof.
  exact (proj2 (proj2 (verdict_of_verifyMessage Scenario.signed
           (WATER_FLOW (Scenario.flowMessage "D1" "S1" "U1" 5%float ValveStatus.OPEN))
           1000%float Scenario.pipelineD1 Scenario.deviceD1 eq_refl))).
Defined.

Lemma lastSeen_of_D1_is_stamped :
  Pipeline.getDevice "D1"
    (Pipeline.verifyMessage Scenario.signed
       (WATER_FLOW (Scenario.flowMessage "D1" "S1" "U1" 5%float ValveStatus.OPEN))
       1000%float Scenario.pipelineD1).1
  = Some (DeviceRegistry.set_lastSeen 1000%float Scenario.deviceD1).
Proof.
  exact (proj1 (verifyMessage_stamps_lastSeen Scenario.signed
           (WATER_FLOW (Scenario.flowMessage "D1" "S1" "U1" 5%float ValveStatus.OPEN))
           1000%float Scenario.pipelineD1 Scenario.deviceD1 eq_refl)).
Defined.

Lemma nan_reading_then_any_volume :
  ¬ In "Total volume cannot decrease during session"
      (Pipeline.validateWaterFlowMessage
         (Scenario.flowMessage "D1" "S1" "U1" 1%float ValveStatus.OPEN)
         (Pipeline.validateWaterFlowMessage
            (Scenario.flowMessage "D1" "S1" "U1" nan ValveStatus.OPEN)
            Scenario.pipelineD1).1).2
  ∧ True.
Proof.
  split; [|exact I].
  exact (proj2 (proj2 (nan_volume_disarms_the_volume_check
           (Scenario.flowMessage "D1" "S1" "U1" nan ValveStatus.OPEN)
           (Scenario.flowMessage "D1" "S1" "U1" 1%float ValveStatus.OPEN)
           Scenario.pipelineD1 eq_refl eq_refl))).
Defined.

Lemma keys_of_D1_and_D1A_coincide :
  Pipeline.sessionKey Scenario.flowOfD1A = Pipeline.sessionKey Scenario.flowOfD1.
Proof.
  exact (sessionKey_runs_ids_together Scenario.flowOfD1 Scenario.flowOfD1A "A"
           eq_refl eq_refl).
Defined.

Lemma three_pings_are_queued :
  MockWebSocketServer.messageQueue Scenario.server
  = [Scenario.ping 1; Scenario.ping 2; Scenario.ping 3].
Proof.
  exact (proj1 (proj2 (@broadcast_keeps_the_last_hundred unit
                         (MockWebSocketServer.start MockWebSocketServer.new)
                         [Scenario.ping 1; Scenario.ping 2; Scenario.ping 3])
                  eq_refl (le_0_n 100))).
Defined.

Lemma history_of_two :
  MockWebSocketServer.getMessageHistory 2 Scenario.server
  = [Scenario.ping 2; Scenario.ping 3].
Proof.
  exact (proj1 (proj1 (@getMessageHistory_by_limit unit 2 Scenario.server) eq_refl)).
Defined.

Lemma repeated_member_and_array :
  Formats.deserializeMessage (JSON.Json Scenario.repeated)
  = Some (JSON.valueOf Scenario.repeated)
  ∧ JS.member "messageType" (JSON.valueOf Scenario.repeated) = JS.String "WATER_FLOW"
  ∧ Formats.deserializeMessage (JSON.Json (JSON.Array [Scenario.repeated])) = None.
Proof.
  split; [|split; [reflexivity|]].
  - apply (proj1 (deserializeMessage_returns_validated_objects
                    (JSON.Json Scenario.repeated))).
    exists Scenario.repeated. repeat split.
  - apply (proj2 (proj2 (deserializeMessage_returns_validated_objects
                           (JSON.Json (JSON.Array [Scenario.repeated]))))
             (JSON.Array [Scenario.repeated]) eq_refl).
    discriminate.
Defined.
